(** * PricePredictorPage: the prediction and market-sync controller

    A shallow embedding of the client-side logic of
    [src/pages/PricePredictorPage.tsx]: the option loader ([fetchOptions]),
    the market synchronisation effect ([fetchMarketData]), the form
    handlers ([handleChange], [handleSubmit]) and the city normaliser
    ([normalizeCity]).

    React state is a record with one field per [useState] cell; every
    [setX] call is a function on that record.  An [async] function is cut
    at its [await fetch(...)]: the part before it runs when the function is
    called, the part after it runs when the request settles.  Requests in
    flight are kept in a finite map from request ids to requests. *)

From Stdlib Require Import ZArith QArith Ascii String List Lia Bool.
From stdpp Require Import base option gmap.
Import ListNotations.

Local Open Scope string_scope.
Local Open Scope list_scope.

(** ** JavaScript built-ins used by the page

    A string of the form, of a request or of a response is kept as a
    string of characters, one character for each of its code units: the
    strings of the page are those whose code units are below 256.  The
    labels that [normalizeCity] compares are lower-cased, which depends on
    the case tables of Unicode; they are taken as sequences of arbitrary
    code units, in [UTF16] below. *)
Module JS.

Definition chars (s : string) : list ascii := list_ascii_of_string s.
Definition str (l : list ascii) : string := string_of_list_ascii l.

Definition code (c : ascii) : N := N_of_ascii c.

Definition between (lo hi : N) (c : ascii) : bool :=
  ((lo <=? code c) && (code c <=? hi))%N.

(** [\d] *)
Definition is_digit (c : ascii) : bool := between 48 57 c.
Definition is_upper (c : ascii) : bool := between 65 90 c.
(** [\s], and the white space that [Number] drops: of the code units below
    256 these are TAB, LF, VT, FF, CR, the space and the no-break space. *)
Definition is_space (c : ascii) : bool :=
  between 9 13 c || (code c =? 32)%N || (code c =? 160)%N.

(** The canonical form of a character under the [i] flag, on the letters
    of ASCII.  The patterns of the page are ASCII letters, and no other
    code unit has the canonical form of one. *)
Definition lower_char (c : ascii) : ascii :=
  if is_upper c then ascii_of_N (code c + 32) else c.

Fixpoint dropWhile (p : ascii -> bool) (l : list ascii) : list ascii :=
  match l with
  | [] => []
  | c :: l' => if p c then dropWhile p l' else l
  end.

Fixpoint takeWhile (p : ascii -> bool) (l : list ascii) : list ascii :=
  match l with
  | [] => []
  | c :: l' => if p c then c :: takeWhile p l' else []
  end.

Definition trimStart (l : list ascii) : list ascii := dropWhile is_space l.
Definition trimEnd (l : list ascii) : list ascii := rev (dropWhile is_space (rev l)).
(** The string without the white space at its two ends. *)
Definition trim (l : list ascii) : list ascii := trimEnd (trimStart l).

(** A string is falsy exactly when it is empty. *)
Definition truthy (s : string) : bool :=
  match s with EmptyString => false | _ => true end.

(** [a || b] on strings. *)
Definition or_str (a b : string) : string := if truthy a then a else b.

(** *** Numbers

    A number is NaN, an infinity, or a finite binary64 value kept as the
    rational it denotes (the two zeros are not told apart: nothing in the
    page looks at the sign of zero). *)
Inductive number : Type :=
| NaN
| Inf (negative : bool)
| Fin (q : Q).

(** [a < b] and [a > b]: every comparison with NaN is false. *)
Definition less (a b : number) : bool :=
  match a, b with
  | NaN, _ | _, NaN => false
  | Inf true, Inf true => false
  | Inf true, _ => true
  | _, Inf true => false
  | Inf false, _ => false
  | Fin _, Inf false => true
  | Fin x, Fin y => negb (Qle_bool y x)
  end.
Definition greater (a b : number) : bool := less b a.

Definition isNaN (a : number) : bool :=
  match a with NaN => true | _ => false end.

Definition of_Z (z : Z) : number := Fin (inject_Z z).

Definition neg (a : number) : number :=
  match a with
  | NaN => NaN
  | Inf s => Inf (negb s)
  | Fin q => Fin (Qopp q)
  end.

(** Round-to-nearest, ties-to-even, of the non-negative rational [n / d]
    to binary64: 53 bits of significand, least exponent -1074, overflow to
    infinity from 2^1024 - 2^970 on. *)
Definition round_binary64 (n : Z) (d : positive) : number :=
  if (n <=? 0)%Z then Fin 0 else
  let e0 := (Z.log2 n - Z.log2 (Zpos d))%Z in
  (* e = floor (log2 (n / d)) *)
  let ge_pow (k : Z) : bool :=
    if (0 <=? k)%Z then (Zpos d * 2 ^ k <=? n)%Z else (Zpos d <=? n * 2 ^ (- k))%Z in
  let e := if ge_pow e0 then e0 else (e0 - 1)%Z in
  let p := Z.max (e - 52) (-1074) in
  let num := if (0 <=? p)%Z then n else (n * 2 ^ (- p))%Z in
  let den := if (0 <=? p)%Z then (Zpos d * 2 ^ p)%Z else Zpos d in
  let q := (num / den)%Z in
  let r := (num mod den)%Z in
  let m :=
    match (2 * r ?= den)%Z with
    | Lt => q
    | Gt => (q + 1)%Z
    | Eq => if Z.even q then q else (q + 1)%Z
    end in
  if (0 <=? p)%Z then
    if (2 ^ 1024 <=? m * 2 ^ p)%Z then Inf false else Fin (inject_Z (m * 2 ^ p))
  else Fin (Qred (Qmake m (Z.to_pos (2 ^ (- p))))).

Definition digit_val (c : ascii) : Z :=
  let n := Z.of_N (code c) in
  if is_digit c then (n - 48)%Z
  else if between 97 102 c then (n - 87)%Z
  else if between 65 70 c then (n - 55)%Z
  else 0%Z.

Definition digits_val (base : Z) (l : list ascii) : Z :=
  fold_left (fun acc c => (acc * base + digit_val c)%Z) l 0%Z.

Definition is_hex (c : ascii) : bool :=
  is_digit c || between 97 102 c || between 65 70 c.
Definition is_octal (c : ascii) : bool := between 48 55 c.
Definition is_binary (c : ascii) : bool := between 48 49 c.

(** [ExponentPart]: nothing, or [e]/[E], an optional sign and digits. *)
Definition parse_exponent (l : list ascii) : option Z :=
  match l with
  | [] => Some 0%Z
  | c :: l' =>
      if (code c =? 101)%N || (code c =? 69)%N then
        let '(sgn, ds) :=
          match l' with
          | "+"%char :: ds => (1%Z, ds)
          | "-"%char :: ds => ((-1)%Z, ds)
          | _ => (1%Z, l')
          end in
        match ds with
        | [] => None
        | _ => if forallb is_digit ds then Some (sgn * digits_val 10 ds)%Z else None
        end
      else None
  end.

(** The value [m * 10 ^ e] of a decimal literal, rounded. *)
Definition decimal_value (m e : Z) : number :=
  if (0 <=? e)%Z then round_binary64 (m * 10 ^ e) 1
  else round_binary64 m (Z.to_pos (10 ^ (- e))).

(** [StrUnsignedDecimalLiteral] *)
Definition parse_unsigned (l : list ascii) : number :=
  if String.eqb (str l) "Infinity" then Inf false else
  let ip := takeWhile is_digit l in
  let r1 := dropWhile is_digit l in
  let '(fp, r2) :=
    match r1 with
    | "."%char :: r => (takeWhile is_digit r, dropWhile is_digit r)
    | _ => ([], r1)
    end in
  match ip, fp with
  | [], [] => NaN
  | _, _ =>
      match parse_exponent r2 with
      | Some e => decimal_value (digits_val 10 (ip ++ fp)) (e - Z.of_nat (length fp))
      | None => NaN
      end
  end.

(** [NonDecimalIntegerLiteral]: [0x], [0o], [0b] and their capitals. *)
Definition parse_radix (l : list ascii) : option number :=
  match l with
  | "0"%char :: c :: ds =>
      let lit (ok : ascii -> bool) (base : Z) : option number :=
        match ds with
        | [] => Some NaN
        | _ => if forallb ok ds then Some (round_binary64 (digits_val base ds) 1)
               else Some NaN
        end in
      if (code c =? 120)%N || (code c =? 88)%N then lit is_hex 16%Z
      else if (code c =? 111)%N || (code c =? 79)%N then lit is_octal 8%Z
      else if (code c =? 98)%N || (code c =? 66)%N then lit is_binary 2%Z
      else None
  | _ => None
  end.

(** [Number(s)] on a string: surrounding white space is dropped, the empty
    string is zero, anything that is not a numeric literal is NaN. *)
Definition Number (s : string) : number :=
  match trim (chars s) with
  | [] => Fin 0
  | "+"%char :: l => parse_unsigned l
  | "-"%char :: l => neg (parse_unsigned l)
  | l =>
      match parse_radix l with
      | Some v => v
      | None => parse_unsigned l
      end
  end.


(** *** Regular expressions

    The option loader uses three fixed patterns; the matchers below are
    the backtracking matchers of their pieces. *)

(** A literal under the [i] flag, anchored at the current position: the
    input left after it. *)
Fixpoint literal_ci (pat l : list ascii) : option (list ascii) :=
  match pat, l with
  | [], _ => Some l
  | p :: pat', c :: l' =>
      if Ascii.eqb (lower_char p) (lower_char c) then literal_ci pat' l' else None
  | _ :: _, [] => None
  end.

(** [re.test(s)] for an unanchored pattern: the match is tried at every
    position from the left. *)
Fixpoint test (at_pos : list ascii -> bool) (l : list ascii) : bool :=
  at_pos l || match l with [] => false | _ :: l' => test at_pos l' end.

(** ** Strings of arbitrary characters

    The labels that [normalizeCity] compares are taken as JavaScript has
    them: sequences of UTF-16 code units, a code unit being a number below
    2^16.  Numbers from 2^16 on are not code units; no function below
    changes them. *)
Module UTF16.

Local Open Scope N_scope.

(** The string of JavaScript that a string of the page stands for: one
    code unit for each character. *)
Definition units (s : string) : list N := map N_of_ascii (list_ascii_of_string s).

(** [a === b] on strings. *)
Fixpoint equal (a b : list N) : bool :=
  match a, b with
  | [], [] => true
  | x :: a', y :: b' => (x =? y) && equal a' b'
  | _, _ => false
  end.

Definition between (lo hi u : N) : bool := (lo <=? u) && (u <=? hi).

(** [\d] and [\w] of a pattern without the [u] and [i] flags *)
Definition is_digit (u : N) : bool := between 48 57 u.
Definition is_zero (u : N) : bool := u =? 48.
Definition is_word (u : N) : bool :=
  is_digit u || between 65 90 u || between 97 122 u || (u =? 95).

(** [\b] at the current position; [prev_word] tells whether the code unit
    before it is a word character. *)
Definition word_boundary (prev_word : bool) (l : list N) : bool :=
  xorb prev_word (match l with c :: _ => is_word c | [] => false end).

(** [WhiteSpace] and [LineTerminator]: TAB, LF, VT, FF, CR, the space, the
    no-break space, the other space separators of Unicode, the line and
    paragraph separators and the byte order mark. *)
Definition is_white_space (u : N) : bool :=
  between 9 13 u || (u =? 0x20) || (u =? 0xA0) || (u =? 0x1680)
  || between 0x2000 0x200A u || (u =? 0x2028) || (u =? 0x2029) || (u =? 0x202F)
  || (u =? 0x205F) || (u =? 0x3000) || (u =? 0xFEFF).

Fixpoint dropWhile (p : N -> bool) (l : list N) : list N :=
  match l with
  | [] => []
  | c :: l' => if p c then dropWhile p l' else l
  end.

Definition trimStart (l : list N) : list N := dropWhile is_white_space l.
Definition trimEnd (l : list N) : list N := rev (dropWhile is_white_space (rev l)).
(** [s.trim()] *)
Definition trim (l : list N) : list N := trimEnd (trimStart l).

(** *** Code points

    A high surrogate followed by a low surrogate stands for one code point
    from 0x10000 on; every other code unit stands for itself. *)
Definition is_high (u : N) : bool := between 0xD800 0xDBFF u.
Definition is_low (u : N) : bool := between 0xDC00 0xDFFF u.
Definition surrogate (u : N) : bool := is_high u || is_low u.

Definition code_point (h l : N) : N := 0x10000 + (h - 0xD800) * 0x400 + (l - 0xDC00).

Definition code_units (cp : N) : list N :=
  if cp <? 0x10000 then [cp]
  else [0xD800 + (cp - 0x10000) / 0x400; 0xDC00 + (cp - 0x10000) mod 0x400].

(** The code unit [u] and the first of [rest] are a surrogate pair. *)
Definition paired (u : N) (rest : list N) : bool :=
  match rest with
  | l :: _ => is_high u && is_low l
  | [] => false
  end.

(** *** The case tables of Unicode *)

(** The code points with a lower-case mapping of one code point in
    [UnicodeData.txt] (Unicode 14.0), each with its image. *)
Definition lower_pairs : list (N * N) :=
  [
   (0x41, 0x61); (0x42, 0x62); (0x43, 0x63); (0x44, 0x64); (0x45, 0x65); (0x46, 0x66);
   (0x47, 0x67); (0x48, 0x68); (0x49, 0x69); (0x4A, 0x6A); (0x4B, 0x6B); (0x4C, 0x6C);
   (0x4D, 0x6D); (0x4E, 0x6E); (0x4F, 0x6F); (0x50, 0x70); (0x51, 0x71); (0x52, 0x72);
   (0x53, 0x73); (0x54, 0x74); (0x55, 0x75); (0x56, 0x76); (0x57, 0x77); (0x58, 0x78);
   (0x59, 0x79); (0x5A, 0x7A); (0xC0, 0xE0); (0xC1, 0xE1); (0xC2, 0xE2); (0xC3, 0xE3);
   (0xC4, 0xE4); (0xC5, 0xE5); (0xC6, 0xE6); (0xC7, 0xE7); (0xC8, 0xE8); (0xC9, 0xE9);
   (0xCA, 0xEA); (0xCB, 0xEB); (0xCC, 0xEC); (0xCD, 0xED); (0xCE, 0xEE); (0xCF, 0xEF);
   (0xD0, 0xF0); (0xD1, 0xF1); (0xD2, 0xF2); (0xD3, 0xF3); (0xD4, 0xF4); (0xD5, 0xF5);
   (0xD6, 0xF6); (0xD8, 0xF8); (0xD9, 0xF9); (0xDA, 0xFA); (0xDB, 0xFB); (0xDC, 0xFC);
   (0xDD, 0xFD); (0xDE, 0xFE); (0x100, 0x101); (0x102, 0x103); (0x104, 0x105); (0x106, 0x107);
   (0x108, 0x109); (0x10A, 0x10B); (0x10C, 0x10D); (0x10E, 0x10F); (0x110, 0x111); (0x112, 0x113);
   (0x114, 0x115); (0x116, 0x117); (0x118, 0x119); (0x11A, 0x11B); (0x11C, 0x11D); (0x11E, 0x11F);
   (0x120, 0x121); (0x122, 0x123); (0x124, 0x125); (0x126, 0x127); (0x128, 0x129); (0x12A, 0x12B);
   (0x12C, 0x12D); (0x12E, 0x12F); (0x132, 0x133); (0x134, 0x135); (0x136, 0x137); (0x139, 0x13A);
   (0x13B, 0x13C); (0x13D, 0x13E); (0x13F, 0x140); (0x141, 0x142); (0x143, 0x144); (0x145, 0x146);
   (0x147, 0x148); (0x14A, 0x14B); (0x14C, 0x14D); (0x14E, 0x14F); (0x150, 0x151); (0x152, 0x153);
   (0x154, 0x155); (0x156, 0x157); (0x158, 0x159); (0x15A, 0x15B); (0x15C, 0x15D); (0x15E, 0x15F);
   (0x160, 0x161); (0x162, 0x163); (0x164, 0x165); (0x166, 0x167); (0x168, 0x169); (0x16A, 0x16B);
   (0x16C, 0x16D); (0x16E, 0x16F); (0x170, 0x171); (0x172, 0x173); (0x174, 0x175); (0x176, 0x177);
   (0x178, 0xFF); (0x179, 0x17A); (0x17B, 0x17C); (0x17D, 0x17E); (0x181, 0x253); (0x182, 0x183);
   (0x184, 0x185); (0x186, 0x254); (0x187, 0x188); (0x189, 0x256); (0x18A, 0x257); (0x18B, 0x18C);
   (0x18E, 0x1DD); (0x18F, 0x259); (0x190, 0x25B); (0x191, 0x192); (0x193, 0x260); (0x194, 0x263);
   (0x196, 0x269); (0x197, 0x268); (0x198, 0x199); (0x19C, 0x26F); (0x19D, 0x272); (0x19F, 0x275);
   (0x1A0, 0x1A1); (0x1A2, 0x1A3); (0x1A4, 0x1A5); (0x1A6, 0x280); (0x1A7, 0x1A8); (0x1A9, 0x283);
   (0x1AC, 0x1AD); (0x1AE, 0x288); (0x1AF, 0x1B0); (0x1B1, 0x28A); (0x1B2, 0x28B); (0x1B3, 0x1B4);
   (0x1B5, 0x1B6); (0x1B7, 0x292); (0x1B8, 0x1B9); (0x1BC, 0x1BD); (0x1C4, 0x1C6); (0x1C5, 0x1C6);
   (0x1C7, 0x1C9); (0x1C8, 0x1C9); (0x1CA, 0x1CC); (0x1CB, 0x1CC); (0x1CD, 0x1CE); (0x1CF, 0x1D0);
   (0x1D1, 0x1D2); (0x1D3, 0x1D4); (0x1D5, 0x1D6); (0x1D7, 0x1D8); (0x1D9, 0x1DA); (0x1DB, 0x1DC);
   (0x1DE, 0x1DF); (0x1E0, 0x1E1); (0x1E2, 0x1E3); (0x1E4, 0x1E5); (0x1E6, 0x1E7); (0x1E8, 0x1E9);
   (0x1EA, 0x1EB); (0x1EC, 0x1ED); (0x1EE, 0x1EF); (0x1F1, 0x1F3); (0x1F2, 0x1F3); (0x1F4, 0x1F5);
   (0x1F6, 0x195); (0x1F7, 0x1BF); (0x1F8, 0x1F9); (0x1FA, 0x1FB); (0x1FC, 0x1FD); (0x1FE, 0x1FF);
   (0x200, 0x201); (0x202, 0x203); (0x204, 0x205); (0x206, 0x207); (0x208, 0x209); (0x20A, 0x20B);
   (0x20C, 0x20D); (0x20E, 0x20F); (0x210, 0x211); (0x212, 0x213); (0x214, 0x215); (0x216, 0x217);
   (0x218, 0x219); (0x21A, 0x21B); (0x21C, 0x21D); (0x21E, 0x21F); (0x220, 0x19E); (0x222, 0x223);
   (0x224, 0x225); (0x226, 0x227); (0x228, 0x229); (0x22A, 0x22B); (0x22C, 0x22D); (0x22E, 0x22F);
   (0x230, 0x231); (0x232, 0x233); (0x23A, 0x2C65); (0x23B, 0x23C); (0x23D, 0x19A); (0x23E, 0x2C66);
   (0x241, 0x242); (0x243, 0x180); (0x244, 0x289); (0x245, 0x28C); (0x246, 0x247); (0x248, 0x249);
   (0x24A, 0x24B); (0x24C, 0x24D); (0x24E, 0x24F); (0x370, 0x371); (0x372, 0x373); (0x376, 0x377);
   (0x37F, 0x3F3); (0x386, 0x3AC); (0x388, 0x3AD); (0x389, 0x3AE); (0x38A, 0x3AF); (0x38C, 0x3CC);
   (0x38E, 0x3CD); (0x38F, 0x3CE); (0x391, 0x3B1); (0x392, 0x3B2); (0x393, 0x3B3); (0x394, 0x3B4);
   (0x395, 0x3B5); (0x396, 0x3B6); (0x397, 0x3B7); (0x398, 0x3B8); (0x399, 0x3B9); (0x39A, 0x3BA);
   (0x39B, 0x3BB); (0x39C, 0x3BC); (0x39D, 0x3BD); (0x39E, 0x3BE); (0x39F, 0x3BF); (0x3A0, 0x3C0);
   (0x3A1, 0x3C1); (0x3A3, 0x3C3); (0x3A4, 0x3C4); (0x3A5, 0x3C5); (0x3A6, 0x3C6); (0x3A7, 0x3C7);
   (0x3A8, 0x3C8); (0x3A9, 0x3C9); (0x3AA, 0x3CA); (0x3AB, 0x3CB); (0x3CF, 0x3D7); (0x3D8, 0x3D9);
   (0x3DA, 0x3DB); (0x3DC, 0x3DD); (0x3DE, 0x3DF); (0x3E0, 0x3E1); (0x3E2, 0x3E3); (0x3E4, 0x3E5);
   (0x3E6, 0x3E7); (0x3E8, 0x3E9); (0x3EA, 0x3EB); (0x3EC, 0x3ED); (0x3EE, 0x3EF); (0x3F4, 0x3B8);
   (0x3F7, 0x3F8); (0x3F9, 0x3F2); (0x3FA, 0x3FB); (0x3FD, 0x37B); (0x3FE, 0x37C); (0x3FF, 0x37D);
   (0x400, 0x450); (0x401, 0x451); (0x402, 0x452); (0x403, 0x453); (0x404, 0x454); (0x405, 0x455);
   (0x406, 0x456); (0x407, 0x457); (0x408, 0x458); (0x409, 0x459); (0x40A, 0x45A); (0x40B, 0x45B);
   (0x40C, 0x45C); (0x40D, 0x45D); (0x40E, 0x45E); (0x40F, 0x45F); (0x410, 0x430); (0x411, 0x431);
   (0x412, 0x432); (0x413, 0x433); (0x414, 0x434); (0x415, 0x435); (0x416, 0x436); (0x417, 0x437);
   (0x418, 0x438); (0x419, 0x439); (0x41A, 0x43A); (0x41B, 0x43B); (0x41C, 0x43C); (0x41D, 0x43D);
   (0x41E, 0x43E); (0x41F, 0x43F); (0x420, 0x440); (0x421, 0x441); (0x422, 0x442); (0x423, 0x443);
   (0x424, 0x444); (0x425, 0x445); (0x426, 0x446); (0x427, 0x447); (0x428, 0x448); (0x429, 0x449);
   (0x42A, 0x44A); (0x42B, 0x44B); (0x42C, 0x44C); (0x42D, 0x44D); (0x42E, 0x44E); (0x42F, 0x44F);
   (0x460, 0x461); (0x462, 0x463); (0x464, 0x465); (0x466, 0x467); (0x468, 0x469); (0x46A, 0x46B);
   (0x46C, 0x46D); (0x46E, 0x46F); (0x470, 0x471); (0x472, 0x473); (0x474, 0x475); (0x476, 0x477);
   (0x478, 0x479); (0x47A, 0x47B); (0x47C, 0x47D); (0x47E, 0x47F); (0x480, 0x481); (0x48A, 0x48B);
   (0x48C, 0x48D); (0x48E, 0x48F); (0x490, 0x491); (0x492, 0x493); (0x494, 0x495); (0x496, 0x497);
   (0x498, 0x499); (0x49A, 0x49B); (0x49C, 0x49D); (0x49E, 0x49F); (0x4A0, 0x4A1); (0x4A2, 0x4A3);
   (0x4A4, 0x4A5); (0x4A6, 0x4A7); (0x4A8, 0x4A9); (0x4AA, 0x4AB); (0x4AC, 0x4AD); (0x4AE, 0x4AF);
   (0x4B0, 0x4B1); (0x4B2, 0x4B3); (0x4B4, 0x4B5); (0x4B6, 0x4B7); (0x4B8, 0x4B9); (0x4BA, 0x4BB);
   (0x4BC, 0x4BD); (0x4BE, 0x4BF); (0x4C0, 0x4CF); (0x4C1, 0x4C2); (0x4C3, 0x4C4); (0x4C5, 0x4C6);
   (0x4C7, 0x4C8); (0x4C9, 0x4CA); (0x4CB, 0x4CC); (0x4CD, 0x4CE); (0x4D0, 0x4D1); (0x4D2, 0x4D3);
   (0x4D4, 0x4D5); (0x4D6, 0x4D7); (0x4D8, 0x4D9); (0x4DA, 0x4DB); (0x4DC, 0x4DD); (0x4DE, 0x4DF);
   (0x4E0, 0x4E1); (0x4E2, 0x4E3); (0x4E4, 0x4E5); (0x4E6, 0x4E7); (0x4E8, 0x4E9); (0x4EA, 0x4EB);
   (0x4EC, 0x4ED); (0x4EE, 0x4EF); (0x4F0, 0x4F1); (0x4F2, 0x4F3); (0x4F4, 0x4F5); (0x4F6, 0x4F7);
   (0x4F8, 0x4F9); (0x4FA, 0x4FB); (0x4FC, 0x4FD); (0x4FE, 0x4FF); (0x500, 0x501); (0x502, 0x503);
   (0x504, 0x505); (0x506, 0x507); (0x508, 0x509); (0x50A, 0x50B); (0x50C, 0x50D); (0x50E, 0x50F);
   (0x510, 0x511); (0x512, 0x513); (0x514, 0x515); (0x516, 0x517); (0x518, 0x519); (0x51A, 0x51B);
   (0x51C, 0x51D); (0x51E, 0x51F); (0x520, 0x521); (0x522, 0x523); (0x524, 0x525); (0x526, 0x527);
   (0x528, 0x529); (0x52A, 0x52B); (0x52C, 0x52D); (0x52E, 0x52F); (0x531, 0x561); (0x532, 0x562);
   (0x533, 0x563); (0x534, 0x564); (0x535, 0x565); (0x536, 0x566); (0x537, 0x567); (0x538, 0x568);
   (0x539, 0x569); (0x53A, 0x56A); (0x53B, 0x56B); (0x53C, 0x56C); (0x53D, 0x56D); (0x53E, 0x56E);
   (0x53F, 0x56F); (0x540, 0x570); (0x541, 0x571); (0x542, 0x572); (0x543, 0x573); (0x544, 0x574);
   (0x545, 0x575); (0x546, 0x576); (0x547, 0x577); (0x548, 0x578); (0x549, 0x579); (0x54A, 0x57A);
   (0x54B, 0x57B); (0x54C, 0x57C); (0x54D, 0x57D); (0x54E, 0x57E); (0x54F, 0x57F); (0x550, 0x580);
   (0x551, 0x581); (0x552, 0x582); (0x553, 0x583); (0x554, 0x584); (0x555, 0x585); (0x556, 0x586);
   (0x10A0, 0x2D00); (0x10A1, 0x2D01); (0x10A2, 0x2D02); (0x10A3, 0x2D03); (0x10A4, 0x2D04); (0x10A5, 0x2D05);
   (0x10A6, 0x2D06); (0x10A7, 0x2D07); (0x10A8, 0x2D08); (0x10A9, 0x2D09); (0x10AA, 0x2D0A); (0x10AB, 0x2D0B);
   (0x10AC, 0x2D0C); (0x10AD, 0x2D0D); (0x10AE, 0x2D0E); (0x10AF, 0x2D0F); (0x10B0, 0x2D10); (0x10B1, 0x2D11);
   (0x10B2, 0x2D12); (0x10B3, 0x2D13); (0x10B4, 0x2D14); (0x10B5, 0x2D15); (0x10B6, 0x2D16); (0x10B7, 0x2D17);
   (0x10B8, 0x2D18); (0x10B9, 0x2D19); (0x10BA, 0x2D1A); (0x10BB, 0x2D1B); (0x10BC, 0x2D1C); (0x10BD, 0x2D1D);
   (0x10BE, 0x2D1E); (0x10BF, 0x2D1F); (0x10C0, 0x2D20); (0x10C1, 0x2D21); (0x10C2, 0x2D22); (0x10C3, 0x2D23);
   (0x10C4, 0x2D24); (0x10C5, 0x2D25); (0x10C7, 0x2D27); (0x10CD, 0x2D2D); (0x13A0, 0xAB70); (0x13A1, 0xAB71);
   (0x13A2, 0xAB72); (0x13A3, 0xAB73); (0x13A4, 0xAB74); (0x13A5, 0xAB75); (0x13A6, 0xAB76); (0x13A7, 0xAB77);
   (0x13A8, 0xAB78); (0x13A9, 0xAB79); (0x13AA, 0xAB7A); (0x13AB, 0xAB7B); (0x13AC, 0xAB7C); (0x13AD, 0xAB7D);
   (0x13AE, 0xAB7E); (0x13AF, 0xAB7F); (0x13B0, 0xAB80); (0x13B1, 0xAB81); (0x13B2, 0xAB82); (0x13B3, 0xAB83);
   (0x13B4, 0xAB84); (0x13B5, 0xAB85); (0x13B6, 0xAB86); (0x13B7, 0xAB87); (0x13B8, 0xAB88); (0x13B9, 0xAB89);
   (0x13BA, 0xAB8A); (0x13BB, 0xAB8B); (0x13BC, 0xAB8C); (0x13BD, 0xAB8D); (0x13BE, 0xAB8E); (0x13BF, 0xAB8F);
   (0x13C0, 0xAB90); (0x13C1, 0xAB91); (0x13C2, 0xAB92); (0x13C3, 0xAB93); (0x13C4, 0xAB94); (0x13C5, 0xAB95);
   (0x13C6, 0xAB96); (0x13C7, 0xAB97); (0x13C8, 0xAB98); (0x13C9, 0xAB99); (0x13CA, 0xAB9A); (0x13CB, 0xAB9B);
   (0x13CC, 0xAB9C); (0x13CD, 0xAB9D); (0x13CE, 0xAB9E); (0x13CF, 0xAB9F); (0x13D0, 0xABA0); (0x13D1, 0xABA1);
   (0x13D2, 0xABA2); (0x13D3, 0xABA3); (0x13D4, 0xABA4); (0x13D5, 0xABA5); (0x13D6, 0xABA6); (0x13D7, 0xABA7);
   (0x13D8, 0xABA8); (0x13D9, 0xABA9); (0x13DA, 0xABAA); (0x13DB, 0xABAB); (0x13DC, 0xABAC); (0x13DD, 0xABAD);
   (0x13DE, 0xABAE); (0x13DF, 0xABAF); (0x13E0, 0xABB0); (0x13E1, 0xABB1); (0x13E2, 0xABB2); (0x13E3, 0xABB3);
   (0x13E4, 0xABB4); (0x13E5, 0xABB5); (0x13E6, 0xABB6); (0x13E7, 0xABB7); (0x13E8, 0xABB8); (0x13E9, 0xABB9);
   (0x13EA, 0xABBA); (0x13EB, 0xABBB); (0x13EC, 0xABBC); (0x13ED, 0xABBD); (0x13EE, 0xABBE); (0x13EF, 0xABBF);
   (0x13F0, 0x13F8); (0x13F1, 0x13F9); (0x13F2, 0x13FA); (0x13F3, 0x13FB); (0x13F4, 0x13FC); (0x13F5, 0x13FD);
   (0x1C90, 0x10D0); (0x1C91, 0x10D1); (0x1C92, 0x10D2); (0x1C93, 0x10D3); (0x1C94, 0x10D4); (0x1C95, 0x10D5);
   (0x1C96, 0x10D6); (0x1C97, 0x10D7); (0x1C98, 0x10D8); (0x1C99, 0x10D9); (0x1C9A, 0x10DA); (0x1C9B, 0x10DB);
   (0x1C9C, 0x10DC); (0x1C9D, 0x10DD); (0x1C9E, 0x10DE); (0x1C9F, 0x10DF); (0x1CA0, 0x10E0); (0x1CA1, 0x10E1);
   (0x1CA2, 0x10E2); (0x1CA3, 0x10E3); (0x1CA4, 0x10E4); (0x1CA5, 0x10E5); (0x1CA6, 0x10E6); (0x1CA7, 0x10E7);
   (0x1CA8, 0x10E8); (0x1CA9, 0x10E9); (0x1CAA, 0x10EA); (0x1CAB, 0x10EB); (0x1CAC, 0x10EC); (0x1CAD, 0x10ED);
   (0x1CAE, 0x10EE); (0x1CAF, 0x10EF); (0x1CB0, 0x10F0); (0x1CB1, 0x10F1); (0x1CB2, 0x10F2); (0x1CB3, 0x10F3);
   (0x1CB4, 0x10F4); (0x1CB5, 0x10F5); (0x1CB6, 0x10F6); (0x1CB7, 0x10F7); (0x1CB8, 0x10F8); (0x1CB9, 0x10F9);
   (0x1CBA, 0x10FA); (0x1CBD, 0x10FD); (0x1CBE, 0x10FE); (0x1CBF, 0x10FF); (0x1E00, 0x1E01); (0x1E02, 0x1E03);
   (0x1E04, 0x1E05); (0x1E06, 0x1E07); (0x1E08, 0x1E09); (0x1E0A, 0x1E0B); (0x1E0C, 0x1E0D); (0x1E0E, 0x1E0F);
   (0x1E10, 0x1E11); (0x1E12, 0x1E13); (0x1E14, 0x1E15); (0x1E16, 0x1E17); (0x1E18, 0x1E19); (0x1E1A, 0x1E1B);
   (0x1E1C, 0x1E1D); (0x1E1E, 0x1E1F); (0x1E20, 0x1E21); (0x1E22, 0x1E23); (0x1E24, 0x1E25); (0x1E26, 0x1E27);
   (0x1E28, 0x1E29); (0x1E2A, 0x1E2B); (0x1E2C, 0x1E2D); (0x1E2E, 0x1E2F); (0x1E30, 0x1E31); (0x1E32, 0x1E33);
   (0x1E34, 0x1E35); (0x1E36, 0x1E37); (0x1E38, 0x1E39); (0x1E3A, 0x1E3B); (0x1E3C, 0x1E3D); (0x1E3E, 0x1E3F);
   (0x1E40, 0x1E41); (0x1E42, 0x1E43); (0x1E44, 0x1E45); (0x1E46, 0x1E47); (0x1E48, 0x1E49); (0x1E4A, 0x1E4B);
   (0x1E4C, 0x1E4D); (0x1E4E, 0x1E4F); (0x1E50, 0x1E51); (0x1E52, 0x1E53); (0x1E54, 0x1E55); (0x1E56, 0x1E57);
   (0x1E58, 0x1E59); (0x1E5A, 0x1E5B); (0x1E5C, 0x1E5D); (0x1E5E, 0x1E5F); (0x1E60, 0x1E61); (0x1E62, 0x1E63);
   (0x1E64, 0x1E65); (0x1E66, 0x1E67); (0x1E68, 0x1E69); (0x1E6A, 0x1E6B); (0x1E6C, 0x1E6D); (0x1E6E, 0x1E6F);
   (0x1E70, 0x1E71); (0x1E72, 0x1E73); (0x1E74, 0x1E75); (0x1E76, 0x1E77); (0x1E78, 0x1E79); (0x1E7A, 0x1E7B);
   (0x1E7C, 0x1E7D); (0x1E7E, 0x1E7F); (0x1E80, 0x1E81); (0x1E82, 0x1E83); (0x1E84, 0x1E85); (0x1E86, 0x1E87);
   (0x1E88, 0x1E89); (0x1E8A, 0x1E8B); (0x1E8C, 0x1E8D); (0x1E8E, 0x1E8F); (0x1E90, 0x1E91); (0x1E92, 0x1E93);
   (0x1E94, 0x1E95); (0x1E9E, 0xDF); (0x1EA0, 0x1EA1); (0x1EA2, 0x1EA3); (0x1EA4, 0x1EA5); (0x1EA6, 0x1EA7);
   (0x1EA8, 0x1EA9); (0x1EAA, 0x1EAB); (0x1EAC, 0x1EAD); (0x1EAE, 0x1EAF); (0x1EB0, 0x1EB1); (0x1EB2, 0x1EB3);
   (0x1EB4, 0x1EB5); (0x1EB6, 0x1EB7); (0x1EB8, 0x1EB9); (0x1EBA, 0x1EBB); (0x1EBC, 0x1EBD); (0x1EBE, 0x1EBF);
   (0x1EC0, 0x1EC1); (0x1EC2, 0x1EC3); (0x1EC4, 0x1EC5); (0x1EC6, 0x1EC7); (0x1EC8, 0x1EC9); (0x1ECA, 0x1ECB);
   (0x1ECC, 0x1ECD); (0x1ECE, 0x1ECF); (0x1ED0, 0x1ED1); (0x1ED2, 0x1ED3); (0x1ED4, 0x1ED5); (0x1ED6, 0x1ED7);
   (0x1ED8, 0x1ED9); (0x1EDA, 0x1EDB); (0x1EDC, 0x1EDD); (0x1EDE, 0x1EDF); (0x1EE0, 0x1EE1); (0x1EE2, 0x1EE3);
   (0x1EE4, 0x1EE5); (0x1EE6, 0x1EE7); (0x1EE8, 0x1EE9); (0x1EEA, 0x1EEB); (0x1EEC, 0x1EED); (0x1EEE, 0x1EEF);
   (0x1EF0, 0x1EF1); (0x1EF2, 0x1EF3); (0x1EF4, 0x1EF5); (0x1EF6, 0x1EF7); (0x1EF8, 0x1EF9); (0x1EFA, 0x1EFB);
   (0x1EFC, 0x1EFD); (0x1EFE, 0x1EFF); (0x1F08, 0x1F00); (0x1F09, 0x1F01); (0x1F0A, 0x1F02); (0x1F0B, 0x1F03);
   (0x1F0C, 0x1F04); (0x1F0D, 0x1F05); (0x1F0E, 0x1F06); (0x1F0F, 0x1F07); (0x1F18, 0x1F10); (0x1F19, 0x1F11);
   (0x1F1A, 0x1F12); (0x1F1B, 0x1F13); (0x1F1C, 0x1F14); (0x1F1D, 0x1F15); (0x1F28, 0x1F20); (0x1F29, 0x1F21);
   (0x1F2A, 0x1F22); (0x1F2B, 0x1F23); (0x1F2C, 0x1F24); (0x1F2D, 0x1F25); (0x1F2E, 0x1F26); (0x1F2F, 0x1F27);
   (0x1F38, 0x1F30); (0x1F39, 0x1F31); (0x1F3A, 0x1F32); (0x1F3B, 0x1F33); (0x1F3C, 0x1F34); (0x1F3D, 0x1F35);
   (0x1F3E, 0x1F36); (0x1F3F, 0x1F37); (0x1F48, 0x1F40); (0x1F49, 0x1F41); (0x1F4A, 0x1F42); (0x1F4B, 0x1F43);
   (0x1F4C, 0x1F44); (0x1F4D, 0x1F45); (0x1F59, 0x1F51); (0x1F5B, 0x1F53); (0x1F5D, 0x1F55); (0x1F5F, 0x1F57);
   (0x1F68, 0x1F60); (0x1F69, 0x1F61); (0x1F6A, 0x1F62); (0x1F6B, 0x1F63); (0x1F6C, 0x1F64); (0x1F6D, 0x1F65);
   (0x1F6E, 0x1F66); (0x1F6F, 0x1F67); (0x1F88, 0x1F80); (0x1F89, 0x1F81); (0x1F8A, 0x1F82); (0x1F8B, 0x1F83);
   (0x1F8C, 0x1F84); (0x1F8D, 0x1F85); (0x1F8E, 0x1F86); (0x1F8F, 0x1F87); (0x1F98, 0x1F90); (0x1F99, 0x1F91);
   (0x1F9A, 0x1F92); (0x1F9B, 0x1F93); (0x1F9C, 0x1F94); (0x1F9D, 0x1F95); (0x1F9E, 0x1F96); (0x1F9F, 0x1F97);
   (0x1FA8, 0x1FA0); (0x1FA9, 0x1FA1); (0x1FAA, 0x1FA2); (0x1FAB, 0x1FA3); (0x1FAC, 0x1FA4); (0x1FAD, 0x1FA5);
   (0x1FAE, 0x1FA6); (0x1FAF, 0x1FA7); (0x1FB8, 0x1FB0); (0x1FB9, 0x1FB1); (0x1FBA, 0x1F70); (0x1FBB, 0x1F71);
   (0x1FBC, 0x1FB3); (0x1FC8, 0x1F72); (0x1FC9, 0x1F73); (0x1FCA, 0x1F74); (0x1FCB, 0x1F75); (0x1FCC, 0x1FC3);
   (0x1FD8, 0x1FD0); (0x1FD9, 0x1FD1); (0x1FDA, 0x1F76); (0x1FDB, 0x1F77); (0x1FE8, 0x1FE0); (0x1FE9, 0x1FE1);
   (0x1FEA, 0x1F7A); (0x1FEB, 0x1F7B); (0x1FEC, 0x1FE5); (0x1FF8, 0x1F78); (0x1FF9, 0x1F79); (0x1FFA, 0x1F7C);
   (0x1FFB, 0x1F7D); (0x1FFC, 0x1FF3); (0x2126, 0x3C9); (0x212A, 0x6B); (0x212B, 0xE5); (0x2132, 0x214E);
   (0x2160, 0x2170); (0x2161, 0x2171); (0x2162, 0x2172); (0x2163, 0x2173); (0x2164, 0x2174); (0x2165, 0x2175);
   (0x2166, 0x2176); (0x2167, 0x2177); (0x2168, 0x2178); (0x2169, 0x2179); (0x216A, 0x217A); (0x216B, 0x217B);
   (0x216C, 0x217C); (0x216D, 0x217D); (0x216E, 0x217E); (0x216F, 0x217F); (0x2183, 0x2184); (0x24B6, 0x24D0);
   (0x24B7, 0x24D1); (0x24B8, 0x24D2); (0x24B9, 0x24D3); (0x24BA, 0x24D4); (0x24BB, 0x24D5); (0x24BC, 0x24D6);
   (0x24BD, 0x24D7); (0x24BE, 0x24D8); (0x24BF, 0x24D9); (0x24C0, 0x24DA); (0x24C1, 0x24DB); (0x24C2, 0x24DC);
   (0x24C3, 0x24DD); (0x24C4, 0x24DE); (0x24C5, 0x24DF); (0x24C6, 0x24E0); (0x24C7, 0x24E1); (0x24C8, 0x24E2);
   (0x24C9, 0x24E3); (0x24CA, 0x24E4); (0x24CB, 0x24E5); (0x24CC, 0x24E6); (0x24CD, 0x24E7); (0x24CE, 0x24E8);
   (0x24CF, 0x24E9); (0x2C00, 0x2C30); (0x2C01, 0x2C31); (0x2C02, 0x2C32); (0x2C03, 0x2C33); (0x2C04, 0x2C34);
   (0x2C05, 0x2C35); (0x2C06, 0x2C36); (0x2C07, 0x2C37); (0x2C08, 0x2C38); (0x2C09, 0x2C39); (0x2C0A, 0x2C3A);
   (0x2C0B, 0x2C3B); (0x2C0C, 0x2C3C); (0x2C0D, 0x2C3D); (0x2C0E, 0x2C3E); (0x2C0F, 0x2C3F); (0x2C10, 0x2C40);
   (0x2C11, 0x2C41); (0x2C12, 0x2C42); (0x2C13, 0x2C43); (0x2C14, 0x2C44); (0x2C15, 0x2C45); (0x2C16, 0x2C46);
   (0x2C17, 0x2C47); (0x2C18, 0x2C48); (0x2C19, 0x2C49); (0x2C1A, 0x2C4A); (0x2C1B, 0x2C4B); (0x2C1C, 0x2C4C);
   (0x2C1D, 0x2C4D); (0x2C1E, 0x2C4E); (0x2C1F, 0x2C4F); (0x2C20, 0x2C50); (0x2C21, 0x2C51); (0x2C22, 0x2C52);
   (0x2C23, 0x2C53); (0x2C24, 0x2C54); (0x2C25, 0x2C55); (0x2C26, 0x2C56); (0x2C27, 0x2C57); (0x2C28, 0x2C58);
   (0x2C29, 0x2C59); (0x2C2A, 0x2C5A); (0x2C2B, 0x2C5B); (0x2C2C, 0x2C5C); (0x2C2D, 0x2C5D); (0x2C2E, 0x2C5E);
   (0x2C2F, 0x2C5F); (0x2C60, 0x2C61); (0x2C62, 0x26B); (0x2C63, 0x1D7D); (0x2C64, 0x27D); (0x2C67, 0x2C68);
   (0x2C69, 0x2C6A); (0x2C6B, 0x2C6C); (0x2C6D, 0x251); (0x2C6E, 0x271); (0x2C6F, 0x250); (0x2C70, 0x252);
   (0x2C72, 0x2C73); (0x2C75, 0x2C76); (0x2C7E, 0x23F); (0x2C7F, 0x240); (0x2C80, 0x2C81); (0x2C82, 0x2C83);
   (0x2C84, 0x2C85); (0x2C86, 0x2C87); (0x2C88, 0x2C89); (0x2C8A, 0x2C8B); (0x2C8C, 0x2C8D); (0x2C8E, 0x2C8F);
   (0x2C90, 0x2C91); (0x2C92, 0x2C93); (0x2C94, 0x2C95); (0x2C96, 0x2C97); (0x2C98, 0x2C99); (0x2C9A, 0x2C9B);
   (0x2C9C, 0x2C9D); (0x2C9E, 0x2C9F); (0x2CA0, 0x2CA1); (0x2CA2, 0x2CA3); (0x2CA4, 0x2CA5); (0x2CA6, 0x2CA7);
   (0x2CA8, 0x2CA9); (0x2CAA, 0x2CAB); (0x2CAC, 0x2CAD); (0x2CAE, 0x2CAF); (0x2CB0, 0x2CB1); (0x2CB2, 0x2CB3);
   (0x2CB4, 0x2CB5); (0x2CB6, 0x2CB7); (0x2CB8, 0x2CB9); (0x2CBA, 0x2CBB); (0x2CBC, 0x2CBD); (0x2CBE, 0x2CBF);
   (0x2CC0, 0x2CC1); (0x2CC2, 0x2CC3); (0x2CC4, 0x2CC5); (0x2CC6, 0x2CC7); (0x2CC8, 0x2CC9); (0x2CCA, 0x2CCB);
   (0x2CCC, 0x2CCD); (0x2CCE, 0x2CCF); (0x2CD0, 0x2CD1); (0x2CD2, 0x2CD3); (0x2CD4, 0x2CD5); (0x2CD6, 0x2CD7);
   (0x2CD8, 0x2CD9); (0x2CDA, 0x2CDB); (0x2CDC, 0x2CDD); (0x2CDE, 0x2CDF); (0x2CE0, 0x2CE1); (0x2CE2, 0x2CE3);
   (0x2CEB, 0x2CEC); (0x2CED, 0x2CEE); (0x2CF2, 0x2CF3); (0xA640, 0xA641); (0xA642, 0xA643); (0xA644, 0xA645);
   (0xA646, 0xA647); (0xA648, 0xA649); (0xA64A, 0xA64B); (0xA64C, 0xA64D); (0xA64E, 0xA64F); (0xA650, 0xA651);
   (0xA652, 0xA653); (0xA654, 0xA655); (0xA656, 0xA657); (0xA658, 0xA659); (0xA65A, 0xA65B); (0xA65C, 0xA65D);
   (0xA65E, 0xA65F); (0xA660, 0xA661); (0xA662, 0xA663); (0xA664, 0xA665); (0xA666, 0xA667); (0xA668, 0xA669);
   (0xA66A, 0xA66B); (0xA66C, 0xA66D); (0xA680, 0xA681); (0xA682, 0xA683); (0xA684, 0xA685); (0xA686, 0xA687);
   (0xA688, 0xA689); (0xA68A, 0xA68B); (0xA68C, 0xA68D); (0xA68E, 0xA68F); (0xA690, 0xA691); (0xA692, 0xA693);
   (0xA694, 0xA695); (0xA696, 0xA697); (0xA698, 0xA699); (0xA69A, 0xA69B); (0xA722, 0xA723); (0xA724, 0xA725);
   (0xA726, 0xA727); (0xA728, 0xA729); (0xA72A, 0xA72B); (0xA72C, 0xA72D); (0xA72E, 0xA72F); (0xA732, 0xA733);
   (0xA734, 0xA735); (0xA736, 0xA737); (0xA738, 0xA739); (0xA73A, 0xA73B); (0xA73C, 0xA73D); (0xA73E, 0xA73F);
   (0xA740, 0xA741); (0xA742, 0xA743); (0xA744, 0xA745); (0xA746, 0xA747); (0xA748, 0xA749); (0xA74A, 0xA74B);
   (0xA74C, 0xA74D); (0xA74E, 0xA74F); (0xA750, 0xA751); (0xA752, 0xA753); (0xA754, 0xA755); (0xA756, 0xA757);
   (0xA758, 0xA759); (0xA75A, 0xA75B); (0xA75C, 0xA75D); (0xA75E, 0xA75F); (0xA760, 0xA761); (0xA762, 0xA763);
   (0xA764, 0xA765); (0xA766, 0xA767); (0xA768, 0xA769); (0xA76A, 0xA76B); (0xA76C, 0xA76D); (0xA76E, 0xA76F);
   (0xA779, 0xA77A); (0xA77B, 0xA77C); (0xA77D, 0x1D79); (0xA77E, 0xA77F); (0xA780, 0xA781); (0xA782, 0xA783);
   (0xA784, 0xA785); (0xA786, 0xA787); (0xA78B, 0xA78C); (0xA78D, 0x265); (0xA790, 0xA791); (0xA792, 0xA793);
   (0xA796, 0xA797); (0xA798, 0xA799); (0xA79A, 0xA79B); (0xA79C, 0xA79D); (0xA79E, 0xA79F); (0xA7A0, 0xA7A1);
   (0xA7A2, 0xA7A3); (0xA7A4, 0xA7A5); (0xA7A6, 0xA7A7); (0xA7A8, 0xA7A9); (0xA7AA, 0x266); (0xA7AB, 0x25C);
   (0xA7AC, 0x261); (0xA7AD, 0x26C); (0xA7AE, 0x26A); (0xA7B0, 0x29E); (0xA7B1, 0x287); (0xA7B2, 0x29D);
   (0xA7B3, 0xAB53); (0xA7B4, 0xA7B5); (0xA7B6, 0xA7B7); (0xA7B8, 0xA7B9); (0xA7BA, 0xA7BB); (0xA7BC, 0xA7BD);
   (0xA7BE, 0xA7BF); (0xA7C0, 0xA7C1); (0xA7C2, 0xA7C3); (0xA7C4, 0xA794); (0xA7C5, 0x282); (0xA7C6, 0x1D8E);
   (0xA7C7, 0xA7C8); (0xA7C9, 0xA7CA); (0xA7D0, 0xA7D1); (0xA7D6, 0xA7D7); (0xA7D8, 0xA7D9); (0xA7F5, 0xA7F6);
   (0xFF21, 0xFF41); (0xFF22, 0xFF42); (0xFF23, 0xFF43); (0xFF24, 0xFF44); (0xFF25, 0xFF45); (0xFF26, 0xFF46);
   (0xFF27, 0xFF47); (0xFF28, 0xFF48); (0xFF29, 0xFF49); (0xFF2A, 0xFF4A); (0xFF2B, 0xFF4B); (0xFF2C, 0xFF4C);
   (0xFF2D, 0xFF4D); (0xFF2E, 0xFF4E); (0xFF2F, 0xFF4F); (0xFF30, 0xFF50); (0xFF31, 0xFF51); (0xFF32, 0xFF52);
   (0xFF33, 0xFF53); (0xFF34, 0xFF54); (0xFF35, 0xFF55); (0xFF36, 0xFF56); (0xFF37, 0xFF57); (0xFF38, 0xFF58);
   (0xFF39, 0xFF59); (0xFF3A, 0xFF5A); (0x10400, 0x10428); (0x10401, 0x10429); (0x10402, 0x1042A); (0x10403, 0x1042B);
   (0x10404, 0x1042C); (0x10405, 0x1042D); (0x10406, 0x1042E); (0x10407, 0x1042F); (0x10408, 0x10430); (0x10409, 0x10431);
   (0x1040A, 0x10432); (0x1040B, 0x10433); (0x1040C, 0x10434); (0x1040D, 0x10435); (0x1040E, 0x10436); (0x1040F, 0x10437);
   (0x10410, 0x10438); (0x10411, 0x10439); (0x10412, 0x1043A); (0x10413, 0x1043B); (0x10414, 0x1043C); (0x10415, 0x1043D);
   (0x10416, 0x1043E); (0x10417, 0x1043F); (0x10418, 0x10440); (0x10419, 0x10441); (0x1041A, 0x10442); (0x1041B, 0x10443);
   (0x1041C, 0x10444); (0x1041D, 0x10445); (0x1041E, 0x10446); (0x1041F, 0x10447); (0x10420, 0x10448); (0x10421, 0x10449);
   (0x10422, 0x1044A); (0x10423, 0x1044B); (0x10424, 0x1044C); (0x10425, 0x1044D); (0x10426, 0x1044E); (0x10427, 0x1044F);
   (0x104B0, 0x104D8); (0x104B1, 0x104D9); (0x104B2, 0x104DA); (0x104B3, 0x104DB); (0x104B4, 0x104DC); (0x104B5, 0x104DD);
   (0x104B6, 0x104DE); (0x104B7, 0x104DF); (0x104B8, 0x104E0); (0x104B9, 0x104E1); (0x104BA, 0x104E2); (0x104BB, 0x104E3);
   (0x104BC, 0x104E4); (0x104BD, 0x104E5); (0x104BE, 0x104E6); (0x104BF, 0x104E7); (0x104C0, 0x104E8); (0x104C1, 0x104E9);
   (0x104C2, 0x104EA); (0x104C3, 0x104EB); (0x104C4, 0x104EC); (0x104C5, 0x104ED); (0x104C6, 0x104EE); (0x104C7, 0x104EF);
   (0x104C8, 0x104F0); (0x104C9, 0x104F1); (0x104CA, 0x104F2); (0x104CB, 0x104F3); (0x104CC, 0x104F4); (0x104CD, 0x104F5);
   (0x104CE, 0x104F6); (0x104CF, 0x104F7); (0x104D0, 0x104F8); (0x104D1, 0x104F9); (0x104D2, 0x104FA); (0x104D3, 0x104FB);
   (0x10570, 0x10597); (0x10571, 0x10598); (0x10572, 0x10599); (0x10573, 0x1059A); (0x10574, 0x1059B); (0x10575, 0x1059C);
   (0x10576, 0x1059D); (0x10577, 0x1059E); (0x10578, 0x1059F); (0x10579, 0x105A0); (0x1057A, 0x105A1); (0x1057C, 0x105A3);
   (0x1057D, 0x105A4); (0x1057E, 0x105A5); (0x1057F, 0x105A6); (0x10580, 0x105A7); (0x10581, 0x105A8); (0x10582, 0x105A9);
   (0x10583, 0x105AA); (0x10584, 0x105AB); (0x10585, 0x105AC); (0x10586, 0x105AD); (0x10587, 0x105AE); (0x10588, 0x105AF);
   (0x10589, 0x105B0); (0x1058A, 0x105B1); (0x1058C, 0x105B3); (0x1058D, 0x105B4); (0x1058E, 0x105B5); (0x1058F, 0x105B6);
   (0x10590, 0x105B7); (0x10591, 0x105B8); (0x10592, 0x105B9); (0x10594, 0x105BB); (0x10595, 0x105BC); (0x10C80, 0x10CC0);
   (0x10C81, 0x10CC1); (0x10C82, 0x10CC2); (0x10C83, 0x10CC3); (0x10C84, 0x10CC4); (0x10C85, 0x10CC5); (0x10C86, 0x10CC6);
   (0x10C87, 0x10CC7); (0x10C88, 0x10CC8); (0x10C89, 0x10CC9); (0x10C8A, 0x10CCA); (0x10C8B, 0x10CCB); (0x10C8C, 0x10CCC);
   (0x10C8D, 0x10CCD); (0x10C8E, 0x10CCE); (0x10C8F, 0x10CCF); (0x10C90, 0x10CD0); (0x10C91, 0x10CD1); (0x10C92, 0x10CD2);
   (0x10C93, 0x10CD3); (0x10C94, 0x10CD4); (0x10C95, 0x10CD5); (0x10C96, 0x10CD6); (0x10C97, 0x10CD7); (0x10C98, 0x10CD8);
   (0x10C99, 0x10CD9); (0x10C9A, 0x10CDA); (0x10C9B, 0x10CDB); (0x10C9C, 0x10CDC); (0x10C9D, 0x10CDD); (0x10C9E, 0x10CDE);
   (0x10C9F, 0x10CDF); (0x10CA0, 0x10CE0); (0x10CA1, 0x10CE1); (0x10CA2, 0x10CE2); (0x10CA3, 0x10CE3); (0x10CA4, 0x10CE4);
   (0x10CA5, 0x10CE5); (0x10CA6, 0x10CE6); (0x10CA7, 0x10CE7); (0x10CA8, 0x10CE8); (0x10CA9, 0x10CE9); (0x10CAA, 0x10CEA);
   (0x10CAB, 0x10CEB); (0x10CAC, 0x10CEC); (0x10CAD, 0x10CED); (0x10CAE, 0x10CEE); (0x10CAF, 0x10CEF); (0x10CB0, 0x10CF0);
   (0x10CB1, 0x10CF1); (0x10CB2, 0x10CF2); (0x118A0, 0x118C0); (0x118A1, 0x118C1); (0x118A2, 0x118C2); (0x118A3, 0x118C3);
   (0x118A4, 0x118C4); (0x118A5, 0x118C5); (0x118A6, 0x118C6); (0x118A7, 0x118C7); (0x118A8, 0x118C8); (0x118A9, 0x118C9);
   (0x118AA, 0x118CA); (0x118AB, 0x118CB); (0x118AC, 0x118CC); (0x118AD, 0x118CD); (0x118AE, 0x118CE); (0x118AF, 0x118CF);
   (0x118B0, 0x118D0); (0x118B1, 0x118D1); (0x118B2, 0x118D2); (0x118B3, 0x118D3); (0x118B4, 0x118D4); (0x118B5, 0x118D5);
   (0x118B6, 0x118D6); (0x118B7, 0x118D7); (0x118B8, 0x118D8); (0x118B9, 0x118D9); (0x118BA, 0x118DA); (0x118BB, 0x118DB);
   (0x118BC, 0x118DC); (0x118BD, 0x118DD); (0x118BE, 0x118DE); (0x118BF, 0x118DF); (0x16E40, 0x16E60); (0x16E41, 0x16E61);
   (0x16E42, 0x16E62); (0x16E43, 0x16E63); (0x16E44, 0x16E64); (0x16E45, 0x16E65); (0x16E46, 0x16E66); (0x16E47, 0x16E67);
   (0x16E48, 0x16E68); (0x16E49, 0x16E69); (0x16E4A, 0x16E6A); (0x16E4B, 0x16E6B); (0x16E4C, 0x16E6C); (0x16E4D, 0x16E6D);
   (0x16E4E, 0x16E6E); (0x16E4F, 0x16E6F); (0x16E50, 0x16E70); (0x16E51, 0x16E71); (0x16E52, 0x16E72); (0x16E53, 0x16E73);
   (0x16E54, 0x16E74); (0x16E55, 0x16E75); (0x16E56, 0x16E76); (0x16E57, 0x16E77); (0x16E58, 0x16E78); (0x16E59, 0x16E79);
   (0x16E5A, 0x16E7A); (0x16E5B, 0x16E7B); (0x16E5C, 0x16E7C); (0x16E5D, 0x16E7D); (0x16E5E, 0x16E7E); (0x16E5F, 0x16E7F);
   (0x1E900, 0x1E922); (0x1E901, 0x1E923); (0x1E902, 0x1E924); (0x1E903, 0x1E925); (0x1E904, 0x1E926); (0x1E905, 0x1E927);
   (0x1E906, 0x1E928); (0x1E907, 0x1E929); (0x1E908, 0x1E92A); (0x1E909, 0x1E92B); (0x1E90A, 0x1E92C); (0x1E90B, 0x1E92D);
   (0x1E90C, 0x1E92E); (0x1E90D, 0x1E92F); (0x1E90E, 0x1E930); (0x1E90F, 0x1E931); (0x1E910, 0x1E932); (0x1E911, 0x1E933);
   (0x1E912, 0x1E934); (0x1E913, 0x1E935); (0x1E914, 0x1E936); (0x1E915, 0x1E937); (0x1E916, 0x1E938); (0x1E917, 0x1E939);
   (0x1E918, 0x1E93A); (0x1E919, 0x1E93B); (0x1E91A, 0x1E93C); (0x1E91B, 0x1E93D); (0x1E91C, 0x1E93E); (0x1E91D, 0x1E93F);
   (0x1E91E, 0x1E940); (0x1E91F, 0x1E941); (0x1E920, 0x1E942); (0x1E921, 0x1E943)
  ].

(** The ranges of the code points with the property [Cased]. *)
Definition cased_ranges : list (N * N) :=
  [
   (0x41, 0x5A); (0x61, 0x7A); (0xAA, 0xAA); (0xB5, 0xB5); (0xBA, 0xBA); (0xC0, 0xD6);
   (0xD8, 0xF6); (0xF8, 0x1BA); (0x1BC, 0x1BF); (0x1C4, 0x293); (0x295, 0x2B8); (0x2C0, 0x2C1);
   (0x2E0, 0x2E4); (0x345, 0x345); (0x370, 0x373); (0x376, 0x377); (0x37A, 0x37D); (0x37F, 0x37F);
   (0x386, 0x386); (0x388, 0x38A); (0x38C, 0x38C); (0x38E, 0x3A1); (0x3A3, 0x3F5); (0x3F7, 0x481);
   (0x48A, 0x52F); (0x531, 0x556); (0x560, 0x588); (0x10A0, 0x10C5); (0x10C7, 0x10C7); (0x10CD, 0x10CD);
   (0x10D0, 0x10FA); (0x10FD, 0x10FF); (0x13A0, 0x13F5); (0x13F8, 0x13FD); (0x1C80, 0x1C88); (0x1C90, 0x1CBA);
   (0x1CBD, 0x1CBF); (0x1D00, 0x1DBF); (0x1E00, 0x1F15); (0x1F18, 0x1F1D); (0x1F20, 0x1F45); (0x1F48, 0x1F4D);
   (0x1F50, 0x1F57); (0x1F59, 0x1F59); (0x1F5B, 0x1F5B); (0x1F5D, 0x1F5D); (0x1F5F, 0x1F7D); (0x1F80, 0x1FB4);
   (0x1FB6, 0x1FBC); (0x1FBE, 0x1FBE); (0x1FC2, 0x1FC4); (0x1FC6, 0x1FCC); (0x1FD0, 0x1FD3); (0x1FD6, 0x1FDB);
   (0x1FE0, 0x1FEC); (0x1FF2, 0x1FF4); (0x1FF6, 0x1FFC); (0x2071, 0x2071); (0x207F, 0x207F); (0x2090, 0x209C);
   (0x2102, 0x2102); (0x2107, 0x2107); (0x210A, 0x2113); (0x2115, 0x2115); (0x2119, 0x211D); (0x2124, 0x2124);
   (0x2126, 0x2126); (0x2128, 0x2128); (0x212A, 0x212D); (0x212F, 0x2134); (0x2139, 0x2139); (0x213C, 0x213F);
   (0x2145, 0x2149); (0x214E, 0x214E); (0x2160, 0x217F); (0x2183, 0x2184); (0x24B6, 0x24E9); (0x2C00, 0x2CE4);
   (0x2CEB, 0x2CEE); (0x2CF2, 0x2CF3); (0x2D00, 0x2D25); (0x2D27, 0x2D27); (0x2D2D, 0x2D2D); (0xA640, 0xA66D);
   (0xA680, 0xA69D); (0xA722, 0xA787); (0xA78B, 0xA78E); (0xA790, 0xA7CA); (0xA7D0, 0xA7D1); (0xA7D3, 0xA7D3);
   (0xA7D5, 0xA7D9); (0xA7F5, 0xA7F6); (0xA7F8, 0xA7FA); (0xAB30, 0xAB5A); (0xAB5C, 0xAB68); (0xAB70, 0xABBF);
   (0xFB00, 0xFB06); (0xFB13, 0xFB17); (0xFF21, 0xFF3A); (0xFF41, 0xFF5A); (0x10400, 0x1044F); (0x104B0, 0x104D3);
   (0x104D8, 0x104FB); (0x10570, 0x1057A); (0x1057C, 0x1058A); (0x1058C, 0x10592); (0x10594, 0x10595); (0x10597, 0x105A1);
   (0x105A3, 0x105B1); (0x105B3, 0x105B9); (0x105BB, 0x105BC); (0x10780, 0x10780); (0x10783, 0x10785); (0x10787, 0x107B0);
   (0x107B2, 0x107BA); (0x10C80, 0x10CB2); (0x10CC0, 0x10CF2); (0x118A0, 0x118DF); (0x16E40, 0x16E7F); (0x1D400, 0x1D454);
   (0x1D456, 0x1D49C); (0x1D49E, 0x1D49F); (0x1D4A2, 0x1D4A2); (0x1D4A5, 0x1D4A6); (0x1D4A9, 0x1D4AC); (0x1D4AE, 0x1D4B9);
   (0x1D4BB, 0x1D4BB); (0x1D4BD, 0x1D4C3); (0x1D4C5, 0x1D505); (0x1D507, 0x1D50A); (0x1D50D, 0x1D514); (0x1D516, 0x1D51C);
   (0x1D51E, 0x1D539); (0x1D53B, 0x1D53E); (0x1D540, 0x1D544); (0x1D546, 0x1D546); (0x1D54A, 0x1D550); (0x1D552, 0x1D6A5);
   (0x1D6A8, 0x1D6C0); (0x1D6C2, 0x1D6DA); (0x1D6DC, 0x1D6FA); (0x1D6FC, 0x1D714); (0x1D716, 0x1D734); (0x1D736, 0x1D74E);
   (0x1D750, 0x1D76E); (0x1D770, 0x1D788); (0x1D78A, 0x1D7A8); (0x1D7AA, 0x1D7C2); (0x1D7C4, 0x1D7CB); (0x1DF00, 0x1DF09);
   (0x1DF0B, 0x1DF1E); (0x1E900, 0x1E943); (0x1F130, 0x1F149); (0x1F150, 0x1F169); (0x1F170, 0x1F189)
  ].

(** The ranges of the code points with the property [Case_Ignorable]. *)
Definition case_ignorable_ranges : list (N * N) :=
  [
   (0x27, 0x27); (0x2E, 0x2E); (0x3A, 0x3A); (0x5E, 0x5E); (0x60, 0x60); (0xA8, 0xA8);
   (0xAD, 0xAD); (0xAF, 0xAF); (0xB4, 0xB4); (0xB7, 0xB8); (0x2B0, 0x36F); (0x374, 0x375);
   (0x37A, 0x37A); (0x384, 0x385); (0x387, 0x387); (0x483, 0x489); (0x559, 0x559); (0x55F, 0x55F);
   (0x591, 0x5BD); (0x5BF, 0x5BF); (0x5C1, 0x5C2); (0x5C4, 0x5C5); (0x5C7, 0x5C7); (0x5F4, 0x5F4);
   (0x600, 0x605); (0x610, 0x61A); (0x61C, 0x61C); (0x640, 0x640); (0x64B, 0x65F); (0x670, 0x670);
   (0x6D6, 0x6DD); (0x6DF, 0x6E8); (0x6EA, 0x6ED); (0x70F, 0x70F); (0x711, 0x711); (0x730, 0x74A);
   (0x7A6, 0x7B0); (0x7EB, 0x7F5); (0x7FA, 0x7FA); (0x7FD, 0x7FD); (0x816, 0x82D); (0x859, 0x85B);
   (0x888, 0x888); (0x890, 0x891); (0x898, 0x89F); (0x8C9, 0x902); (0x93A, 0x93A); (0x93C, 0x93C);
   (0x941, 0x948); (0x94D, 0x94D); (0x951, 0x957); (0x962, 0x963); (0x971, 0x971); (0x981, 0x981);
   (0x9BC, 0x9BC); (0x9C1, 0x9C4); (0x9CD, 0x9CD); (0x9E2, 0x9E3); (0x9FE, 0x9FE); (0xA01, 0xA02);
   (0xA3C, 0xA3C); (0xA41, 0xA42); (0xA47, 0xA48); (0xA4B, 0xA4D); (0xA51, 0xA51); (0xA70, 0xA71);
   (0xA75, 0xA75); (0xA81, 0xA82); (0xABC, 0xABC); (0xAC1, 0xAC5); (0xAC7, 0xAC8); (0xACD, 0xACD);
   (0xAE2, 0xAE3); (0xAFA, 0xAFF); (0xB01, 0xB01); (0xB3C, 0xB3C); (0xB3F, 0xB3F); (0xB41, 0xB44);
   (0xB4D, 0xB4D); (0xB55, 0xB56); (0xB62, 0xB63); (0xB82, 0xB82); (0xBC0, 0xBC0); (0xBCD, 0xBCD);
   (0xC00, 0xC00); (0xC04, 0xC04); (0xC3C, 0xC3C); (0xC3E, 0xC40); (0xC46, 0xC48); (0xC4A, 0xC4D);
   (0xC55, 0xC56); (0xC62, 0xC63); (0xC81, 0xC81); (0xCBC, 0xCBC); (0xCBF, 0xCBF); (0xCC6, 0xCC6);
   (0xCCC, 0xCCD); (0xCE2, 0xCE3); (0xD00, 0xD01); (0xD3B, 0xD3C); (0xD41, 0xD44); (0xD4D, 0xD4D);
   (0xD62, 0xD63); (0xD81, 0xD81); (0xDCA, 0xDCA); (0xDD2, 0xDD4); (0xDD6, 0xDD6); (0xE31, 0xE31);
   (0xE34, 0xE3A); (0xE46, 0xE4E); (0xEB1, 0xEB1); (0xEB4, 0xEBC); (0xEC6, 0xEC6); (0xEC8, 0xECD);
   (0xF18, 0xF19); (0xF35, 0xF35); (0xF37, 0xF37); (0xF39, 0xF39); (0xF71, 0xF7E); (0xF80, 0xF84);
   (0xF86, 0xF87); (0xF8D, 0xF97); (0xF99, 0xFBC); (0xFC6, 0xFC6); (0x102D, 0x1030); (0x1032, 0x1037);
   (0x1039, 0x103A); (0x103D, 0x103E); (0x1058, 0x1059); (0x105E, 0x1060); (0x1071, 0x1074); (0x1082, 0x1082);
   (0x1085, 0x1086); (0x108D, 0x108D); (0x109D, 0x109D); (0x10FC, 0x10FC); (0x135D, 0x135F); (0x1712, 0x1714);
   (0x1732, 0x1733); (0x1752, 0x1753); (0x1772, 0x1773); (0x17B4, 0x17B5); (0x17B7, 0x17BD); (0x17C6, 0x17C6);
   (0x17C9, 0x17D3); (0x17D7, 0x17D7); (0x17DD, 0x17DD); (0x180B, 0x180F); (0x1843, 0x1843); (0x1885, 0x1886);
   (0x18A9, 0x18A9); (0x1920, 0x1922); (0x1927, 0x1928); (0x1932, 0x1932); (0x1939, 0x193B); (0x1A17, 0x1A18);
   (0x1A1B, 0x1A1B); (0x1A56, 0x1A56); (0x1A58, 0x1A5E); (0x1A60, 0x1A60); (0x1A62, 0x1A62); (0x1A65, 0x1A6C);
   (0x1A73, 0x1A7C); (0x1A7F, 0x1A7F); (0x1AA7, 0x1AA7); (0x1AB0, 0x1ACE); (0x1B00, 0x1B03); (0x1B34, 0x1B34);
   (0x1B36, 0x1B3A); (0x1B3C, 0x1B3C); (0x1B42, 0x1B42); (0x1B6B, 0x1B73); (0x1B80, 0x1B81); (0x1BA2, 0x1BA5);
   (0x1BA8, 0x1BA9); (0x1BAB, 0x1BAD); (0x1BE6, 0x1BE6); (0x1BE8, 0x1BE9); (0x1BED, 0x1BED); (0x1BEF, 0x1BF1);
   (0x1C2C, 0x1C33); (0x1C36, 0x1C37); (0x1C78, 0x1C7D); (0x1CD0, 0x1CD2); (0x1CD4, 0x1CE0); (0x1CE2, 0x1CE8);
   (0x1CED, 0x1CED); (0x1CF4, 0x1CF4); (0x1CF8, 0x1CF9); (0x1D2C, 0x1D6A); (0x1D78, 0x1D78); (0x1D9B, 0x1DFF);
   (0x1FBD, 0x1FBD); (0x1FBF, 0x1FC1); (0x1FCD, 0x1FCF); (0x1FDD, 0x1FDF); (0x1FED, 0x1FEF); (0x1FFD, 0x1FFE);
   (0x200B, 0x200F); (0x2018, 0x2019); (0x2024, 0x2024); (0x2027, 0x2027); (0x202A, 0x202E); (0x2060, 0x2064);
   (0x2066, 0x206F); (0x2071, 0x2071); (0x207F, 0x207F); (0x2090, 0x209C); (0x20D0, 0x20F0); (0x2C7C, 0x2C7D);
   (0x2CEF, 0x2CF1); (0x2D6F, 0x2D6F); (0x2D7F, 0x2D7F); (0x2DE0, 0x2DFF); (0x2E2F, 0x2E2F); (0x3005, 0x3005);
   (0x302A, 0x302D); (0x3031, 0x3035); (0x303B, 0x303B); (0x3099, 0x309E); (0x30FC, 0x30FE); (0xA015, 0xA015);
   (0xA4F8, 0xA4FD); (0xA60C, 0xA60C); (0xA66F, 0xA672); (0xA674, 0xA67D); (0xA67F, 0xA67F); (0xA69C, 0xA69F);
   (0xA6F0, 0xA6F1); (0xA700, 0xA721); (0xA770, 0xA770); (0xA788, 0xA78A); (0xA7F2, 0xA7F4); (0xA7F8, 0xA7F9);
   (0xA802, 0xA802); (0xA806, 0xA806); (0xA80B, 0xA80B); (0xA825, 0xA826); (0xA82C, 0xA82C); (0xA8C4, 0xA8C5);
   (0xA8E0, 0xA8F1); (0xA8FF, 0xA8FF); (0xA926, 0xA92D); (0xA947, 0xA951); (0xA980, 0xA982); (0xA9B3, 0xA9B3);
   (0xA9B6, 0xA9B9); (0xA9BC, 0xA9BD); (0xA9CF, 0xA9CF); (0xA9E5, 0xA9E6); (0xAA29, 0xAA2E); (0xAA31, 0xAA32);
   (0xAA35, 0xAA36); (0xAA43, 0xAA43); (0xAA4C, 0xAA4C); (0xAA70, 0xAA70); (0xAA7C, 0xAA7C); (0xAAB0, 0xAAB0);
   (0xAAB2, 0xAAB4); (0xAAB7, 0xAAB8); (0xAABE, 0xAABF); (0xAAC1, 0xAAC1); (0xAADD, 0xAADD); (0xAAEC, 0xAAED);
   (0xAAF3, 0xAAF4); (0xAAF6, 0xAAF6); (0xAB5B, 0xAB5F); (0xAB69, 0xAB6B); (0xABE5, 0xABE5); (0xABE8, 0xABE8);
   (0xABED, 0xABED); (0xFB1E, 0xFB1E); (0xFBB2, 0xFBC2); (0xFE00, 0xFE0F); (0xFE13, 0xFE13); (0xFE20, 0xFE2F);
   (0xFE52, 0xFE52); (0xFE55, 0xFE55); (0xFEFF, 0xFEFF); (0xFF07, 0xFF07); (0xFF0E, 0xFF0E); (0xFF1A, 0xFF1A);
   (0xFF3E, 0xFF3E); (0xFF40, 0xFF40); (0xFF70, 0xFF70); (0xFF9E, 0xFF9F); (0xFFE3, 0xFFE3); (0xFFF9, 0xFFFB);
   (0x101FD, 0x101FD); (0x102E0, 0x102E0); (0x10376, 0x1037A); (0x10780, 0x10785); (0x10787, 0x107B0); (0x107B2, 0x107BA);
   (0x10A01, 0x10A03); (0x10A05, 0x10A06); (0x10A0C, 0x10A0F); (0x10A38, 0x10A3A); (0x10A3F, 0x10A3F); (0x10AE5, 0x10AE6);
   (0x10D24, 0x10D27); (0x10EAB, 0x10EAC); (0x10F46, 0x10F50); (0x10F82, 0x10F85); (0x11001, 0x11001); (0x11038, 0x11046);
   (0x11070, 0x11070); (0x11073, 0x11074); (0x1107F, 0x11081); (0x110B3, 0x110B6); (0x110B9, 0x110BA); (0x110BD, 0x110BD);
   (0x110C2, 0x110C2); (0x110CD, 0x110CD); (0x11100, 0x11102); (0x11127, 0x1112B); (0x1112D, 0x11134); (0x11173, 0x11173);
   (0x11180, 0x11181); (0x111B6, 0x111BE); (0x111C9, 0x111CC); (0x111CF, 0x111CF); (0x1122F, 0x11231); (0x11234, 0x11234);
   (0x11236, 0x11237); (0x1123E, 0x1123E); (0x112DF, 0x112DF); (0x112E3, 0x112EA); (0x11300, 0x11301); (0x1133B, 0x1133C);
   (0x11340, 0x11340); (0x11366, 0x1136C); (0x11370, 0x11374); (0x11438, 0x1143F); (0x11442, 0x11444); (0x11446, 0x11446);
   (0x1145E, 0x1145E); (0x114B3, 0x114B8); (0x114BA, 0x114BA); (0x114BF, 0x114C0); (0x114C2, 0x114C3); (0x115B2, 0x115B5);
   (0x115BC, 0x115BD); (0x115BF, 0x115C0); (0x115DC, 0x115DD); (0x11633, 0x1163A); (0x1163D, 0x1163D); (0x1163F, 0x11640);
   (0x116AB, 0x116AB); (0x116AD, 0x116AD); (0x116B0, 0x116B5); (0x116B7, 0x116B7); (0x1171D, 0x1171F); (0x11722, 0x11725);
   (0x11727, 0x1172B); (0x1182F, 0x11837); (0x11839, 0x1183A); (0x1193B, 0x1193C); (0x1193E, 0x1193E); (0x11943, 0x11943);
   (0x119D4, 0x119D7); (0x119DA, 0x119DB); (0x119E0, 0x119E0); (0x11A01, 0x11A0A); (0x11A33, 0x11A38); (0x11A3B, 0x11A3E);
   (0x11A47, 0x11A47); (0x11A51, 0x11A56); (0x11A59, 0x11A5B); (0x11A8A, 0x11A96); (0x11A98, 0x11A99); (0x11C30, 0x11C36);
   (0x11C38, 0x11C3D); (0x11C3F, 0x11C3F); (0x11C92, 0x11CA7); (0x11CAA, 0x11CB0); (0x11CB2, 0x11CB3); (0x11CB5, 0x11CB6);
   (0x11D31, 0x11D36); (0x11D3A, 0x11D3A); (0x11D3C, 0x11D3D); (0x11D3F, 0x11D45); (0x11D47, 0x11D47); (0x11D90, 0x11D91);
   (0x11D95, 0x11D95); (0x11D97, 0x11D97); (0x11EF3, 0x11EF4); (0x13430, 0x13438); (0x16AF0, 0x16AF4); (0x16B30, 0x16B36);
   (0x16B40, 0x16B43); (0x16F4F, 0x16F4F); (0x16F8F, 0x16F9F); (0x16FE0, 0x16FE1); (0x16FE3, 0x16FE4); (0x1AFF0, 0x1AFF3);
   (0x1AFF5, 0x1AFFB); (0x1AFFD, 0x1AFFE); (0x1BC9D, 0x1BC9E); (0x1BCA0, 0x1BCA3); (0x1CF00, 0x1CF2D); (0x1CF30, 0x1CF46);
   (0x1D167, 0x1D169); (0x1D173, 0x1D182); (0x1D185, 0x1D18B); (0x1D1AA, 0x1D1AD); (0x1D242, 0x1D244); (0x1DA00, 0x1DA36);
   (0x1DA3B, 0x1DA6C); (0x1DA75, 0x1DA75); (0x1DA84, 0x1DA84); (0x1DA9B, 0x1DA9F); (0x1DAA1, 0x1DAAF); (0x1E000, 0x1E006);
   (0x1E008, 0x1E018); (0x1E01B, 0x1E021); (0x1E023, 0x1E024); (0x1E026, 0x1E02A); (0x1E130, 0x1E13D); (0x1E2AE, 0x1E2AE);
   (0x1E2EC, 0x1E2EF); (0x1E8D0, 0x1E8D6); (0x1E944, 0x1E94B); (0x1F3FB, 0x1F3FF); (0xE0001, 0xE0001); (0xE0020, 0xE007F);
   (0xE0100, 0xE01EF)
  ].

Definition entry (cp : N) : option (N * N) :=
  List.find (fun p => fst p =? cp) lower_pairs.

Definition simple_lower (cp : N) : N :=
  match entry cp with
  | Some p => snd p
  | None => cp
  end.

(** The lower-case mapping of a code point out of context.
    [SpecialCasing.txt] has one unconditional entry that is not tied to a
    language: U+0130 becomes U+0069 U+0307. *)
Definition lower_code_point (cp : N) : list N :=
  if cp =? 0x130 then [0x69; 0x307] else [simple_lower cp].

Definition in_ranges (rs : list (N * N)) (cp : N) : bool :=
  existsb (fun r => between (fst r) (snd r) cp) rs.

Definition cased (cp : N) : bool := in_ranges cased_ranges cp.
Definition case_ignorable (cp : N) : bool := in_ranges case_ignorable_ranges cp.

(** *** toLowerCase

    The capital sigma is the one character whose image depends on its
    context: it becomes the final sigma when a cased letter, then
    case-ignorable characters only, come before it and no such sequence
    in the opposite order comes after it.  Both sides are read as the
    engines read them: case-ignorable characters are skipped and the first
    character that is not case-ignorable decides. *)

(** The text from here on is case-ignorable characters, then a cased
    letter. *)
Fixpoint followed_by_cased (us : list N) : bool :=
  match us with
  | [] => false
  | u :: rest =>
      let single := if case_ignorable u then followed_by_cased rest else cased u in
      match rest with
      | l :: rest' =>
          if is_high u && is_low l then
            if case_ignorable (code_point u l) then followed_by_cased rest'
            else cased (code_point u l)
          else single
      | [] => single
      end
  end.

(** [before]: the text up to here ends with a cased letter, then
    case-ignorable characters only. *)
Definition next_before (before : bool) (cp : N) : bool :=
  if case_ignorable cp then before else cased cp.

(** The image of a code unit that is not half of a pair. *)
Definition lower_unit (before : bool) (u : N) (rest : list N) : list N :=
  if u =? 0x3A3 then
    [if before && negb (followed_by_cased rest) then 0x3C2 else 0x3C3]
  else if 0x10000 <=? u then [u]
  else flat_map code_units (lower_code_point u).

Fixpoint lower_from (before : bool) (us : list N) : list N :=
  match us with
  | [] => []
  | u :: rest =>
      let single := lower_unit before u rest ++ lower_from (next_before before u) rest in
      match rest with
      | l :: rest' =>
          if is_high u && is_low l then
            flat_map code_units (lower_code_point (code_point u l))
            ++ lower_from (next_before before (code_point u l)) rest'
          else single
      | [] => single
      end
  end.

(** [s.toLowerCase()] *)
Definition toLowerCase (us : list N) : list N := lower_from false us.

(** *** Strings that [toLowerCase] leaves alone *)

(** The code point has a lower-case mapping other than itself. *)
Definition changes (cp : N) : bool :=
  (cp =? 0x130) || match entry cp with Some _ => true | None => false end.

Definition fixed_unit (u : N) : bool := (0x10000 <=? u) || negb (changes u).

(** No code point of the string has a lower-case mapping other than
    itself. *)
Fixpoint plain (us : list N) : bool :=
  match us with
  | [] => true
  | u :: rest =>
      let single := fixed_unit u && plain rest in
      match rest with
      | l :: rest' =>
          if is_high u && is_low l then negb (changes (code_point u l)) && plain rest'
          else single
      | [] => single
      end
  end.

Definition starts_low (us : list N) : bool :=
  match us with
  | l :: _ => is_low l
  | [] => false
  end.

(** What a sound table has for each of its entries: the image has no
    lower-case mapping of its own, lies in the plane of the code point,
    and neither is a surrogate. *)
Definition sound_entry (p : N * N) : bool :=
  negb (changes (snd p)) && negb (surrogate (fst p)) && negb (surrogate (snd p))
  && (if fst p <? 0x10000 then snd p <? 0x10000
      else (0x10000 <=? snd p) && (snd p <=? 0x10FFFF)).

(** The characters of ASCII. *)
Definition is_ascii (u : N) : bool := u <? 128.
Definition ascii_range : list N := map N.of_nat (seq 0%nat 128%nat).
Definition lower_ascii (u : N) : N := if between 65 90 u then u + 32 else u.

End UTF16.

End JS.

(** ** The page component *)
Module Page.

Import JS.

(** *** Data *)

Record FormData : Type := mkFormData {
  Sqft : string;
  Location : string;
  PropertyType : string;
  Status : string
}.

Module FormOptions.
Record t : Type := mk {
  locations : list string;
  property_types : list string;
  statuses : list string
}.
End FormOptions.

Record TopFeature : Type := mkTopFeature {
  feature : string;
  impact : number
}.

Record PredictionResponse : Type := mkPredictionResponse {
  predicted_price : number;
  shap_image_base64 : string;
  top_features : list TopFeature;
  base_value : number
}.

Module MarketInsights.
Record t : Type := mk {
  status : string;
  selected_city : string;
  locations : list string;
  median_prices : list number;
  counts : list number
}.
End MarketInsights.

(** One field per [useState] cell of the component. *)
Record State : Type := mkState {
  formData : FormData;
  formOptions : FormOptions.t;
  formOptionsLoading : bool;
  loading : bool;
  result : option PredictionResponse;
  error : option string;
  sqftError : option string;
  marketData : option MarketInsights.t;
  marketLoading : bool;
  marketError : option string;
  shapImgError : bool
}.

(** The values given to [useState]. *)
Definition initialState : State := {|
  formData := mkFormData "" "" "" "";
  formOptions := FormOptions.mk [] [] [];
  formOptionsLoading := true;
  loading := false;
  result := None;
  error := None;
  sqftError := None;
  marketData := None;
  marketLoading := false;
  marketError := None;
  shapImgError := false
|}.

Definition setFormData (f : FormData -> FormData) (s : State) : State :=
  mkState (f (formData s)) (formOptions s) (formOptionsLoading s) (loading s)
    (result s) (error s) (sqftError s) (marketData s) (marketLoading s)
    (marketError s) (shapImgError s).
Definition setFormOptions (v : FormOptions.t) (s : State) : State :=
  mkState (formData s) v (formOptionsLoading s) (loading s)
    (result s) (error s) (sqftError s) (marketData s) (marketLoading s)
    (marketError s) (shapImgError s).
Definition setFormOptionsLoading (v : bool) (s : State) : State :=
  mkState (formData s) (formOptions s) v (loading s)
    (result s) (error s) (sqftError s) (marketData s) (marketLoading s)
    (marketError s) (shapImgError s).
Definition setLoading (v : bool) (s : State) : State :=
  mkState (formData s) (formOptions s) (formOptionsLoading s) v
    (result s) (error s) (sqftError s) (marketData s) (marketLoading s)
    (marketError s) (shapImgError s).
Definition setResult (v : option PredictionResponse) (s : State) : State :=
  mkState (formData s) (formOptions s) (formOptionsLoading s) (loading s)
    v (error s) (sqftError s) (marketData s) (marketLoading s)
    (marketError s) (shapImgError s).
Definition setError (v : option string) (s : State) : State :=
  mkState (formData s) (formOptions s) (formOptionsLoading s) (loading s)
    (result s) v (sqftError s) (marketData s) (marketLoading s)
    (marketError s) (shapImgError s).
Definition setSqftError (v : option string) (s : State) : State :=
  mkState (formData s) (formOptions s) (formOptionsLoading s) (loading s)
    (result s) (error s) v (marketData s) (marketLoading s)
    (marketError s) (shapImgError s).
Definition setMarketData (v : option MarketInsights.t) (s : State) : State :=
  mkState (formData s) (formOptions s) (formOptionsLoading s) (loading s)
    (result s) (error s) (sqftError s) v (marketLoading s)
    (marketError s) (shapImgError s).
Definition setMarketLoading (v : bool) (s : State) : State :=
  mkState (formData s) (formOptions s) (formOptionsLoading s) (loading s)
    (result s) (error s) (sqftError s) (marketData s) v
    (marketError s) (shapImgError s).
Definition setMarketError (v : option string) (s : State) : State :=
  mkState (formData s) (formOptions s) (formOptionsLoading s) (loading s)
    (result s) (error s) (sqftError s) (marketData s) (marketLoading s)
    v (shapImgError s).
Definition setShapImgError (v : bool) (s : State) : State :=
  mkState (formData s) (formOptions s) (formOptionsLoading s) (loading s)
    (result s) (error s) (sqftError s) (marketData s) (marketLoading s)
    (marketError s) v.

(** Statements run left to right: [s |> f |> g] is [f] then [g]. *)
Notation "s |> f" := (f s) (at level 45, left associativity, only parsing).

(** *** Requests and how they settle *)

Inductive Request : Type :=
| GetFormOptions
| GetMarketInsights (status location sqft property_type : string)
| PostPredict (sqft : number) (location propertyType status : string).

(** What the code sees of a settled [fetch]: a response with [res.ok] and
    its decoded body, a response without [res.ok], or an exception (the
    request could not be sent, or the body could not be decoded). *)
Inductive Settled (A : Type) : Type :=
| Ok (data : A)
| NotOk
| Threw (message : string).
Arguments Ok {A} data.
Arguments NotOk {A}.
Arguments Threw {A} message.

(** *** normalizeCity *)

(** [\d+\b], greedy: one more digit is tried first, the boundary after the
    digits taken so far second.  Returns the digits and the input left. *)
Fixpoint digits_boundary (l : list N) : option (list N * list N) :=
  match l with
  | c :: l' =>
      if UTF16.is_digit c then
        match digits_boundary l' with
        | Some (cap, rest) => Some (c :: cap, rest)
        | None => if UTF16.word_boundary true l' then Some ([c], l') else None
        end
      else None
  | [] => None
  end.

(** [0+(\d+)\b], greedy: one more zero is tried first, the group second.
    Returns the group and the input left. *)
Fixpoint zeros_digits_boundary (l : list N) : option (list N * list N) :=
  match l with
  | c :: l' =>
      if UTF16.is_zero c then
        match zeros_digits_boundary l' with
        | Some m => Some m
        | None => digits_boundary l'
        end
      else None
  | [] => None
  end.

(** [/\b0+(\d+)\b/] at the current position. *)
Definition match_here (prev_word : bool) (l : list N)
  : option (list N * list N) :=
  if UTF16.word_boundary prev_word l then zeros_digits_boundary l else None.

(** [.replace(/\b0+(\d+)\b/g, '$1')] from the current position on: a match
    is replaced by its group and the scan goes on after it, otherwise one
    code unit is copied.  A match is never empty, so [length l] steps are
    enough. *)
Fixpoint replace_from (fuel : nat) (prev_word : bool) (l : list N) : list N :=
  match fuel, l with
  | S fuel', c :: l' =>
      match match_here prev_word l with
      | Some (cap, rest) => cap ++ replace_from fuel' true rest
      | None => c :: replace_from fuel' (UTF16.is_word c) l'
      end
  | _, _ => l
  end.

Definition strip_leading_zeros (l : list N) : list N :=
  replace_from (length l) false l.

Definition normalizeCity (s : list N) : list N :=
  UTF16.trim (strip_leading_zeros (UTF16.toLowerCase s)).

(** [vs] is [us] without some of its zeros, each of them followed in [us]
    by a digit. *)
Inductive stripped : list N -> list N -> Prop :=
| stripped_nil : stripped [] []
| stripped_keep u us vs : stripped us vs -> stripped (u :: us) (u :: vs)
| stripped_zero d us vs :
    UTF16.is_digit d = true -> stripped (d :: us) vs -> stripped (48%N :: d :: us) vs.

(** A label with an accented capital, a padded number and a no-break
    space at its end, and its normal form. *)
Definition galleAccented : list N :=
  UTF16.units "GALLE " ++ [0xC9%N] ++ UTF16.units " 07" ++ [0xA0%N].
Definition galleAccentedNormal : list N :=
  UTF16.units "galle " ++ [0xE9%N] ++ UTF16.units " 7".

(** *** fetchOptions *)

(** [/colombo\s*3$/i] at the current position. *)
Definition colombo3_here (l : list ascii) : bool :=
  match literal_ci (chars "colombo") l with
  | Some r =>
      match dropWhile is_space r with
      | [c] => Ascii.eqb c "3"
      | _ => false
      end
  | None => false
  end.

Definition literal_here (pat : string) (l : list ascii) : bool :=
  match literal_ci (chars pat) l with Some _ => true | None => false end.

(** [/colombo\s*3$/i.test(l)], [/office/i.test(t)], [/rent/i.test(s)] *)
Definition test_colombo3 (l : string) : bool := test colombo3_here (chars l).
Definition test_office (t : string) : bool := test (literal_here "office") (chars t).
Definition test_rent (s : string) : bool := test (literal_here "rent") (chars s).

(** [a || b] where [a] may be [undefined]. *)
Definition or_undefined (a : option string) (b : string) : string :=
  match a with
  | Some x => or_str x b
  | None => b
  end.

(** [xs.find(p) || xs[0] || ''] *)
Definition preferred (p : string -> bool) (xs : list string) : string :=
  or_undefined (find p xs) (or_undefined (head xs) "").

Definition fallbackOptions : FormOptions.t := {|
  FormOptions.locations :=
    ["Colombo 01"; "Colombo 03"; "Colombo 07"; "Dehiwala"; "Galle"; "Kandy";
     "Mount Lavinia"; "Negombo"; "Nugegoda"];
  FormOptions.property_types :=
    ["Building"; "Commercial Property"; "Office Space"; "Shop"; "Warehouse"];
  FormOptions.statuses := ["Rent"; "Sale"]
|}.

(** The updater given to [setFormData]: a field keeps a truthy value. *)
Definition withDefaults (defaultLocation defaultType defaultStatus : string)
    (prev : FormData) : FormData := {|
  Sqft := Sqft prev;
  Location := or_str (Location prev) defaultLocation;
  PropertyType := or_str (PropertyType prev) defaultType;
  Status := or_str (Status prev) defaultStatus
|}.

(** [fetchOptions] after [await fetch('/form-options')]. *)
Definition fetchOptions_settled (o : Settled FormOptions.t) (s : State) : State :=
  match o with
  | Ok data =>
      let defaultLocation := preferred test_colombo3 (FormOptions.locations data) in
      let defaultType := preferred test_office (FormOptions.property_types data) in
      let defaultStatus := preferred test_rent (FormOptions.statuses data) in
      s |> setFormOptions data
        |> setFormData (withDefaults defaultLocation defaultType defaultStatus)
  | NotOk => s
  | Threw _ =>
      s |> setFormOptions fallbackOptions
        |> setFormData (withDefaults "Colombo 03" "Office Space" "Rent")
  end |> setFormOptionsLoading false.

(** *** fetchMarketData *)

(** [fetchMarketData] up to its [await fetch(...)]: the state it leaves and
    the request it sends. *)
Definition fetchMarketData (s : State) : State * Request :=
  let s' := s |> setMarketLoading true |> setMarketError None in
  let fd := formData s in
  (s', GetMarketInsights (Status fd) (Location fd) (or_str (Sqft fd) "0")
         (PropertyType fd)).

(** [fetchMarketData] after the [await]. *)
Definition fetchMarketData_settled (o : Settled MarketInsights.t) (s : State) : State :=
  match o with
  | Ok data =>
      if (0 <? length (MarketInsights.locations data))%nat then
        s |> setMarketData (Some data)
      else
        s |> setMarketData None
          |> setMarketError (Some "No market data found for this category.")
  | NotOk =>
      s |> setMarketError
             (Some "Backend returned an error. Make sure the backend server is running.")
  | Threw _ =>
      s |> setMarketError
             (Some "Could not connect to the backend. Make sure it is running on port 8000.")
  end |> setMarketLoading false.

(** *** handleChange and handleSubmit *)

(** The [name] of the four form controls. *)
Inductive Field : Type := FSqft | FLocation | FPropertyType | FStatus.

Definition setField (name : Field) (value : string) (fd : FormData) : FormData :=
  match name with
  | FSqft => mkFormData value (Location fd) (PropertyType fd) (Status fd)
  | FLocation => mkFormData (Sqft fd) value (PropertyType fd) (Status fd)
  | FPropertyType => mkFormData (Sqft fd) (Location fd) value (Status fd)
  | FStatus => mkFormData (Sqft fd) (Location fd) (PropertyType fd) value
  end.

Definition handleChange (name : Field) (value : string) (s : State) : State :=
  let s' := s |> setFormData (setField name value) in
  match name with
  | FSqft => s' |> setSqftError None
  | _ => s'
  end.

(** [handleSubmit] up to its [await fetch(...)]: the state it leaves and
    the request it sends, if it gets that far. *)
Definition handleSubmit (s : State) : State * option Request :=
  let s0 := s |> setSqftError None |> setError None in
  let fd := formData s in
  if negb (truthy (Sqft fd)) then
    (s0 |> setSqftError (Some "Please enter the square footage."), None)
  else
    let sqftNum := Number (Sqft fd) in
    if isNaN sqftNum || less sqftNum (of_Z 50) then
      (s0 |> setSqftError (Some "Square footage must be at least 50 sqft."), None)
    else if greater sqftNum (of_Z 1000000) then
      (s0 |> setSqftError (Some "Value is too large. Please enter a valid size."), None)
    else
      (s0 |> setLoading true |> setResult None |> setShapImgError false,
       Some (PostPredict sqftNum (Location fd) (PropertyType fd) (Status fd))).

(** [handleSubmit] after the [await]: a response without [ok] throws the
    fixed message into the same [catch] as a failed request. *)
Definition handleSubmit_settled (o : Settled PredictionResponse) (s : State) : State :=
  match o with
  | Ok data => s |> setResult (Some data)
  | NotOk =>
      s |> setError
             (Some (or_str "Failed to get prediction from the backend."
                      "An unexpected error occurred."))
  | Threw message =>
      s |> setError (Some (or_str message "An unexpected error occurred."))
  end |> setLoading false.

(** *** The page as a transition system

    [issued] is every request sent so far, oldest first; a request's id is
    its position there.  [pending] holds the requests still in flight. *)
Record World : Type := mkWorld {
  page : State;
  pending : gmap nat Request;
  issued : list Request
}.

Definition fetch (r : Request) (w : World) : World := {|
  page := page w;
  pending := <[length (issued w) := r]> (pending w);
  issued := issued w ++ [r]
|}.

Definition onPage (f : State -> State) (w : World) : World :=
  mkWorld (f (page w)) (pending w) (issued w).

Definition settle (id : nat) (w : World) : World :=
  mkWorld (page w) (delete id (pending w)) (issued w).

Definition callFetchMarketData (w : World) : World :=
  let '(s, r) := fetchMarketData (page w) in
  fetch r (mkWorld s (pending w) (issued w)).

(** The dependency list of the market effect. *)
Definition same_deps (a b : FormData) : bool :=
  String.eqb (Status a) (Status b) && String.eqb (Location a) (Location b)
  && String.eqb (Sqft a) (Sqft b) && String.eqb (PropertyType a) (PropertyType b).

(** [useEffect(..., [formData.Status, formData.Location, formData.Sqft,
    formData.PropertyType])] after a render: the effect runs when a
    dependency differs from the one of the render before. *)
Definition marketEffect (before : FormData) (w : World) : World :=
  if same_deps before (formData (page w)) then w else callFetchMarketData w.

(** The first render: both effects run, in the order they are declared,
    once each. *)
Definition mount : World :=
  mkWorld initialState ∅ [] |> fetch GetFormOptions |> callFetchMarketData.

(** How often React runs the effects of the first render.  [index.tsx]
    renders the application under [React.StrictMode]: a production build
    runs each effect once, a development build runs each of them, in the
    order they are declared, a second time.  Neither effect returns a
    clean-up function, so the requests of the first run stay in flight. *)
Inductive Build : Type := Production | Development.

Definition effect_runs (b : Build) : nat :=
  match b with
  | Production => 1
  | Development => 2
  end.

Definition mountIn (b : Build) : World :=
  match b with
  | Production => mount
  | Development => mount |> fetch GetFormOptions |> callFetchMarketData
  end.

Inductive Event : Type :=
| Change (name : Field) (value : string)
| Submit
| ImgError
| OptionsSettled (id : nat) (o : Settled FormOptions.t)
| MarketSettled (id : nat) (o : Settled MarketInsights.t)
| PredictSettled (id : nat) (o : Settled PredictionResponse).

Definition mem (v : string) (xs : list string) : bool := existsb (String.eqb v) xs.

(** What the rendered controls let through: the three selects are disabled
    while the options load and offer the loaded options only; the submit
    button is disabled while a submission is loading; the explanation image
    exists when there is a result with an image and no image error. *)
Definition enabled (s : State) (e : Event) : bool :=
  match e with
  | Change FSqft _ => true
  | Change FLocation v =>
      negb (formOptionsLoading s) && mem v (FormOptions.locations (formOptions s))
  | Change FPropertyType v =>
      negb (formOptionsLoading s) && mem v (FormOptions.property_types (formOptions s))
  | Change FStatus v =>
      negb (formOptionsLoading s) && mem v (FormOptions.statuses (formOptions s))
  | Submit => negb (loading s)
  | ImgError =>
      match result s with
      | Some r => negb (shapImgError s) && truthy (shap_image_base64 r)
      | None => false
      end
  | _ => true
  end.

Definition step (w : World) (e : Event) : option World :=
  if negb (enabled (page w) e) then None else
  match e with
  | Change name value =>
      Some (w |> onPage (handleChange name value) |> marketEffect (formData (page w)))
  | Submit =>
      let '(s, r) := handleSubmit (page w) in
      let w' := mkWorld s (pending w) (issued w) in
      Some (match r with Some r => fetch r w' | None => w' end)
  | ImgError => Some (w |> onPage (setShapImgError true))
  | OptionsSettled id o =>
      match pending w !! id with
      | Some GetFormOptions =>
          Some (w |> settle id |> onPage (fetchOptions_settled o)
                  |> marketEffect (formData (page w)))
      | _ => None
      end
  | MarketSettled id o =>
      match pending w !! id with
      | Some (GetMarketInsights _ _ _ _) =>
          Some (w |> settle id |> onPage (fetchMarketData_settled o))
      | _ => None
      end
  | PredictSettled id o =>
      match pending w !! id with
      | Some (PostPredict _ _ _ _) =>
          Some (w |> settle id |> onPage (handleSubmit_settled o))
      | _ => None
      end
  end.

Fixpoint run (w : World) (es : list Event) : option World :=
  match es with
  | [] => Some w
  | e :: es' =>
      match step w e with
      | Some w' => run w' es'
      | None => None
      end
  end.

(** The worlds the page can be in, in either build. *)
Inductive reachable : World -> Prop :=
| reachable_mount b : reachable (mountIn b)
| reachable_step w e w' : reachable w -> step w e = Some w' -> reachable w'.

(** *** Sample data used in the concrete scenarios below *)

(** A form whose square-footage field holds [v]. *)
Definition withSqft (v : string) : State :=
  initialState |> handleChange FSqft v.

Definition snapshotA : MarketInsights.t :=
  MarketInsights.mk "Rent" "Colombo 03" ["Colombo 03"; "Kandy"]
    [of_Z 350000; of_Z 120000] [of_Z 12; of_Z 5].

Definition snapshotB : MarketInsights.t :=
  MarketInsights.mk "Rent" "Kandy" ["Kandy"] [of_Z 90000] [of_Z 9].

Definition prediction350k : PredictionResponse :=
  mkPredictionResponse (of_Z 350000) "iVBORw0KGgo="
    [mkTopFeature "Sqft" (of_Z 42000); mkTopFeature "Location_Colombo 03" (of_Z (-1500))]
    (of_Z 200000).

(** A form on which only the location has been chosen, and a catalog as
    the backend may return it. *)
Definition kandyChosen : State :=
  initialState |> handleChange FLocation "Kandy".

Definition sampleOptions : FormOptions.t :=
  FormOptions.mk ["Galle"; "Colombo 3"] ["Shop"; "Head Office"] ["Sale"].

(** The world a run of events from the first render ends in. *)
Definition after (es : list Event) : World :=
  match run mount es with
  | Some w => w
  | None => mount
  end.

(** The page showing an earlier prediction, with the square-footage field
    then edited to a value below the minimum. *)
Definition staleResultWorld : World :=
  after [Change FSqft "1200"; Submit; PredictSettled 3 (Ok prediction350k);
         Change FSqft "10"].

(** The page showing the prediction of a first submission. *)
Definition firstSubmissionDone : World :=
  after [Change FSqft "1200"; Submit; PredictSettled 3 (Ok prediction350k)].

Definition is_predict (r : Request) : bool :=
  match r with PostPredict _ _ _ _ => true | _ => false end.

(** Ids are fresh, and a prediction request in flight is the only one, has
    the loading flag up and the result cleared. *)
Definition Inv (w : World) : Prop :=
  (forall id r, pending w !! id = Some r -> id < length (issued w)) /\
  (forall id r, pending w !! id = Some r -> is_predict r = true ->
     loading (page w) = true /\ result (page w) = None) /\
  (forall id id' r r', pending w !! id = Some r -> pending w !! id' = Some r' ->
     is_predict r = true -> is_predict r' = true -> id = id').

(** A submission that the backend fails, after which the user empties the
    square-footage field. *)
Definition failedThenEmptied : list Event :=
  [Change FSqft "1200"; Submit; PredictSettled 3 NotOk; Change FSqft ""].

(** A string that [trimStart] leaves alone. *)
Definition no_leading_space (l : list N) : Prop :=
  match l with
  | [] => True
  | x :: _ => UTF16.is_white_space x = false
  end.

(** A number below, or above, an integer bound, in the order of the
    extended reals; NaN is neither. *)
Definition below (n : number) (z : Z) : Prop :=
  n = Inf true \/ exists q, n = Fin q /\ (q < inject_Z z)%Q.
Definition above (n : number) (z : Z) : Prop :=
  n = Inf false \/ exists q, n = Fin q /\ (inject_Z z < q)%Q.

(** The rules of the input validator, as the specification lists them:
    the text is empty, is not a number, is below 50 or is above 1,000,000. *)
Definition spec_invalid (v : string) : Prop :=
  v = "" \/ Number v = NaN \/ below (Number v) 50 \/ above (Number v) 1000000.

(** *** The results view

    The parts of the rendered page that compute something from the state:
    the labels of the feature cards, the explanation panel, the market
    panel and the styling of the bars of the chart. *)

(** A literal, anchored at the current position: the input left after it. *)
Fixpoint literal (pat l : list ascii) : option (list ascii) :=
  match pat, l with
  | [], _ => Some l
  | p :: pat', c :: l' => if Ascii.eqb p c then literal pat' l' else None
  | _ :: _, [] => None
  end.

(** [s.replace(pat, '')] for a string pattern: the first occurrence goes. *)
Fixpoint removeFirst (pat l : list ascii) : list ascii :=
  match literal pat l with
  | Some rest => rest
  | None =>
      match l with
      | [] => []
      | c :: l' => c :: removeFirst pat l'
      end
  end.

(** [s.includes(pat)] *)
Definition includes (pat : string) (s : string) : bool :=
  test (fun l => match literal (chars pat) l with Some _ => true | None => false end)
    (chars s).

(** The label of a feature card. *)
Definition featureName (f : TopFeature) : string :=
  str (removeFirst (chars "Status_")
         (removeFirst (chars "Property Type_")
            (removeFirst (chars "Location_") (chars (feature f))))).

(** What the explanation box of a result shows. *)
Inductive ShapPanel : Type :=
| ShapNotRendered
| ShapImage (src : string)
| ShapNotAvailable.

Definition shapPanel (s : State) (r : PredictionResponse) : ShapPanel :=
  if shapImgError s then ShapNotRendered
  else if truthy (shap_image_base64 r) then
    ShapImage ("data:image/png;base64," ++ shap_image_base64 r)
  else ShapNotAvailable.

(** What the market card shows: a spinner, the chart of a snapshot, or a
    text with, under it, the tip to start the backend. *)
Inductive MarketPanel : Type :=
| MarketSpinner
| MarketChart (data : MarketInsights.t)
| MarketMessage (text : string) (tip : bool).

Definition marketMessage (s : State) : MarketPanel :=
  MarketMessage (or_undefined (marketError s) "No market data available")
    (match marketError s with Some e => truthy e | None => false end).

Definition marketPanel (s : State) : MarketPanel :=
  if marketLoading s then MarketSpinner
  else
    match marketData s with
    | Some data =>
        if (0 <? length (MarketInsights.locations data))%nat then MarketChart data
        else marketMessage s
    | None => marketMessage s
    end.

(** A number as a condition: zero and NaN are falsy. *)
Definition truthy_number (n : number) : bool :=
  match n with
  | NaN => false
  | Inf _ => true
  | Fin q => negb (Qeq_bool q 0)
  end.

(** [x || 0] where [x] may be [undefined]. *)
Definition or_zero (x : option number) : number :=
  match x with
  | Some n => if truthy_number n then n else of_Z 0
  | None => of_Z 0
  end.

(** [a >= b] *)
Definition greater_eq (a b : number) : bool :=
  match a, b with
  | NaN, _ | _, NaN => false
  | _, _ => negb (less a b)
  end.

(** [normalizeCity(loc) === normalizeCity(marketData.selected_city)], under
    the guard on [selected_city]. *)
Definition isSelected (data : MarketInsights.t) (loc : string) : bool :=
  if truthy (MarketInsights.selected_city data) then
    UTF16.equal (normalizeCity (UTF16.units loc))
      (normalizeCity (UTF16.units (MarketInsights.selected_city data)))
  else false.

(** [(marketData.counts[i] || 0) < 8] *)
Definition lowData (data : MarketInsights.t) (i : nat) : bool :=
  less (or_zero (MarketInsights.counts data !! i)) (of_Z 8).

Definition backgroundColor (data : MarketInsights.t) : list string :=
  imap (fun i loc =>
          if isSelected data loc then "rgba(0, 128, 0, 0.9)"
          else if lowData data i then "rgba(0, 128, 0, 0.15)"
          else "rgba(0, 128, 0, 0.25)")
    (MarketInsights.locations data).

Definition borderColor (data : MarketInsights.t) : list string :=
  map (fun loc => if isSelected data loc then "#004d00" else "#008000")
    (MarketInsights.locations data).

Definition borderWidth (data : MarketInsights.t) : list number :=
  map (fun loc => if isSelected data loc then Fin (5 # 2) else of_Z 1)
    (MarketInsights.locations data).

(** The tooltip's [count && count >= 8], as the condition it is used for. *)
Definition reliable (count : option number) : bool :=
  match count with
  | Some n => truthy_number n && greater_eq n (of_Z 8)
  | None => false
  end.

(** *** Definitions used in the statements about the transition system *)

Definition is_market (r : Request) : bool :=
  match r with GetMarketInsights _ _ _ _ => true | _ => false end.

Definition is_options (r : Request) : bool :=
  match r with GetFormOptions => true | _ => false end.

(** The most recent market request sent. *)
Definition lastMarket (l : list Request) : option Request :=
  find is_market (rev l).


(** The market request for a form. *)
Definition marketRequestFor (fd : FormData) : Request :=
  GetMarketInsights (Status fd) (Location fd) (or_str (Sqft fd) "0") (PropertyType fd).

(** A snapshot in which the selected city and a location differ by zero
    padding only. *)
Definition snapshotPadded : MarketInsights.t :=
  MarketInsights.mk "Rent" "Colombo 3" ["Colombo 03"; "Kandy"]
    [of_Z 350000; of_Z 120000] [of_Z 12; of_Z 5].

(** The request an event settles. *)
Definition settles (e : Event) : option nat :=
  match e with
  | OptionsSettled id _ | MarketSettled id _ | PredictSettled id _ => Some id
  | _ => None
  end.

(** The requests in flight once the one the event settles is taken out. *)
Definition remaining (e : Event) (w : World) : gmap nat Request :=
  match settles e with
  | Some id => delete id (pending w)
  | None => pending w
  end.

(** The flow an event belongs to: the form, the option loader, the market
    synchronisation or the prediction. *)
Inductive Flow : Type := FormFlow | OptionsFlow | MarketFlow | PredictionFlow.

Definition flow (e : Event) : Flow :=
  match e with
  | Change _ _ => FormFlow
  | OptionsSettled _ _ => OptionsFlow
  | MarketSettled _ _ => MarketFlow
  | Submit | ImgError | PredictSettled _ _ => PredictionFlow
  end.

Definition flow_eqb (a b : Flow) : bool :=
  match a, b with
  | FormFlow, FormFlow | OptionsFlow, OptionsFlow | MarketFlow, MarketFlow
  | PredictionFlow, PredictionFlow => true
  | _, _ => false
  end.

(** No event of the run belongs to the flow. *)
Definition without (f : Flow) (es : list Event) : bool :=
  forallb (fun e => negb (flow_eqb (flow e) f)) es.

(** The event is an edit of the form or a submission: [handleChange] and
    [handleSubmit] are the two functions that call [setSqftError]. *)
Definition edits_or_submits (e : Event) : bool :=
  match e with
  | Change _ _ | Submit => true
  | _ => false
  end.

(** A development build in which the first option load fails and the
    second one succeeds. *)
Definition secondLoadArrives : list Event :=
  [OptionsSettled 0 (Threw "Failed to fetch"); OptionsSettled 2 (Ok sampleOptions)].

(** The three texts [fetchMarketData] can store as the market error. *)
Definition marketErrors : list string :=
  ["No market data found for this category.";
   "Backend returned an error. Make sure the backend server is running.";
   "Could not connect to the backend. Make sure it is running on port 8000."].

(** A request of some kind is in flight. *)
Definition in_flight (kind : Request -> bool) (w : World) : Prop :=
  exists id r, pending w !! id = Some r /\ kind r = true.

(** What [handleSubmit] writes before a request goes out, and what it
    writes when it stops at a guard. *)
Definition submitAccepted (s : State) : State :=
  s |> setSqftError None |> setError None |> setLoading true |> setResult None
    |> setShapImgError false.
Definition submitRejected (reason : string) (s : State) : State :=
  s |> setSqftError None |> setError None |> setSqftError (Some reason).

(** Every zero-padded spelling of a number: some zeros, then the digits. *)
Definition padded (k : nat) (digits : list N) : list N :=
  repeat 48%N k ++ digits.

(** The guards of [handleSubmit], in the order they are tested. *)
Definition rejects (v : string) : bool :=
  negb (truthy v) || (isNaN (Number v) || less (Number v) (of_Z 50))
  || greater (Number v) (of_Z 1000000).

(** ** Properties *)

(** *** The built-ins on concrete inputs *)

Example Number_integer : Number "1200" = of_Z 1200.
Proof. vm_compute. reflexivity. Qed.

Example Number_spaces : Number " 12 " = of_Z 12 /\ Number "   " = of_Z 0.
Proof. vm_compute. split; reflexivity. Qed.

Example Number_exponent : Number "1e3" = of_Z 1000 /\ Number "2.5e-1" = Fin (1 # 4).
Proof. vm_compute. split; reflexivity. Qed.

Example Number_not_numeric :
  Number "abc" = NaN /\ Number "12px" = NaN /\ Number "." = NaN /\ Number "1e" = NaN.
Proof. vm_compute. repeat split; reflexivity. Qed.

Example Number_infinite :
  Number "Infinity" = Inf false /\ Number "-Infinity" = Inf true
  /\ Number "1e400" = Inf false.
Proof. vm_compute. repeat split; reflexivity. Qed.

(** The nearest binary64 value is taken: a text just below 50 reads as 50. *)
Example Number_rounds :
  Number "49.99999999999999999999" = of_Z 50
  /\ Number "9007199254740993" = of_Z 9007199254740992
  /\ Number "0.1" = Fin (3602879701896397 # 36028797018963968).
Proof. vm_compute. repeat split; reflexivity. Qed.

Example toLowerCase_examples :
  UTF16.toLowerCase (UTF16.units "Colombo 03") = UTF16.units "colombo 03"
  /\ UTF16.toLowerCase [0xC9; 0x212A; 0x130]%N = [0xE9; 0x6B; 0x69; 0x307]%N
  /\ UTF16.toLowerCase [0x391; 0x3A3; 0x20; 0x391; 0x3A3; 0x391]%N
     = [0x3B1; 0x3C2; 0x20; 0x3B1; 0x3C3; 0x3B1]%N
  /\ UTF16.toLowerCase [0xD801; 0xDC00; 0xD801; 0x41; 0xDC00]%N
     = [0xD801; 0xDC28; 0xD801; 0x61; 0xDC00]%N.
Proof. vm_compute. repeat split; reflexivity. Qed.

Example normalizeCity_examples :
  normalizeCity (UTF16.units "Colombo 03") = UTF16.units "colombo 3"
  /\ normalizeCity (UTF16.units "  Colombo 007 a00 00 0 000 0070 00a 1.050 ")
     = UTF16.units "colombo 7 a00 0 0 0 70 00a 1.50"
  /\ normalizeCity galleAccented = galleAccentedNormal.
Proof. vm_compute. repeat split; reflexivity. Qed.

Example test_colombo3_examples :
  test_colombo3 "Colombo 3" = true /\ test_colombo3 "Greater COLOMBO3" = true
  /\ test_colombo3 "Colombo 03" = false /\ test_colombo3 "Colombo 3 North" = false.
Proof. vm_compute. repeat split; reflexivity. Qed.

Example preferred_examples :
  preferred test_colombo3 (FormOptions.locations fallbackOptions) = "Colombo 01"
  /\ preferred test_office (FormOptions.property_types fallbackOptions) = "Office Space"
  /\ preferred test_rent (FormOptions.statuses fallbackOptions) = "Rent"
  /\ preferred test_rent [] = "".
Proof. vm_compute. repeat split; reflexivity. Qed.

Example mount_requests :
  issued mount = [GetFormOptions; GetMarketInsights "" "" "0" ""]
  /\ marketLoading (page mount) = true /\ formOptionsLoading (page mount) = true.
Proof. vm_compute. repeat split; reflexivity. Qed.

(** *** Input validation in [handleSubmit] *)

Arguments less : simpl never.
Arguments greater : simpl never.
Arguments Number : simpl never.

Lemma truthy_false (v : string) : truthy v = false <-> v = "".
Proof. destruct v; simpl; split; congruence. Qed.

Lemma isNaN_true (n : number) : isNaN n = true <-> n = NaN.
Proof. destruct n; simpl; split; congruence. Qed.

Lemma less_Fin (x y : Q) : less (Fin x) (Fin y) = true <-> (x < y)%Q.
Proof.
  unfold less. rewrite negb_true_iff. split.
  - intros H. apply Qnot_le_lt. intros Hle. apply Qle_bool_iff in Hle. congruence.
  - intros H. destruct (Qle_bool y x) eqn:E; [|reflexivity].
    apply Qle_bool_iff in E. destruct (Qlt_not_le _ _ H E).
Qed.

(** The comparisons of the code are the order of the specification. *)
Lemma less_below (n : number) (z : Z) : less n (of_Z z) = true <-> below n z.
Proof.
  unfold below, of_Z. destruct n as [|[]|q].
  - split; [discriminate | intros [H|(q & H & _)]; discriminate].
  - split; [auto | reflexivity].
  - split; [discriminate | intros [H|(q & H & _)]; discriminate].
  - rewrite less_Fin. split.
    + intros H. right. eauto.
    + intros [H|(q' & [= <-] & H)]; [discriminate | exact H].
Qed.

Lemma greater_above (n : number) (z : Z) : greater n (of_Z z) = true <-> above n z.
Proof.
  unfold above, greater, of_Z. destruct n as [|[]|q].
  - split; [discriminate | intros [H|(q & H & _)]; discriminate].
  - split; [discriminate | intros [H|(q & H & _)]; discriminate].
  - split; [auto | reflexivity].
  - rewrite less_Fin. split.
    + intros H. right. eauto.
    + intros [H|(q' & [= <-] & H)]; [discriminate | exact H].
Qed.

Lemma spec_invalid_rejects (v : string) : spec_invalid v <-> rejects v = true.
Proof.
  unfold spec_invalid, rejects.
  rewrite !orb_true_iff, negb_true_iff, truthy_false, isNaN_true,
    less_below, greater_above. tauto.
Qed.

Lemma above_not_below (n : number) :
  above n 1000000 -> n <> NaN /\ ~ below n 50.
Proof.
  intros [->|(q & -> & Hq)]; (split; [discriminate|]).
  - intros [H|(q & H & _)]; discriminate.
  - intros [H|(q' & [= <-] & Hq')]; [discriminate|].
    apply (Qlt_irrefl q). eapply Qlt_trans; [exact Hq'|].
    eapply Qlt_trans; [|exact Hq]. reflexivity.
Qed.

Lemma in_range_checks (q : Q) :
  (50 <= q)%Q -> (q <= 1000000)%Q ->
  less (Fin q) (of_Z 50) = false /\ greater (Fin q) (of_Z 1000000) = false.
Proof.
  intros H1 H2. unfold greater, less, of_Z.
  split; apply negb_false_iff, Qle_bool_iff; assumption.
Qed.

Lemma guard_small (n : number) :
  n = NaN \/ below n 50 -> isNaN n || less n (of_Z 50) = true.
Proof.
  rewrite orb_true_iff, isNaN_true, less_below. trivial.
Qed.

Lemma guard_large (n : number) :
  above n 1000000 ->
  isNaN n || less n (of_Z 50) = false /\ greater n (of_Z 1000000) = true.
Proof.
  intros H. destruct (above_not_below n H) as [Hn Hb].
  split; [|apply greater_above, H].
  apply orb_false_iff. split.
  - destruct (isNaN n) eqn:E; [apply isNaN_true in E; contradiction | reflexivity].
  - destruct (less n (of_Z 50)) eqn:E; [apply less_below in E; contradiction | reflexivity].
Qed.

(** A text passes the validator exactly when it reads as a finite number
    between 50 and 1,000,000. *)
Lemma spec_valid (v : string) :
  ~ spec_invalid v <->
  v <> "" /\ exists q, Number v = Fin q /\ (50 <= q)%Q /\ (q <= 1000000)%Q.
Proof.
  unfold spec_invalid, below, above. split.
  - intros H. split; [tauto|].
    destruct (Number v) as [|[]|q]; try (exfalso; tauto).
    exists q. split; [reflexivity|]. split.
    + apply Qnot_lt_le. intros Hq. apply H. right. right. left. right. eauto.
    + apply Qnot_lt_le. intros Hq. apply H. right. right. right. right. eauto.
  - intros (Hv & q & Hq & H1 & H2) [He|[Hn|[[Hb|(q' & Hb & Hlt)]|[Ha|(q' & Ha & Hlt)]]]];
      try congruence.
    + rewrite Hq in Hb. injection Hb as <-. exact (Qlt_not_le _ _ Hlt H1).
    + rewrite Hq in Ha. injection Ha as <-. exact (Qlt_not_le _ _ Hlt H2).
Qed.

(** What [handleSubmit] does when a rule of the validator fires. *)
Lemma handleSubmit_invalid (s : State) :
  spec_invalid (Sqft (formData s)) ->
  exists reason,
    handleSubmit s
    = (s |> setSqftError None |> setError None |> setSqftError (Some reason), None).
Proof.
  intros Hinv%spec_invalid_rejects. unfold rejects in Hinv. unfold handleSubmit.
  destruct (negb (truthy (Sqft (formData s)))); [eauto|].
  destruct (isNaN (Number (Sqft (formData s))) || less (Number (Sqft (formData s))) (of_Z 50));
    [eauto|].
  simpl in Hinv. rewrite Hinv. eauto.
Qed.

(** What it does otherwise. *)
Lemma handleSubmit_valid (s : State) :
  ~ spec_invalid (Sqft (formData s)) ->
  handleSubmit s
  = (s |> setSqftError None |> setError None |> setLoading true |> setResult None
       |> setShapImgError false,
     Some (PostPredict (Number (Sqft (formData s))) (Location (formData s))
             (PropertyType (formData s)) (Status (formData s)))).
Proof.
  rewrite spec_invalid_rejects. unfold rejects, handleSubmit. intros Hv.
  destruct (negb (truthy (Sqft (formData s)))); [destruct Hv; reflexivity|].
  destruct (isNaN (Number (Sqft (formData s))) || less (Number (Sqft (formData s))) (of_Z 50));
    [destruct Hv; reflexivity|].
  destruct (greater (Number (Sqft (formData s))) (of_Z 1000000));
    [destruct Hv; reflexivity|].
  reflexivity.
Qed.

(** C3, as stated, fails: the text [abc] is not a number and the text [10]
    is a number below 50, yet both are rejected with one and the same
    reason; there is no reason of its own for text that is not a number. *)
Lemma not_a_number_has_no_reason_of_its_own :
  Number "abc" = NaN /\ Number "10" = of_Z 10 /\
  sqftError (fst (handleSubmit (withSqft "abc")))
  = Some "Square footage must be at least 50 sqft." /\
  sqftError (fst (handleSubmit (withSqft "10")))
  = sqftError (fst (handleSubmit (withSqft "abc"))).
Proof. vm_compute. repeat split; reflexivity. Qed.

(** C3 (amended): [handleSubmit] checks the square-footage text [v] in
    order and stores one of three reasons.  Empty text gets the missing
    value reason; text that is not a number and numbers below 50 share the
    at-least-50 reason; numbers above 1,000,000 get the too-large reason;
    no request is sent in these cases.  For 50 <= v <= 1,000,000 no reason
    is stored and the prediction request carries the number.  The three
    reasons differ from one another. *)
Theorem handleSubmit_validation (s : State) :
  let v := Sqft (formData s) in
  let out := handleSubmit s in
  (v = "" ->
     sqftError (fst out) = Some "Please enter the square footage."
     /\ snd out = None) /\
  (v <> "" -> Number v = NaN \/ below (Number v) 50 ->
     sqftError (fst out) = Some "Square footage must be at least 50 sqft."
     /\ snd out = None) /\
  (v <> "" -> above (Number v) 1000000 ->
     sqftError (fst out) = Some "Value is too large. Please enter a valid size."
     /\ snd out = None) /\
  (forall q, v <> "" -> Number v = Fin q -> (50 <= q)%Q -> (q <= 1000000)%Q ->
     sqftError (fst out) = None
     /\ snd out = Some (PostPredict (Fin q) (Location (formData s))
                          (PropertyType (formData s)) (Status (formData s)))) /\
  "Please enter the square footage." <> "Square footage must be at least 50 sqft." /\
  "Please enter the square footage." <> "Value is too large. Please enter a valid size." /\
  "Square footage must be at least 50 sqft."
    <> "Value is too large. Please enter a valid size.".
Proof.
  cbv zeta. unfold handleSubmit.
  destruct (truthy (Sqft (formData s))) eqn:Ht; cbn [negb].
  - assert (Hne : Sqft (formData s) <> "").
    { intros He. apply truthy_false in He. congruence. }
    split; [intros; contradiction|].
    split; [intros _ Hsmall; rewrite (guard_small _ Hsmall); split; reflexivity|].
    split; [intros _ Hlarge; destruct (guard_large _ Hlarge) as [-> ->];
            split; reflexivity|].
    split; [|repeat split; discriminate].
    intros q _ Hq H1 H2. rewrite Hq.
    destruct (in_range_checks q H1 H2) as [-> ->]. split; reflexivity.
  - apply truthy_false in Ht.
    split; [intros _; split; reflexivity|].
    split; [intros; contradiction|].
    split; [intros; contradiction|].
    split; [intros; contradiction|].
    repeat split; discriminate.
Qed.

Lemma handleSubmit_validation_witness :
  sqftError (fst (handleSubmit (withSqft "1200"))) = None /\
  snd (handleSubmit (withSqft "1200")) = Some (PostPredict (of_Z 1200) "" "" "").
Proof.
  destruct (handleSubmit_validation (withSqft "1200")) as (_ & _ & _ & Hvalid & _).
  apply (Hvalid 1200%Q).
  - discriminate.
  - vm_compute. reflexivity.
  - vm_compute. discriminate.
  - vm_compute. discriminate.
Defined.

(** *** Submissions that fail validation *)

(** C5: a submission whose square footage fails validation sends nothing
    (the log of requests and the requests in flight stay as they were) and
    leaves the prediction result, the submission loading flag and the
    image-error flag as they were; of the page state only the field-level
    error, which receives the reason, and the top-level error, which is
    cleared, are written. *)
Theorem invalid_submit_sends_nothing (w : World) :
  loading (page w) = false ->
  spec_invalid (Sqft (formData (page w))) ->
  exists w' reason,
    step w Submit = Some w' /\
    issued w' = issued w /\ pending w' = pending w /\
    result (page w') = result (page w) /\
    loading (page w') = loading (page w) /\
    shapImgError (page w') = shapImgError (page w) /\
    page w' = page w |> setSqftError (Some reason) |> setError None.
Proof.
  intros Hl Hinv. destruct (handleSubmit_invalid (page w) Hinv) as [reason Hs].
  assert (Hstep : step w Submit
                  = Some (mkWorld (fst (handleSubmit (page w))) (pending w) (issued w))).
  { unfold step. simpl. rewrite Hl, Hs. reflexivity. }
  rewrite Hs in Hstep. eexists _, reason. split; [exact Hstep|].
  repeat split; reflexivity.
Qed.

Lemma invalid_submit_sends_nothing_witness :
  exists w' reason,
    step staleResultWorld Submit = Some w' /\
    issued w' = issued staleResultWorld /\ pending w' = pending staleResultWorld /\
    result (page w') = result (page staleResultWorld) /\
    loading (page w') = loading (page staleResultWorld) /\
    shapImgError (page w') = shapImgError (page staleResultWorld) /\
    page w' = page staleResultWorld |> setSqftError (Some reason) |> setError None.
Proof.
  apply (invalid_submit_sends_nothing staleResultWorld).
  - vm_compute. reflexivity.
  - apply spec_invalid_rejects. vm_compute. reflexivity.
Defined.

(** C10: every submission first clears the top-level error, whether or
    not the validation that follows lets it through. *)
Theorem submit_clears_error (w w' : World) :
  step w Submit = Some w' -> error (page w') = None.
Proof.
  unfold step. destruct (negb (enabled (page w) Submit)); [discriminate|].
  unfold handleSubmit.
  repeat match goal with
         | |- context [if ?b then _ else _] => destruct b
         end; intros [= <-]; reflexivity.
Qed.

(** A failed submission leaves its message; the next submission, with an
    empty square footage, fails validation and the message is gone. *)
Lemma submit_clears_error_witness :
  exists w1 w2,
    run mount failedThenEmptied = Some w1 /\
    error (page w1) = Some "Failed to get prediction from the backend." /\
    step w1 Submit = Some w2 /\
    issued w2 = issued w1 /\
    error (page w2) = None.
Proof.
  let r := eval vm_compute in (run mount failedThenEmptied) in
  match r with Some ?w1 => exists w1 end.
  match goal with
  | |- exists w2, _ /\ _ /\ step ?w1 Submit = _ /\ _ =>
      let r := eval vm_compute in (step w1 Submit) in
      match r with Some ?w2 => exists w2 end
  end.
  split; [vm_compute; reflexivity|].
  split; [vm_compute; reflexivity|].
  match goal with
  | |- step ?w1 Submit = Some ?w2 /\ _ =>
      assert (Hstep : step w1 Submit = Some w2) by (vm_compute; reflexivity);
      split; [exact Hstep|];
      split; [vm_compute; reflexivity | exact (submit_clears_error w1 w2 Hstep)]
  end.
Defined.

(** *** Settled requests *)

Lemma step_MarketSettled (w w' : World) (id : nat) (o : Settled MarketInsights.t) :
  step w (MarketSettled id o) = Some w' ->
  (exists a b c d, pending w !! id = Some (GetMarketInsights a b c d)) /\
  w' = w |> settle id |> onPage (fetchMarketData_settled o).
Proof.
  unfold step. simpl. destruct (pending w !! id) as [[]|]; try discriminate.
  intros [= <-]. eauto 6.
Qed.

Lemma step_PredictSettled (w w' : World) (id : nat) (o : Settled PredictionResponse) :
  step w (PredictSettled id o) = Some w' ->
  (exists r, pending w !! id = Some r /\ is_predict r = true) /\
  w' = w |> settle id |> onPage (handleSubmit_settled o).
Proof.
  unfold step. simpl. destruct (pending w !! id) as [[]|] eqn:E; try discriminate.
  intros [= <-]. eauto.
Qed.

Lemma step_OptionsSettled (w w' : World) (id : nat) (o : Settled FormOptions.t) :
  step w (OptionsSettled id o) = Some w' ->
  pending w !! id = Some GetFormOptions /\
  w' = w |> settle id |> onPage (fetchOptions_settled o)
         |> marketEffect (formData (page w)).
Proof.
  unfold step. simpl. destruct (pending w !! id) as [[]|]; try discriminate.
  intros [= <-]. auto.
Qed.

(** The market effect writes the market cells only. *)
Lemma marketEffect_frame (before : FormData) (w : World) :
  let s := page w in
  let s' := page (marketEffect before w) in
  formData s' = formData s /\ formOptions s' = formOptions s /\
  formOptionsLoading s' = formOptionsLoading s /\ loading s' = loading s /\
  result s' = result s /\ error s' = error s /\ sqftError s' = sqftError s /\
  marketData s' = marketData s /\ shapImgError s' = shapImgError s.
Proof.
  unfold marketEffect. destruct (same_deps _ _); repeat split; reflexivity.
Qed.

(** C7: when a market request comes back successful with an empty list of
    locations, the stored snapshot is cleared, the condition reported is
    the no-data one, which is neither of the two backend conditions, and
    the market loading flag is down. *)
Theorem empty_market_reports_no_data
    (w w' : World) (id : nat) (data : MarketInsights.t) :
  step w (MarketSettled id (Ok data)) = Some w' ->
  MarketInsights.locations data = [] ->
  marketData (page w') = None /\
  marketError (page w') = Some "No market data found for this category." /\
  marketError (page w')
    <> Some "Backend returned an error. Make sure the backend server is running." /\
  marketError (page w')
    <> Some "Could not connect to the backend. Make sure it is running on port 8000." /\
  marketLoading (page w') = false.
Proof.
  intros Hstep Hnil. apply step_MarketSettled in Hstep as [_ ->].
  simpl. unfold fetchMarketData_settled. rewrite Hnil. simpl.
  repeat split; discriminate.
Qed.

Lemma empty_market_reports_no_data_witness :
  exists w',
    step (after [MarketSettled 1 (Ok snapshotA); Change FSqft "1200"])
      (MarketSettled 2 (Ok (MarketInsights.mk "Rent" "Colombo 03" [] [] [])))
    = Some w' /\
    marketData (page (after [MarketSettled 1 (Ok snapshotA)])) = Some snapshotA /\
    marketData (page w') = None /\
    marketError (page w') = Some "No market data found for this category.".
Proof.
  match goal with
  | |- exists w', step ?w ?e = _ /\ _ =>
      let r := eval vm_compute in (step w e) in
      match r with Some ?x => exists x end
  end.
  match goal with
  | |- step ?w (MarketSettled ?id (Ok ?d)) = Some ?w' /\ _ =>
      assert (Hstep : step w (MarketSettled id (Ok d)) = Some w')
        by (vm_compute; reflexivity);
      destruct (empty_market_reports_no_data w w' id d Hstep eq_refl)
        as (Hdata & Herr & _)
  end.
  split; [exact Hstep|]. split; [vm_compute; reflexivity|].
  split; [exact Hdata | exact Herr].
Defined.

(** What [fetchMarketData] does after a failure, of either kind: the
    snapshot is not written. *)
Lemma fetchMarketData_settled_failure (o : Settled MarketInsights.t) (s : State) :
  (forall data, o <> Ok data) ->
  let s' := fetchMarketData_settled o s in
  marketData s' = marketData s /\
  marketLoading s' = false /\
  marketError s'
  = Some (match o with
          | NotOk => "Backend returned an error. Make sure the backend server is running."
          | _ => "Could not connect to the backend. Make sure it is running on port 8000."
          end).
Proof.
  intros Hfail. destruct o as [data| |m]; [destruct (Hfail data eq_refl)| |];
    repeat split; reflexivity.
Qed.

(** C6, at a failing input: a first market request stores a snapshot, the
    square footage is edited, and the request this edit sends comes back
    without [ok], or fails to be sent.  The backend condition is reported
    and the loading flag is down, but the snapshot of the first request is
    still stored. *)
Lemma backend_failure_keeps_stale_snapshot :
  exists w1 w2,
    run mount [MarketSettled 1 (Ok snapshotA); Change FSqft "1200";
               MarketSettled 2 NotOk] = Some w1 /\
    run mount [MarketSettled 1 (Ok snapshotA); Change FSqft "1200";
               MarketSettled 2 (Threw "Failed to fetch")] = Some w2 /\
    marketData (page w1) = Some snapshotA /\
    marketData (page w2) = Some snapshotA /\
    marketError (page w1)
    = Some "Backend returned an error. Make sure the backend server is running." /\
    marketError (page w2)
    = Some "Could not connect to the backend. Make sure it is running on port 8000." /\
    marketLoading (page w1) = false /\ marketLoading (page w2) = false.
Proof.
  eexists _, _. vm_compute. repeat split; reflexivity.
Qed.

(** *** The option loader *)

(** C2, as stated, fails: a successful response may carry empty lists, and
    they are stored as they come. *)
Lemma empty_catalog_from_backend :
  exists w,
    run mount [OptionsSettled 0 (Ok (FormOptions.mk [] [] []))] = Some w /\
    formOptionsLoading (page w) = false /\
    FormOptions.locations (formOptions (page w)) = [] /\
    FormOptions.property_types (formOptions (page w)) = [] /\
    FormOptions.statuses (formOptions (page w)) = [].
Proof.
  eexists. vm_compute. repeat split; reflexivity.
Qed.

(** A response without [ok] takes neither branch of [fetchOptions]: the
    catalog stays as it was, empty on the first render. *)
Remark options_not_ok_leaves_catalog :
  forall s, formOptions (fetchOptions_settled NotOk s) = formOptions s.
Proof. reflexivity. Qed.

(** C2 (amended): when the load attempt completes the loading flag is
    down.  If the request threw, the catalog is the built-in one and its
    three lists are non-empty.  If the response was successful, the catalog
    is the one returned, so its lists are non-empty when the returned ones
    are. *)
Theorem options_after_load
    (w w' : World) (id : nat) (o : Settled FormOptions.t) :
  step w (OptionsSettled id o) = Some w' ->
  formOptionsLoading (page w') = false /\
  (forall message, o = Threw message ->
     formOptions (page w') = fallbackOptions /\
     FormOptions.locations (formOptions (page w')) <> [] /\
     FormOptions.property_types (formOptions (page w')) <> [] /\
     FormOptions.statuses (formOptions (page w')) <> []) /\
  (forall data, o = Ok data ->
     formOptions (page w') = data /\
     (FormOptions.locations data <> [] ->
      FormOptions.property_types data <> [] ->
      FormOptions.statuses data <> [] ->
      FormOptions.locations (formOptions (page w')) <> [] /\
      FormOptions.property_types (formOptions (page w')) <> [] /\
      FormOptions.statuses (formOptions (page w')) <> [])).
Proof.
  intros Hstep. apply step_OptionsSettled in Hstep as [_ ->].
  match goal with
  | |- context [marketEffect ?fd ?w0] =>
      destruct (marketEffect_frame fd w0) as (_ & -> & -> & _)
  end.
  split; [destruct o; reflexivity|].
  split.
  - intros m ->. simpl. repeat split; discriminate.
  - intros data ->. simpl. auto.
Qed.

Lemma options_after_load_witness :
  exists w',
    step mount (OptionsSettled 0 (Threw "Failed to fetch")) = Some w' /\
    formOptionsLoading (page w') = false /\
    formOptions (page w') = fallbackOptions.
Proof.
  let r := eval vm_compute in (step mount (OptionsSettled 0 (Threw "Failed to fetch"))) in
  match r with Some ?x => exists x end.
  match goal with
  | |- step ?w ?e = Some ?w' /\ _ =>
      assert (Hstep : step w e = Some w') by (vm_compute; reflexivity);
      destruct (options_after_load w w' 0 (Threw "Failed to fetch") Hstep)
        as (Hl & Hthrew & _);
      destruct (Hthrew "Failed to fetch" eq_refl) as (Hcat & _)
  end.
  split; [exact Hstep|]. split; [exact Hl | exact Hcat].
Defined.

Lemma or_str_truthy (a b : string) : a <> "" -> or_str a b = a.
Proof. destruct a; [congruence | reflexivity]. Qed.

Lemma or_str_idem (a b : string) : or_str (or_str a b) b = or_str a b.
Proof. destruct a; [destruct b|]; reflexivity. Qed.

Lemma withDefaults_idem (l t st : string) (fd : FormData) :
  withDefaults l t st (withDefaults l t st fd) = withDefaults l t st fd.
Proof. unfold withDefaults. simpl. rewrite !or_str_idem. reflexivity. Qed.

Lemma fetchOptions_settled_idem (o : Settled FormOptions.t) (s : State) :
  fetchOptions_settled o (fetchOptions_settled o s) = fetchOptions_settled o s.
Proof.
  assert (Hgen : forall l t st opts,
            let f := fun s => s |> setFormOptions opts
                               |> setFormData (withDefaults l t st)
                               |> setFormOptionsLoading false in
            f (f s) = f s).
  { intros l t st opts. cbv zeta. unfold setFormOptionsLoading, setFormData,
      setFormOptions. cbn [formData formOptions formOptionsLoading loading result
      error sqftError marketData marketLoading marketError shapImgError].
    rewrite withDefaults_idem. reflexivity. }
  destruct o as [data| |m]; [|reflexivity|].
  - exact (Hgen (preferred test_colombo3 (FormOptions.locations data))
             (preferred test_office (FormOptions.property_types data))
             (preferred test_rent (FormOptions.statuses data)) data).
  - exact (Hgen "Colombo 03" "Office Space" "Rent" fallbackOptions).
Qed.

(** C9: when the option loader applies its defaults, on the success path
    and on the fallback path alike, a field of the form that holds a
    non-empty value keeps it, and only an empty field receives the default
    computed for it (the preferred entry of the returned list, or the fixed
    default of the fallback).  The square footage is never written, and
    applying the defaults a second time changes nothing. *)
Theorem defaults_keep_user_choice (o : Settled FormOptions.t) (s : State) :
  let fd := formData s in
  let fd' := formData (fetchOptions_settled o s) in
  (Location fd <> "" -> Location fd' = Location fd) /\
  (PropertyType fd <> "" -> PropertyType fd' = PropertyType fd) /\
  (Status fd <> "" -> Status fd' = Status fd) /\
  Sqft fd' = Sqft fd /\
  (forall data, o = Ok data ->
     (Location fd = "" ->
      Location fd' = preferred test_colombo3 (FormOptions.locations data)) /\
     (PropertyType fd = "" ->
      PropertyType fd' = preferred test_office (FormOptions.property_types data)) /\
     (Status fd = "" ->
      Status fd' = preferred test_rent (FormOptions.statuses data))) /\
  (forall message, o = Threw message ->
     (Location fd = "" -> Location fd' = "Colombo 03") /\
     (PropertyType fd = "" -> PropertyType fd' = "Office Space") /\
     (Status fd = "" -> Status fd' = "Rent")) /\
  fetchOptions_settled o (fetchOptions_settled o s) = fetchOptions_settled o s.
Proof.
  cbv zeta. split; [|split; [|split; [|split; [|split; [|split]]]]].
  - intros H. destruct o; simpl; rewrite ?or_str_truthy; auto.
  - intros H. destruct o; simpl; rewrite ?or_str_truthy; auto.
  - intros H. destruct o; simpl; rewrite ?or_str_truthy; auto.
  - destruct o; reflexivity.
  - intros data ->. simpl. repeat split; intros H; rewrite H; reflexivity.
  - intros m ->. simpl. repeat split; intros H; rewrite H; reflexivity.
  - apply fetchOptions_settled_idem.
Qed.

(** A form whose location already reads Kandy: the location is kept on
    both paths, the empty property type receives the preferred entry. *)
Lemma defaults_keep_user_choice_witness :
  Location (formData (fetchOptions_settled (Ok sampleOptions) kandyChosen)) = "Kandy" /\
  PropertyType (formData (fetchOptions_settled (Ok sampleOptions) kandyChosen))
  = "Head Office" /\
  Location (formData (fetchOptions_settled (Threw "Failed to fetch") kandyChosen))
  = "Kandy" /\
  Status (formData (fetchOptions_settled (Threw "Failed to fetch") kandyChosen))
  = "Rent".
Proof.
  destruct (defaults_keep_user_choice (Ok sampleOptions) kandyChosen)
    as (Hloc & _ & _ & _ & Hok & _).
  destruct (defaults_keep_user_choice (Threw "Failed to fetch") kandyChosen)
    as (Hloc' & _ & _ & _ & _ & Hthrew & _).
  destruct (Hok sampleOptions eq_refl) as (_ & Htype & _).
  destruct (Hthrew "Failed to fetch" eq_refl) as (_ & _ & Hstatus).
  split; [rewrite Hloc; [reflexivity | discriminate]|].
  split; [rewrite Htype; [vm_compute; reflexivity | reflexivity]|].
  split; [rewrite Hloc'; [reflexivity | discriminate]|].
  apply Hstatus. reflexivity.
Defined.

(** *** Market requests that overlap *)

(** C1, as stated, fails.  The first render sends request 1; an edit of
    the square footage sends request 2 while request 1 is in flight.
    Request 2 comes back first, with snapshot B; request 1 comes back
    after it, with snapshot A.  The page ends up showing A, the answer to
    the older request. *)
Lemma stale_response_overwrites :
  exists w,
    run mount [Change FSqft "1200"; MarketSettled 2 (Ok snapshotB);
               MarketSettled 1 (Ok snapshotA)] = Some w /\
    issued w = [GetFormOptions; GetMarketInsights "" "" "0" "";
                GetMarketInsights "" "" "1200" ""] /\
    marketData (page w) = Some snapshotA /\
    marketData (page w) <> Some snapshotB.
Proof.
  eexists. vm_compute. repeat split; try reflexivity. discriminate.
Qed.

(** C1 (amended): the page has no check for superseded requests, and
    responses are applied in the order they arrive.  For a request R1 sent
    before a request R2, when R2 settles first and R1 after it, the
    snapshot shown is decided by R1: it is R1's payload when R1 succeeded
    with a non-empty list of locations, it is cleared when R1 succeeded
    with an empty list, and it is what R2 left when R1 failed.  The market
    loading flag is down. *)
Theorem responses_apply_in_arrival_order
    (w w2 w1 : World) (id1 id2 : nat) (o1 o2 : Settled MarketInsights.t) :
  id1 < id2 ->
  step w (MarketSettled id2 o2) = Some w2 ->
  step w2 (MarketSettled id1 o1) = Some w1 ->
  marketLoading (page w1) = false /\
  marketData (page w1)
  = match o1 with
    | Ok data =>
        if (0 <? length (MarketInsights.locations data))%nat then Some data else None
    | _ => marketData (page w2)
    end.
Proof.
  intros _ H2 H1.
  apply step_MarketSettled in H1 as [_ ->].
  split; [reflexivity|].
  destruct o1 as [data| |m]; simpl; try reflexivity.
  unfold fetchMarketData_settled.
  destruct (0 <? length (MarketInsights.locations data))%nat; reflexivity.
Qed.

Lemma responses_apply_in_arrival_order_witness :
  exists w2 w1,
    step (after [Change FSqft "1200"]) (MarketSettled 2 (Ok snapshotB)) = Some w2 /\
    step w2 (MarketSettled 1 (Ok snapshotA)) = Some w1 /\
    marketLoading (page w1) = false /\
    marketData (page w1) = Some snapshotA.
Proof.
  let r := eval vm_compute in
             (step (after [Change FSqft "1200"]) (MarketSettled 2 (Ok snapshotB))) in
  match r with Some ?x => exists x end.
  match goal with
  | |- exists w1, _ /\ step ?w2 ?e = _ /\ _ =>
      let r := eval vm_compute in (step w2 e) in
      match r with Some ?x => exists x end
  end.
  match goal with
  | |- step ?w ?e2 = Some ?w2 /\ step ?w2 ?e1 = Some ?w1 /\ _ =>
      assert (H2 : step w e2 = Some w2) by (vm_compute; reflexivity);
      assert (H1 : step w2 e1 = Some w1) by (vm_compute; reflexivity);
      destruct (responses_apply_in_arrival_order w w2 w1 1 2
                  (Ok snapshotA) (Ok snapshotB) (le_n 2) H2 H1) as [Hl Hd]
  end.
  split; [exact H2|]. split; [exact H1|]. split; [exact Hl | exact Hd].
Defined.

(** *** Submissions *)

Section Invariant.

Lemma Inv_frame (w w' : World) :
  Inv w ->
  pending w' = pending w -> issued w' = issued w ->
  loading (page w') = loading (page w) -> result (page w') = result (page w) ->
  Inv w'.
Proof.
  intros (I1 & I2 & I3) Hp Hi Hl Hr. unfold Inv. rewrite Hp, Hi, Hl, Hr. auto.
Qed.

Lemma Inv_fetch (r : Request) (w : World) :
  Inv w -> is_predict r = false -> Inv (fetch r w).
Proof.
  intros (I1 & I2 & I3) Hr. unfold Inv, fetch. simpl. rewrite length_app. simpl.
  split; [|split].
  - intros id r0 [[<- _]|[_ H]]%lookup_insert_Some; [lia|]. apply I1 in H. lia.
  - intros id r0 [[_ <-]|[_ H]]%lookup_insert_Some Hp; [congruence|]. eauto.
  - intros id id' r0 r0' [[_ <-]|[_ H]]%lookup_insert_Some
      [[_ <-]|[_ H']]%lookup_insert_Some Hp Hp'; try congruence. eauto.
Qed.

Lemma Inv_settle (id : nat) (w : World) : Inv w -> Inv (settle id w).
Proof.
  intros (I1 & I2 & I3). unfold Inv, settle. simpl. split; [|split].
  - intros id0 r [_ H]%lookup_delete_Some. eauto.
  - intros id0 r [_ H]%lookup_delete_Some. eauto.
  - intros i i' r r' [_ H]%lookup_delete_Some [_ H']%lookup_delete_Some. eauto.
Qed.

Lemma Inv_callFetchMarketData (w : World) : Inv w -> Inv (callFetchMarketData w).
Proof.
  intros HI. unfold callFetchMarketData, fetchMarketData.
  apply Inv_fetch; [|reflexivity].
  eapply Inv_frame; [exact HI | reflexivity ..].
Qed.

Lemma Inv_marketEffect (before : FormData) (w : World) :
  Inv w -> Inv (marketEffect before w).
Proof.
  intros HI. unfold marketEffect.
  destruct (same_deps _ _); [exact HI | apply Inv_callFetchMarketData, HI].
Qed.

(** With no prediction in flight, sending one establishes the invariant. *)
Lemma Inv_submit (r : Request) (s : State) (w : World) :
  Inv w -> loading (page w) = false ->
  loading s = true -> result s = None ->
  Inv (fetch r (mkWorld s (pending w) (issued w))).
Proof.
  intros (I1 & I2 & I3) Hl Hs Hr. unfold Inv, fetch. simpl.
  rewrite length_app. simpl.
  assert (Hnone : forall id r0, pending w !! id = Some r0 -> is_predict r0 = true -> False).
  { intros id r0 H Hp. destruct (I2 id r0 H Hp) as [Hl' _]. congruence. }
  split; [|split].
  - intros id r0 [[<- _]|[_ H]]%lookup_insert_Some; [lia|]. apply I1 in H. lia.
  - auto.
  - intros id id' r0 r0' [[<- <-]|[_ H]]%lookup_insert_Some
      [[<- <-]|[_ H']]%lookup_insert_Some Hp Hp'; try reflexivity;
      exfalso; eauto.
Qed.

(** When the prediction in flight settles, none is left. *)
Lemma Inv_predict_settled (id : nat) (r : Request) (f : State -> State) (w : World) :
  Inv w -> pending w !! id = Some r -> is_predict r = true ->
  Inv (w |> settle id |> onPage f).
Proof.
  intros (I1 & I2 & I3) Hid Hp. unfold Inv, settle, onPage. simpl.
  assert (Hnone : forall id0 r0, delete id (pending w) !! id0 = Some r0 ->
                                 is_predict r0 = true -> False).
  { intros id0 r0 [Hne H]%lookup_delete_Some Hp0.
    apply Hne. exact (I3 id id0 r r0 Hid H Hp Hp0). }
  split; [|split].
  - intros id0 r0 [_ H]%lookup_delete_Some. eauto.
  - intros id0 r0 H Hp0. exfalso. eauto.
  - intros i i' r0 r0' H _ Hp0 _. exfalso. eauto.
Qed.

Lemma Inv_mount : Inv mount.
Proof.
  unfold mount. apply Inv_callFetchMarketData. apply Inv_fetch; [|reflexivity].
  unfold Inv. cbn [pending].
  split; [|split]; intros *; rewrite lookup_empty; discriminate.
Qed.

Lemma Inv_mountIn (b : Build) : Inv (mountIn b).
Proof.
  destruct b; [apply Inv_mount|]. unfold mountIn.
  apply Inv_callFetchMarketData. apply Inv_fetch; [apply Inv_mount | reflexivity].
Qed.

Lemma handleSubmit_request (s : State) (r : Request) :
  snd (handleSubmit s) = Some r ->
  is_predict r = true /\
  fst (handleSubmit s)
  = s |> setSqftError None |> setError None |> setLoading true |> setResult None
      |> setShapImgError false.
Proof.
  unfold handleSubmit.
  repeat match goal with
         | |- context [if ?b then _ else _] => destruct b
         end; simpl; intros [= <-]; split; reflexivity.
Qed.

Lemma handleSubmit_no_request (s : State) :
  snd (handleSubmit s) = None ->
  loading (fst (handleSubmit s)) = loading s /\
  result (fst (handleSubmit s)) = result s.
Proof.
  unfold handleSubmit.
  repeat match goal with
         | |- context [if ?b then _ else _] => destruct b
         end; simpl; intros [=]; split; reflexivity.
Qed.

Lemma Inv_step (w w' : World) (e : Event) : Inv w -> step w e = Some w' -> Inv w'.
Proof.
  intros HI. unfold step.
  destruct (negb (enabled (page w) e)) eqn:Hen; [discriminate|].
  apply negb_false_iff in Hen.
  destruct e as [name value| | |id o|id o|id o].
  - intros [= <-]. apply Inv_marketEffect.
    eapply Inv_frame; [exact HI | try reflexivity ..]; destruct name; reflexivity.
  - simpl in Hen. apply negb_true_iff in Hen.
    destruct (handleSubmit (page w)) as [s [r|]] eqn:Hs; intros [= <-].
    + destruct (handleSubmit_request (page w) r) as [_ Hfst]; [rewrite Hs; reflexivity|].
      rewrite Hs in Hfst. simpl in Hfst. subst s.
      apply Inv_submit; [exact HI | exact Hen | reflexivity ..].
    + destruct (handleSubmit_no_request (page w)) as [Hl Hr]; [rewrite Hs; reflexivity|].
      rewrite Hs in Hl, Hr. simpl in Hl, Hr.
      eapply Inv_frame; [exact HI | reflexivity | reflexivity | exact Hl | exact Hr].
  - intros [= <-]. eapply Inv_frame; [exact HI | reflexivity ..].
  - destruct (pending w !! id) as [[]|] eqn:Hid; try discriminate.
    intros [= <-]. apply Inv_marketEffect.
    eapply Inv_frame; [apply (Inv_settle id), HI | try reflexivity ..];
      destruct o; reflexivity.
  - destruct (pending w !! id) as [[]|] eqn:Hid; try discriminate.
    intros [= <-].
    eapply Inv_frame; [apply (Inv_settle id), HI | try reflexivity ..];
      unfold fetchMarketData_settled; destruct o as [data| |];
      try destruct (0 <? length (MarketInsights.locations data))%nat; reflexivity.
  - destruct (pending w !! id) as [r|] eqn:Hid; [|discriminate].
    destruct (is_predict r) eqn:Hp; [|destruct r; discriminate].
    destruct r; try discriminate. intros [= <-].
    eapply Inv_predict_settled; eauto.
Qed.

Lemma reachable_Inv (w : World) : reachable w -> Inv w.
Proof.
  induction 1 as [b|w e w' _ IH Hstep]; [apply Inv_mountIn | eapply Inv_step; eauto].
Qed.

Lemma reachable_run (w w' : World) (es : list Event) :
  reachable w -> run w es = Some w' -> reachable w'.
Proof.
  revert w. induction es as [|e es IH]; simpl; intros w Hr.
  - intros [= <-]. exact Hr.
  - destruct (step w e) as [w1|] eqn:Hstep; [|discriminate].
    apply IH. eapply reachable_step; eauto.
Qed.

Lemma reachable_after (es : list Event) : reachable (after es).
Proof.
  unfold after. destruct (run mount es) as [w|] eqn:Hrun.
  - eapply reachable_run; [apply (reachable_mount Production) | exact Hrun].
  - apply (reachable_mount Production).
Qed.

End Invariant.

(** C8: in every world the page can reach, a valid submission clears the
    result (and the top-level error) and raises the loading flag in the
    step that sends the request; while the request is in flight the result
    stays cleared, whatever else happens on the page; when it settles, a
    success stores the returned prediction, a failure of either kind stores
    a non-empty top-level message and leaves the result cleared, and in
    every case the loading flag is down. *)
Theorem submission_lifecycle (w : World) :
  reachable w ->
  (forall w1, ~ spec_invalid (Sqft (formData (page w))) ->
     step w Submit = Some w1 ->
     let r := PostPredict (Number (Sqft (formData (page w))))
                (Location (formData (page w))) (PropertyType (formData (page w)))
                (Status (formData (page w))) in
     result (page w1) = None /\ error (page w1) = None /\
     loading (page w1) = true /\
     issued w1 = issued w ++ [r] /\
     pending w1 = <[length (issued w) := r]> (pending w)) /\
  (forall id r, pending w !! id = Some r -> is_predict r = true ->
     result (page w) = None /\ loading (page w) = true) /\
  (forall id o w', step w (PredictSettled id o) = Some w' ->
     loading (page w') = false /\
     match o with
     | Ok data => result (page w') = Some data
     | _ => result (page w') = None /\
            exists message, error (page w') = Some message /\ message <> ""
     end).
Proof.
  intros Hreach. pose proof (reachable_Inv w Hreach) as (I1 & I2 & I3).
  split; [|split].
  - intros w1 Hvalid. unfold step.
    destruct (negb (enabled (page w) Submit)); [discriminate|].
    rewrite (handleSubmit_valid _ Hvalid).
    intros [= <-]. repeat split; reflexivity.
  - intros id r Hid Hp. destruct (I2 id r Hid Hp). auto.
  - intros id o w' Hstep.
    apply step_PredictSettled in Hstep as [(r & Hid & Hp) ->].
    destruct (I2 id r Hid Hp) as [_ Hres].
    split; [destruct o; reflexivity|].
    destruct o as [data| |m]; simpl.
    + reflexivity.
    + split; [exact Hres|]. eexists. split; [reflexivity | discriminate].
    + split; [exact Hres|]. eexists. split; [reflexivity|].
      destruct m; discriminate.
Qed.

(** A second submission, which the backend fails, after a first one that
    succeeded: the first prediction does not come back. *)
Lemma submission_lifecycle_witness :
  exists w1 w2,
    step firstSubmissionDone Submit = Some w1 /\
    step w1 (PredictSettled 4 NotOk) = Some w2 /\
    result (page firstSubmissionDone) = Some prediction350k /\
    result (page w1) = None /\ loading (page w1) = true /\
    result (page w2) = None /\ loading (page w2) = false /\
    exists message, error (page w2) = Some message /\ message <> "".
Proof.
  let r := eval vm_compute in (step firstSubmissionDone Submit) in
  match r with Some ?x => exists x end.
  match goal with
  | |- exists w2, _ /\ step ?w1 ?e = _ /\ _ =>
      let r := eval vm_compute in (step w1 e) in
      match r with Some ?x => exists x end
  end.
  match goal with
  | |- step ?w ?e1 = Some ?w1 /\ step ?w1 ?e2 = Some ?w2 /\ _ =>
      assert (H1 : step w e1 = Some w1) by (vm_compute; reflexivity);
      assert (H2 : step w1 e2 = Some w2) by (vm_compute; reflexivity);
      assert (Hr : reachable w) by apply reachable_after;
      assert (Hr1 : reachable w1) by (eapply reachable_step; [exact Hr | exact H1]);
      assert (Hvalid : ~ spec_invalid (Sqft (formData (page w))))
        by (rewrite spec_invalid_rejects; vm_compute; discriminate);
      destruct (submission_lifecycle w Hr) as (Hbegin & _ & _);
      destruct (Hbegin w1 Hvalid H1) as (Hres1 & _ & Hl1 & _);
      destruct (submission_lifecycle w1 Hr1) as (_ & _ & Hend);
      destruct (Hend 4 NotOk w2 H2) as (Hl2 & Hres2 & Herr2)
  end.
  split; [exact H1|]. split; [exact H2|]. split; [vm_compute; reflexivity|].
  split; [exact Hres1|]. split; [exact Hl1|]. split; [exact Hres2|].
  split; [exact Hl2 | exact Herr2].
Defined.

(** *** Code units and code points *)

(** Comparisons of code units, as propositions. *)
Ltac to_prop :=
  unfold UTF16.surrogate, UTF16.is_word, UTF16.is_white_space, UTF16.is_high,
    UTF16.is_low, UTF16.is_digit, UTF16.is_zero, UTF16.is_ascii, UTF16.between in *;
  rewrite ?orb_true_iff, ?orb_false_iff, ?andb_true_iff, ?andb_false_iff,
    ?negb_true_iff, ?negb_false_iff, ?N.leb_le, ?N.leb_gt, ?N.ltb_lt, ?N.ltb_ge,
    ?N.eqb_eq, ?N.eqb_neq in *.


Section CodeUnits.

Import UTF16.

Local Arguments entry : simpl never.
Local Arguments simple_lower : simpl never.
Local Arguments changes : simpl never.
Local Arguments cased : simpl never.
Local Arguments case_ignorable : simpl never.
Local Arguments followed_by_cased : simpl never.
Local Arguments code_point : simpl never.
Local Arguments code_units : simpl never.
Local Arguments lower_unit : simpl never.
Local Arguments lower_code_point : simpl never.
Local Arguments next_before : simpl never.
Local Arguments fixed_unit : simpl never.
Local Arguments is_high : simpl never.
Local Arguments is_low : simpl never.
Local Arguments surrogate : simpl never.

Lemma high_not_low (u : N) : is_high u = true -> is_low u = false.
Proof. intros H. to_prop. lia. Qed.

Lemma not_surrogate (u : N) :
  surrogate u = false -> is_high u = false /\ is_low u = false.
Proof. unfold surrogate. apply orb_false_iff. Qed.

Lemma div_mod_1024 (a b : N) :
  (b < 0x400 -> (a * 0x400 + b) / 0x400 = a /\ (a * 0x400 + b) mod 0x400 = b)%N.
Proof.
  intros Hb. split; symmetry.
  - apply (N.div_unique _ _ a b); lia.
  - apply (N.mod_unique _ _ a b); lia.
Qed.

Lemma code_point_supplementary (h l : N) :
  is_high h = true -> is_low l = true ->
  (0x10000 <= code_point h l /\ code_point h l <= 0x10FFFF)%N.
Proof. intros Hh Hl. unfold code_point. to_prop. lia. Qed.

(** Encoding the code point of a surrogate pair gives the pair back. *)
Lemma code_units_code_point (h l : N) :
  is_high h = true -> is_low l = true -> code_units (code_point h l) = [h; l].
Proof.
  intros Hh Hl. pose proof (code_point_supplementary h l Hh Hl) as [Hlo _].
  unfold code_units. destruct (N.ltb_spec (code_point h l) 0x10000); [lia|].
  unfold code_point. to_prop.
  replace (0x10000 + (h - 0xD800) * 0x400 + (l - 0xDC00) - 0x10000)%N
    with ((h - 0xD800) * 0x400 + (l - 0xDC00))%N by lia.
  destruct (div_mod_1024 (h - 0xD800) (l - 0xDC00)) as [-> ->]; [lia|].
  f_equal; [lia | f_equal; lia].
Qed.

(** A code point from 0x10000 on is encoded as a surrogate pair. *)
Lemma code_units_supplementary (cp : N) :
  (0x10000 <= cp)%N -> (cp <= 0x10FFFF)%N ->
  exists h l, code_units cp = [h; l] /\ is_high h = true /\ is_low l = true
              /\ code_point h l = cp.
Proof.
  intros Hlo Hhi. unfold code_units.
  destruct (N.ltb_spec cp 0x10000); [lia|].
  assert (Hq : ((cp - 0x10000) / 0x400 < 0x400)%N)
    by (apply N.Div0.div_lt_upper_bound; lia).
  assert (Hr : ((cp - 0x10000) mod 0x400 < 0x400)%N) by (apply N.mod_lt; lia).
  pose proof (N.div_mod (cp - 0x10000) 0x400 ltac:(lia)) as Hx.
  set (q := ((cp - 0x10000) / 0x400)%N) in *.
  set (r := ((cp - 0x10000) mod 0x400)%N) in *. clearbody q r.
  exists (0xD800 + q)%N, (0xDC00 + r)%N. split; [reflexivity|].
  unfold code_point. to_prop. lia.
Qed.

Lemma code_units_bmp (u : N) : (u < 0x10000)%N -> code_units u = [u].
Proof.
  intros H. unfold code_units. destruct (N.ltb_spec u 0x10000); [reflexivity | lia].
Qed.

Lemma paired_starts_low (u : N) (rest : list N) :
  paired u rest = is_high u && starts_low rest.
Proof. destruct rest; simpl; [rewrite andb_false_r|]; reflexivity. Qed.

Lemma not_high_not_paired (u : N) (rest : list N) :
  is_high u = false -> paired u rest = false.
Proof. intros H. rewrite paired_starts_low, H. reflexivity. Qed.

(** A string is read one code unit or one surrogate pair at a time. *)
Lemma units_ind (P : list N -> Prop) :
  P [] ->
  (forall u rest, paired u rest = false -> P rest -> P (u :: rest)) ->
  (forall h l rest, is_high h = true -> is_low l = true -> P rest -> P (h :: l :: rest)) ->
  forall us, P us.
Proof.
  intros H0 H1 H2 us.
  enough (H : P us /\ forall u, P (u :: us)) by apply H.
  induction us as [|x us [IH IHc]].
  - split; [exact H0|]. intros u. apply H1; [reflexivity | exact H0].
  - split; [apply IHc|]. intros u.
    destruct (paired u (x :: us)) eqn:E.
    + apply andb_true_iff in E as [Hh Hl]. apply H2; assumption.
    + apply H1; [exact E | apply IHc].
Qed.

(** *** The case table *)

Lemma table_sound : forallb sound_entry lower_pairs = true.
Proof. vm_compute. reflexivity. Qed.

Lemma entry_sound (cp : N) (p : N * N) :
  entry cp = Some p ->
  fst p = cp /\ changes (snd p) = false /\ surrogate cp = false
  /\ surrogate (snd p) = false
  /\ (if (cp <? 0x10000)%N then (snd p <? 0x10000)%N
      else (0x10000 <=? snd p)%N && (snd p <=? 0x10FFFF)%N) = true.
Proof.
  unfold entry. intros H. apply find_some in H as [Hin Heq].
  apply N.eqb_eq in Heq.
  pose proof (proj1 (forallb_forall _ _) table_sound p Hin) as Hs.
  unfold sound_entry in Hs. rewrite Heq in Hs.
  apply andb_true_iff in Hs as [Hs H4]. apply andb_true_iff in Hs as [Hs H3].
  apply andb_true_iff in Hs as [H1 H2].
  apply negb_true_iff in H1, H2, H3. auto.
Qed.

Lemma changes_false (cp : N) :
  changes cp = false -> (cp =? 0x130)%N = false /\ entry cp = None.
Proof.
  unfold changes. intros [H1 H2]%orb_false_iff. split; [exact H1|].
  destruct (entry cp); [discriminate | reflexivity].
Qed.

Lemma surrogate_unchanged (u : N) : surrogate u = true -> changes u = false.
Proof.
  intros H. unfold changes. apply orb_false_iff. split.
  - to_prop. lia.
  - destruct (entry u) as [p|] eqn:E; [|reflexivity].
    apply entry_sound in E as (_ & _ & Hs & _). congruence.
Qed.

Lemma surrogate_fixed (u : N) : surrogate u = true -> fixed_unit u = true.
Proof.
  intros H. unfold fixed_unit. rewrite (surrogate_unchanged u H). apply orb_true_r.
Qed.

Lemma specials_unchanged :
  changes 0x69 = false /\ changes 0x307 = false /\ changes 0x3C2 = false
  /\ changes 0x3C3 = false /\ changes 0x3A3 = true.
Proof. vm_compute. repeat split; reflexivity. Qed.

(** *** toLowerCase, one step at a time *)

Lemma lower_from_single (before : bool) (u : N) (rest : list N) :
  paired u rest = false ->
  lower_from before (u :: rest)
  = lower_unit before u rest ++ lower_from (next_before before u) rest.
Proof.
  intros H. destruct rest as [|l rest']; [reflexivity|].
  cbn [paired] in H. cbn [lower_from]. rewrite H. reflexivity.
Qed.

Lemma lower_from_pair (before : bool) (h l : N) (rest : list N) :
  is_high h = true -> is_low l = true ->
  lower_from before (h :: l :: rest)
  = flat_map code_units (lower_code_point (code_point h l))
    ++ lower_from (next_before before (code_point h l)) rest.
Proof. intros Hh Hl. cbn [lower_from]. rewrite Hh, Hl. reflexivity. Qed.

Lemma plain_single (u : N) (rest : list N) :
  paired u rest = false -> plain (u :: rest) = fixed_unit u && plain rest.
Proof.
  intros H. destruct rest as [|l rest']; [reflexivity|].
  cbn [paired] in H. cbn [plain]. rewrite H. reflexivity.
Qed.

Lemma plain_pair (h l : N) (rest : list N) :
  is_high h = true -> is_low l = true ->
  plain (h :: l :: rest) = negb (changes (code_point h l)) && plain rest.
Proof. intros Hh Hl. cbn [plain]. rewrite Hh, Hl. reflexivity. Qed.

(** **** A plain string is left as it is *)

Lemma lower_unit_fixed (before : bool) (u : N) (rest : list N) :
  fixed_unit u = true -> lower_unit before u rest = [u].
Proof.
  unfold fixed_unit, lower_unit. intros H.
  destruct (N.eqb_spec u 0x3A3) as [->|_].
  { destruct specials_unchanged as (_ & _ & _ & _ & Hs).
    rewrite Hs in H. discriminate. }
  destruct (N.leb_spec 0x10000 u) as [_|Hlt]; [reflexivity|].
  simpl in H. apply negb_true_iff, changes_false in H as [H1 H2].
  unfold lower_code_point, simple_lower. rewrite H1, H2.
  cbn [flat_map]. rewrite (code_units_bmp u Hlt). reflexivity.
Qed.

Lemma lower_pair_fixed (h l : N) :
  is_high h = true -> is_low l = true -> changes (code_point h l) = false ->
  flat_map code_units (lower_code_point (code_point h l)) = [h; l].
Proof.
  intros Hh Hl [H1 H2]%changes_false.
  unfold lower_code_point, simple_lower. rewrite H1, H2.
  cbn [flat_map]. rewrite (code_units_code_point h l Hh Hl). reflexivity.
Qed.

Lemma lower_from_plain (us : list N) :
  plain us = true -> forall before, lower_from before us = us.
Proof.
  induction us as [|u rest Hp IH|h l rest Hh Hl IH] using units_ind.
  - reflexivity.
  - rewrite (plain_single u rest Hp). intros [Hu Hrest]%andb_true_iff before.
    rewrite (lower_from_single before u rest Hp), (lower_unit_fixed _ _ _ Hu).
    rewrite (IH Hrest). reflexivity.
  - rewrite (plain_pair h l rest Hh Hl). intros [Hc Hrest]%andb_true_iff before.
    apply negb_true_iff in Hc.
    rewrite (lower_from_pair before h l rest Hh Hl), (lower_pair_fixed h l Hh Hl Hc).
    rewrite (IH Hrest). reflexivity.
Qed.

(** **** The result of toLowerCase is plain *)

(** The image of a surrogate pair is a surrogate pair with no lower-case
    mapping. *)
Lemma lower_pair_shape (h l : N) :
  is_high h = true -> is_low l = true ->
  exists h' l',
    flat_map code_units (lower_code_point (code_point h l)) = [h'; l']
    /\ is_high h' = true /\ is_low l' = true /\ changes (code_point h' l') = false.
Proof.
  intros Hh Hl. destruct (changes (code_point h l)) eqn:Hc.
  - pose proof (code_point_supplementary h l Hh Hl) as [Hlo Hhi].
    unfold lower_code_point, simple_lower.
    destruct (N.eqb_spec (code_point h l) 0x130) as [E|_]; [lia|].
    destruct (entry (code_point h l)) as [p|] eqn:E.
    + apply entry_sound in E as (_ & Hfix & _ & _ & Hplane).
      destruct (N.ltb_spec (code_point h l) 0x10000); [lia|].
      apply andb_true_iff in Hplane as [H1%N.leb_le H2%N.leb_le].
      destruct (code_units_supplementary (snd p) H1 H2) as (h' & l' & Hu & Hh' & Hl' & Hcp).
      exists h', l'. cbn [flat_map]. rewrite Hu, Hcp. auto.
    + unfold changes in Hc. rewrite E in Hc.
      apply orb_true_iff in Hc as [Hc|Hc]; [|discriminate].
      apply N.eqb_eq in Hc. lia.
  - exists h, l. rewrite (lower_pair_fixed h l Hh Hl Hc). auto.
Qed.

(** A code unit that is no surrogate, and its image, are settled: no
    surrogates, no lower-case mapping. *)
Lemma lower_unit_shape (before : bool) (u : N) (rest : list N) :
  surrogate u = false ->
  lower_unit before u rest <> []
  /\ Forall (fun o => surrogate o = false /\ fixed_unit o = true)
       (lower_unit before u rest).
Proof.
  intros Hs. destruct specials_unchanged as (Hi & Hdot & Hfinal & Hsmall & _).
  unfold lower_unit.
  destruct (N.eqb_spec u 0x3A3) as [_|_].
  { split; [discriminate|]. constructor; [|constructor].
    unfold fixed_unit.
    destruct (before && negb (followed_by_cased rest));
      [rewrite Hfinal | rewrite Hsmall]; split; reflexivity. }
  destruct (N.leb_spec 0x10000 u) as [Hge|Hlt].
  { split; [discriminate|]. constructor; [|constructor].
    split; [exact Hs|]. unfold fixed_unit.
    destruct (N.leb_spec 0x10000 u); [reflexivity | lia]. }
  unfold lower_code_point.
  destruct (N.eqb_spec u 0x130) as [_|Hne].
  { split; [discriminate|]. unfold fixed_unit.
    repeat constructor; rewrite ?Hi, ?Hdot; reflexivity. }
  cbn [flat_map]. rewrite app_nil_r. unfold simple_lower.
  destruct (entry u) as [p|] eqn:E.
  - apply entry_sound in E as (_ & Hfix & _ & Hsp & Hplane).
    destruct (N.ltb_spec u 0x10000); [|lia]. apply N.ltb_lt in Hplane.
    rewrite (code_units_bmp _ Hplane). split; [discriminate|].
    constructor; [|constructor]. split; [exact Hsp|].
    unfold fixed_unit. rewrite Hfix. apply orb_true_r.
  - rewrite (code_units_bmp u Hlt). split; [discriminate|].
    constructor; [|constructor]. split; [exact Hs|].
    unfold fixed_unit, changes. rewrite E.
    destruct (N.eqb_spec u 0x130); [contradiction|]. apply orb_true_r.
Qed.

Lemma lower_unit_surrogate (before : bool) (u : N) (rest : list N) :
  surrogate u = true -> lower_unit before u rest = [u].
Proof. intros H. apply lower_unit_fixed, surrogate_fixed, H. Qed.

Lemma plain_settled_app (piece rest : list N) :
  Forall (fun o => surrogate o = false /\ fixed_unit o = true) piece ->
  plain (piece ++ rest) = plain rest.
Proof.
  induction 1 as [|o piece [Hs Hf] _ IH]; [reflexivity|].
  apply not_surrogate in Hs as [Hh _].
  change ((o :: piece) ++ rest) with (o :: (piece ++ rest)).
  rewrite (plain_single o _ (not_high_not_paired o _ Hh)), Hf, IH. reflexivity.
Qed.

(** The result starts with a low surrogate only if the string does. *)
Lemma lower_from_starts_low (before : bool) (us : list N) :
  starts_low (lower_from before us) = true -> starts_low us = true.
Proof.
  destruct us as [|u rest]; [trivial|].
  destruct (paired u rest) eqn:Hp.
  - destruct rest as [|l rest]; [discriminate|].
    apply andb_true_iff in Hp as [Hh Hl].
    rewrite (lower_from_pair before u l rest Hh Hl).
    destruct (lower_pair_shape u l Hh Hl) as (h' & l' & -> & Hh' & _).
    simpl. rewrite (high_not_low h' Hh'). discriminate.
  - rewrite (lower_from_single before u rest Hp).
    destruct (surrogate u) eqn:Hs.
    + rewrite (lower_unit_surrogate before u rest Hs). trivial.
    + destruct (lower_unit_shape before u rest Hs) as [Hne Hall].
      destruct (lower_unit before u rest) as [|o os]; [contradiction|].
      apply Forall_inv in Hall as [Ho _]. apply not_surrogate in Ho as [_ Ho].
      simpl. rewrite Ho. discriminate.
Qed.

Lemma lower_from_is_plain (us : list N) :
  forall before, plain (lower_from before us) = true.
Proof.
  induction us as [|u rest Hp IH|h l rest Hh Hl IH] using units_ind; intros before.
  - reflexivity.
  - rewrite (lower_from_single before u rest Hp).
    destruct (surrogate u) eqn:Hs.
    + rewrite (lower_unit_surrogate before u rest Hs).
      change ([u] ++ ?x) with (u :: x).
      rewrite plain_single, (surrogate_fixed u Hs), IH; [reflexivity|].
      rewrite paired_starts_low. rewrite paired_starts_low in Hp.
      destruct (is_high u); [|reflexivity]. simpl in *.
      destruct (starts_low (lower_from (next_before before u) rest)) eqn:E;
        [|reflexivity].
      apply lower_from_starts_low in E. congruence.
    + destruct (lower_unit_shape before u rest Hs) as [_ Hall].
      rewrite (plain_settled_app _ _ Hall). apply IH.
  - rewrite (lower_from_pair before h l rest Hh Hl).
    destruct (lower_pair_shape h l Hh Hl) as (h' & l' & -> & Hh' & Hl' & Hc).
    change ([h'; l'] ++ ?x) with (h' :: l' :: x).
    rewrite (plain_pair h' l' _ Hh' Hl'), Hc, IH. reflexivity.
Qed.

(** **** Plain strings with code units taken out *)

Lemma plain_snoc (us : list N) (x : N) :
  surrogate x = false -> plain (us ++ [x]) = plain us && fixed_unit x.
Proof.
  intros Hx. apply not_surrogate in Hx as [Hxh Hxl].
  induction us as [|u rest Hp IH|h l rest Hh Hl IH] using units_ind.
  - simpl. rewrite andb_true_r. reflexivity.
  - change ((u :: rest) ++ [x]) with (u :: (rest ++ [x])).
    rewrite !plain_single, IH, andb_assoc; [reflexivity | exact Hp |].
    rewrite paired_starts_low. rewrite paired_starts_low in Hp.
    destruct rest; simpl; [rewrite Hxl; apply andb_false_r | exact Hp].
  - change ((h :: l :: rest) ++ [x]) with (h :: l :: (rest ++ [x])).
    rewrite !plain_pair, IH, andb_assoc by assumption. reflexivity.
Qed.

Lemma white_space_not_surrogate (u : N) :
  is_white_space u = true -> surrogate u = false.
Proof. intros H. to_prop. lia. Qed.

Lemma digit_not_surrogate (u : N) : is_digit u = true -> surrogate u = false.
Proof. intros H. to_prop. lia. Qed.

Lemma plain_trimStart (us : list N) : plain us = true -> plain (trimStart us) = true.
Proof.
  unfold trimStart. induction us as [|u us IH]; [trivial|]. simpl dropWhile.
  destruct (is_white_space u) eqn:Hu; [|trivial].
  apply white_space_not_surrogate, not_surrogate in Hu as [Hh _].
  rewrite (plain_single u us (not_high_not_paired u us Hh)).
  intros [_ H]%andb_true_iff. auto.
Qed.

Lemma trimEnd_snoc (l : list N) (x : N) :
  trimEnd (l ++ [x]) = if is_white_space x then trimEnd l else l ++ [x].
Proof.
  unfold trimEnd. rewrite rev_app_distr. simpl.
  destruct (is_white_space x); [reflexivity|]. simpl. rewrite rev_involutive. reflexivity.
Qed.

Lemma plain_trimEnd (us : list N) : plain us = true -> plain (trimEnd us) = true.
Proof.
  induction us as [|x us IH] using rev_ind; [trivial|].
  rewrite trimEnd_snoc. destruct (is_white_space x) eqn:Hx; [|trivial].
  rewrite (plain_snoc us x (white_space_not_surrogate x Hx)).
  intros [H _]%andb_true_iff. auto.
Qed.

Lemma stripped_starts_low (us vs : list N) :
  stripped us vs -> starts_low vs = starts_low us.
Proof.
  induction 1 as [|u us vs _ _|d us vs Hd _ IH]; [reflexivity..|].
  rewrite IH. simpl.
  apply digit_not_surrogate, not_surrogate in Hd as [_ ->]. reflexivity.
Qed.

Lemma plain_stripped (us : list N) :
  plain us = true -> forall vs, stripped us vs -> plain vs = true.
Proof.
  induction us as [|u rest Hp IH|h l rest Hh Hl IH] using units_ind.
  - intros _ vs H. inversion H. reflexivity.
  - rewrite (plain_single u rest Hp). intros [Hu Hrest]%andb_true_iff vs H.
    inversion H as [|u' us' vs' H' E1 E2|d us' vs' Hd H' E1 E2]; subst.
    + rewrite plain_single, Hu; [apply (IH Hrest), H'|].
      rewrite paired_starts_low, (stripped_starts_low _ _ H'), <- paired_starts_low.
      exact Hp.
    + apply (IH Hrest), H'.
  - rewrite (plain_pair h l rest Hh Hl). intros [Hc Hrest]%andb_true_iff vs H.
    inversion H as [|u' us' vs' H' E1 E2|d us' vs' Hd H' E1 E2]; subst;
      [|discriminate Hh].
    inversion H' as [|u' us' vs1 H1 E1 E2|d us' vs1 Hd H1 E1 E2]; subst;
      [|discriminate Hl].
    rewrite (plain_pair h l vs1 Hh Hl), Hc. apply (IH Hrest), H1.
Qed.

Lemma plain_member (us : list N) (u : N) :
  plain us = true -> In u us -> surrogate u = true \/ fixed_unit u = true.
Proof.
  induction us as [|x rest Hp IH|h l rest Hh Hl IH] using units_ind.
  - intros _ [].
  - rewrite (plain_single x rest Hp). intros [Hx Hrest]%andb_true_iff [->|Hin]; auto.
  - rewrite (plain_pair h l rest Hh Hl). intros [_ Hrest]%andb_true_iff.
    unfold surrogate.
    intros [->|[->|Hin]]; [left; rewrite Hh; reflexivity
                          |left; rewrite Hl; apply orb_true_r | auto].
Qed.

(** **** ASCII *)

Lemma ascii_forall (P : N -> bool) :
  forallb P ascii_range = true -> forall u, is_ascii u = true -> P u = true.
Proof.
  intros H u Hu. apply N.ltb_lt in Hu.
  apply (proj1 (forallb_forall _ _) H). unfold ascii_range.
  apply in_map_iff. exists (N.to_nat u). split; [apply N2Nat.id|].
  apply in_seq. lia.
Qed.

Lemma equal_eq (a b : list N) : equal a b = true <-> a = b.
Proof.
  revert b. induction a as [|x a IH]; intros [|y b]; simpl;
    try (split; [discriminate | congruence]); [tauto|].
  rewrite andb_true_iff, N.eqb_eq, IH. split; [intros [-> ->] | intros [= -> ->]]; auto.
Qed.

Lemma lower_unit_ascii (before : bool) (u : N) (rest : list N) :
  is_ascii u = true -> lower_unit before u rest = [lower_ascii u].
Proof.
  intros Hu.
  assert (Hall : forallb (fun u => equal (flat_map code_units (lower_code_point u))
                                     [lower_ascii u]) ascii_range = true)
    by (vm_compute; reflexivity).
  pose proof (ascii_forall _ Hall u Hu) as E. cbv beta in E. apply equal_eq in E.
  unfold lower_unit. apply N.ltb_lt in Hu.
  destruct (N.eqb_spec u 0x3A3); [lia|].
  destruct (N.leb_spec 0x10000 u); [lia | exact E].
Qed.

Lemma ascii_not_high (u : N) : is_ascii u = true -> is_high u = false.
Proof. intros H. to_prop. lia. Qed.

(** On ASCII, [toLowerCase] adds 32 to the capital letters. *)
Lemma lower_from_ascii (us : list N) :
  forallb is_ascii us = true -> forall before, lower_from before us = map lower_ascii us.
Proof.
  induction us as [|u us IH]; [reflexivity|]. simpl forallb.
  intros [Hu Hus]%andb_true_iff before.
  rewrite (lower_from_single before u us (not_high_not_paired u us (ascii_not_high u Hu))).
  rewrite (lower_unit_ascii before u us Hu), (IH Hus). reflexivity.
Qed.

Lemma capital_changes (u : N) : between 65 90 u = true -> fixed_unit u = false.
Proof.
  intros H.
  assert (Hall : forallb (fun u => negb (between 65 90 u) || negb (fixed_unit u))
                   ascii_range = true) by (vm_compute; reflexivity).
  assert (Hu : is_ascii u = true) by (to_prop; lia).
  pose proof (ascii_forall _ Hall u Hu) as E. cbv beta in E. rewrite H in E.
  apply negb_true_iff in E. exact E.
Qed.

End CodeUnits.

(** *** normalizeCity *)

Section NormalizeCity.

Import UTF16.

Local Abbreviation scan pw l := (replace_from (length l) pw l).

Local Arguments word_boundary : simpl never.
Local Arguments match_here : simpl never.
Local Arguments is_digit : simpl never.
Local Arguments is_zero : simpl never.
Local Arguments is_word : simpl never.
Local Arguments is_white_space : simpl never.

(** **** Character classes *)

Lemma digit_is_word (c : N) : is_digit c = true -> is_word c = true.
Proof. unfold is_word. intros ->. reflexivity. Qed.

Lemma zero_is_digit (c : N) : is_zero c = true -> is_digit c = true.
Proof. intros ->%N.eqb_eq. reflexivity. Qed.

Lemma space_not_word (c : N) : is_white_space c = true -> is_word c = false.
Proof.
  intros H. destruct (is_word c) eqn:Hw; [|reflexivity]. exfalso. to_prop. lia.
Qed.

Lemma boundary_after_word (l : list N) :
  word_boundary true l = true ->
  match l with [] => True | x :: _ => is_word x = false end.
Proof.
  destruct l as [|x l]; [trivial|]. unfold word_boundary.
  destruct (is_word x); [discriminate | trivial].
Qed.

(** **** The matcher *)

Lemma digits_boundary_spec (l cap rest : list N) :
  digits_boundary l = Some (cap, rest) ->
  l = cap ++ rest /\ cap <> [] /\ forallb is_digit cap = true
  /\ word_boundary true rest = true.
Proof.
  revert cap rest. induction l as [|c l IH]; simpl; intros cap rest; [discriminate|].
  destruct (is_digit c) eqn:Hd; [|discriminate].
  destruct (digits_boundary l) as [[cap' rest']|].
  - intros [= <- <-]. destruct (IH _ _ eq_refl) as (-> & _ & Hall & Hb).
    simpl. rewrite Hd. simpl. split; [reflexivity|]. split; [discriminate|]. auto.
  - destruct (word_boundary true l) eqn:Hb; [|discriminate].
    intros [= <- <-]. simpl. rewrite Hd. split; [reflexivity|].
    split; [discriminate|]. auto.
Qed.

Lemma zeros_digits_boundary_spec (l cap rest : list N) :
  zeros_digits_boundary l = Some (cap, rest) ->
  (exists zs, l = zs ++ cap ++ rest /\ zs <> [] /\ forallb is_zero zs = true)
  /\ cap <> [] /\ forallb is_digit cap = true /\ word_boundary true rest = true.
Proof.
  revert cap rest. induction l as [|c l IH]; simpl; intros cap rest; [discriminate|].
  destruct (is_zero c) eqn:Hz; [|discriminate].
  destruct (zeros_digits_boundary l) as [m|].
  - intros [= ->]. destruct (IH _ _ eq_refl) as ((zs & -> & _ & Hzs) & Hc & Hall & Hb).
    split; [|auto]. exists (c :: zs). simpl. rewrite Hz, Hzs.
    split; [reflexivity|]. split; [discriminate | reflexivity].
  - intros H. destruct (digits_boundary_spec _ _ _ H) as (-> & Hc & Hall & Hb).
    split; [|auto]. exists [c]. simpl. rewrite Hz.
    split; [reflexivity|]. split; [discriminate | reflexivity].
Qed.

(** Input after a boundary does not change what is matched before it. *)
Lemma digits_boundary_app (u t : list N) :
  word_boundary true t = true ->
  digits_boundary (u ++ t)
  = match digits_boundary u with
    | Some (cap, r) => Some (cap, r ++ t)
    | None => None
    end.
Proof.
  intros Ht. induction u as [|c u IH]; simpl.
  - destruct t as [|x t]; [reflexivity|]. simpl.
    apply boundary_after_word in Ht.
    destruct (is_digit x) eqn:Hd; [|reflexivity].
    apply digit_is_word in Hd. congruence.
  - destruct (is_digit c); [|reflexivity]. rewrite IH.
    destruct (digits_boundary u) as [[cap r]|]; [reflexivity|].
    destruct u as [|c' u]; simpl; [rewrite Ht; reflexivity|].
    change (word_boundary true (c' :: u ++ t)) with (word_boundary true (c' :: u)).
    destruct (word_boundary true (c' :: u)); reflexivity.
Qed.

Lemma zeros_digits_boundary_app (u t : list N) :
  word_boundary true t = true ->
  zeros_digits_boundary (u ++ t)
  = match zeros_digits_boundary u with
    | Some (cap, r) => Some (cap, r ++ t)
    | None => None
    end.
Proof.
  intros Ht. induction u as [|c u IH]; simpl.
  - destruct t as [|x t]; [reflexivity|]. simpl.
    apply boundary_after_word in Ht.
    destruct (is_zero x) eqn:Hz; [|reflexivity].
    apply zero_is_digit, digit_is_word in Hz. congruence.
  - destruct (is_zero c); [|reflexivity]. rewrite IH.
    destruct (zeros_digits_boundary u) as [[cap r]|]; [reflexivity|].
    apply digits_boundary_app, Ht.
Qed.

Lemma match_here_app (pw : bool) (c : N) (u t : list N) :
  word_boundary true t = true ->
  match_here pw ((c :: u) ++ t)
  = match match_here pw (c :: u) with
    | Some (cap, r) => Some (cap, r ++ t)
    | None => None
    end.
Proof.
  intros Ht. unfold match_here.
  change (word_boundary pw ((c :: u) ++ t)) with (word_boundary pw (c :: u)).
  destruct (word_boundary pw (c :: u)); [|reflexivity].
  apply zeros_digits_boundary_app, Ht.
Qed.

(** The group of a match has no leading zero left to strip. *)
Lemma zeros_digits_boundary_clean (l cap rest : list N) :
  zeros_digits_boundary l = Some (cap, rest) -> zeros_digits_boundary cap = None.
Proof.
  revert cap rest. induction l as [|c l IH]; simpl; intros cap rest; [discriminate|].
  destruct (is_zero c); [|discriminate].
  destruct (zeros_digits_boundary l) as [m|] eqn:Hz.
  - intros [= ->]. eapply IH. reflexivity.
  - intros H. destruct (digits_boundary_spec _ _ _ H) as (-> & _ & _ & Hb).
    rewrite (zeros_digits_boundary_app _ _ Hb) in Hz.
    destruct (zeros_digits_boundary cap) as [[]|]; [discriminate | reflexivity].
Qed.

Lemma match_here_spec (pw : bool) (l cap rest : list N) :
  match_here pw l = Some (cap, rest) ->
  (exists zs, l = zs ++ cap ++ rest /\ zs <> [] /\ forallb is_zero zs = true)
  /\ cap <> [] /\ forallb is_digit cap = true /\ word_boundary true rest = true
  /\ zeros_digits_boundary cap = None.
Proof.
  unfold match_here. destruct (word_boundary pw l); [|discriminate].
  intros H. pose proof (zeros_digits_boundary_clean _ _ _ H).
  apply zeros_digits_boundary_spec in H. tauto.
Qed.

Lemma match_here_shorter (pw : bool) (l cap rest : list N) :
  match_here pw l = Some (cap, rest) -> length rest < length l.
Proof.
  intros H. apply match_here_spec in H as ((zs & -> & Hzs & _) & _).
  rewrite !length_app. destruct zs; [congruence | simpl; lia].
Qed.

Lemma match_here_not_zero (pw : bool) (x : N) (l : list N) :
  is_zero x = false -> match_here pw (x :: l) = None.
Proof.
  intros Hx. unfold match_here. simpl. rewrite Hx.
  destruct (word_boundary pw (x :: l)); reflexivity.
Qed.

Lemma match_here_not_word (pw : bool) (x : N) (l : list N) :
  is_word x = false -> match_here pw (x :: l) = None.
Proof.
  intros Hx. apply match_here_not_zero.
  destruct (is_zero x) eqn:Hz; [|reflexivity].
  apply zero_is_digit, digit_is_word in Hz. congruence.
Qed.

Lemma match_here_inside_word (x : N) (l : list N) :
  is_word x = true -> match_here true (x :: l) = None.
Proof. intros Hx. unfold match_here, word_boundary. rewrite Hx. reflexivity. Qed.

(** **** The scan *)

Lemma replace_from_fuel (n m : nat) (pw : bool) (l : list N) :
  length l <= n -> length l <= m -> replace_from n pw l = replace_from m pw l.
Proof.
  revert m pw l. induction n as [|n IH]; intros m pw l Hn Hm.
  - destruct l; [|simpl in Hn; lia]. destruct m; reflexivity.
  - destruct l as [|c l]; [destruct m; reflexivity|].
    destruct m as [|m]; [simpl in Hm; lia|].
    simpl in Hn, Hm. cbn [replace_from].
    destruct (match_here pw (c :: l)) as [[cap rest]|] eqn:Hmatch.
    + apply match_here_shorter in Hmatch. simpl in Hmatch.
      f_equal. apply IH; lia.
    + f_equal. apply IH; lia.
Qed.

Lemma scan_cons (pw : bool) (c : N) (l : list N) :
  scan pw (c :: l)
  = match match_here pw (c :: l) with
    | Some (cap, rest) => cap ++ scan true rest
    | None => c :: scan (is_word c) l
    end.
Proof.
  cbn [length replace_from].
  destruct (match_here pw (c :: l)) as [[cap rest]|] eqn:Hmatch; [|reflexivity].
  apply match_here_shorter in Hmatch. simpl in Hmatch.
  f_equal. apply replace_from_fuel; lia.
Qed.

(** A code unit that is not a word character cuts the scan in two. *)
Lemma scan_split (pw : bool) (u : list N) (x : N) (t : list N) :
  is_word x = false -> scan pw (u ++ x :: t) = scan pw u ++ x :: scan false t.
Proof.
  intros Hx.
  assert (Hb : word_boundary true (x :: t) = true)
    by (unfold word_boundary; rewrite Hx; reflexivity).
  enough (Hgen : forall n pw u, length u <= n ->
                   scan pw (u ++ x :: t) = scan pw u ++ x :: scan false t)
    by (apply (Hgen (length u)); lia).
  clear pw u. induction n as [|n IH]; intros pw u Hle.
  - destruct u; [|simpl in Hle; lia]. simpl app.
    rewrite scan_cons, match_here_not_word, Hx by exact Hx. reflexivity.
  - destruct u as [|c u].
    + simpl app. rewrite scan_cons, match_here_not_word, Hx by exact Hx. reflexivity.
    + simpl in Hle. change ((c :: u) ++ x :: t) with (c :: (u ++ x :: t)).
      rewrite !scan_cons.
      change (c :: (u ++ x :: t)) with ((c :: u) ++ x :: t).
      rewrite (match_here_app pw c u (x :: t) Hb).
      destruct (match_here pw (c :: u)) as [[cap r]|] eqn:Hmatch.
      * apply match_here_shorter in Hmatch. simpl in Hmatch.
        rewrite IH by lia. rewrite app_assoc. reflexivity.
      * rewrite IH by lia. reflexivity.
Qed.

(** Nothing matches inside a word. *)
Lemma scan_inside_word (u : list N) :
  forallb is_word u = true -> scan true u = u.
Proof.
  induction u as [|c u IH]; [reflexivity|]. simpl forallb.
  intros [Hc Hu]%andb_true_iff.
  rewrite scan_cons, match_here_inside_word, Hc by exact Hc.
  rewrite IH by exact Hu. reflexivity.
Qed.

Lemma forallb_digit_word (l : list N) :
  forallb is_digit l = true -> forallb is_word l = true.
Proof.
  induction l as [|c l IH]; [reflexivity|]. simpl.
  intros [Hc Hl]%andb_true_iff. rewrite (digit_is_word c Hc). auto.
Qed.

(** On a single word the scan is idempotent. *)
Lemma scan_word_idem (pw : bool) (u : list N) :
  forallb is_word u = true -> scan pw (scan pw u) = scan pw u.
Proof.
  intros Hu. destruct pw.
  { rewrite (scan_inside_word u Hu). apply scan_inside_word, Hu. }
  destruct u as [|c u]; [reflexivity|].
  pose proof Hu as Hu'. simpl in Hu'. apply andb_true_iff in Hu' as [Hc Hu'].
  rewrite scan_cons.
  destruct (match_here false (c :: u)) as [[cap rest]|] eqn:Hmatch.
  - apply match_here_spec in Hmatch
      as ((zs & Heq & _) & Hcap & Hdig & Hb & Hclean).
    assert (Hrest : rest = []).
    { destruct rest as [|y rest]; [reflexivity|]. exfalso.
      apply boundary_after_word in Hb.
      rewrite Heq, !forallb_app in Hu. simpl in Hu.
      rewrite Hb in Hu. rewrite !andb_false_r in Hu. discriminate. }
    subst rest. change (scan true []) with (@nil N). rewrite app_nil_r.
    destruct cap as [|d cap]; [congruence|].
    assert (Hno : match_here false (d :: cap) = None).
    { unfold match_here. rewrite Hclean.
      destruct (word_boundary false (d :: cap)); reflexivity. }
    rewrite scan_cons, Hno.
    apply forallb_digit_word in Hdig. simpl in Hdig.
    apply andb_true_iff in Hdig as [-> Hdig].
    rewrite scan_inside_word by exact Hdig. reflexivity.
  - rewrite Hc, scan_inside_word by exact Hu'.
    rewrite scan_cons, Hmatch, Hc, scan_inside_word by exact Hu'. reflexivity.
Qed.

(** Every string is a word followed by nothing, or by a code unit that is
    not a word character and a shorter string. *)
Lemma first_non_word (l : list N) :
  forallb is_word l = true \/
  exists u x t, l = u ++ x :: t /\ forallb is_word u = true /\ is_word x = false.
Proof.
  induction l as [|c l IH]; [left; reflexivity|].
  destruct (is_word c) eqn:Hc.
  - destruct IH as [Hl|(u & x & t & -> & Hu & Hx)].
    + left. simpl. rewrite Hc. exact Hl.
    + right. exists (c :: u), x, t. simpl. rewrite Hc. auto.
  - right. exists [], c, l. auto.
Qed.

Lemma scan_idem_bounded (n : nat) (pw : bool) (l : list N) :
  length l <= n -> scan pw (scan pw l) = scan pw l.
Proof.
  revert pw l. induction n as [|n IH]; intros pw l Hle.
  - destruct l; [reflexivity | simpl in Hle; lia].
  - destruct (first_non_word l) as [Hl|(u & x & t & -> & Hu & Hx)].
    + apply scan_word_idem, Hl.
    + rewrite length_app in Hle. simpl in Hle.
      rewrite (scan_split pw u x t Hx).
      rewrite (scan_split pw (scan pw u) x (scan false t) Hx).
      rewrite (scan_word_idem pw u Hu), IH by lia. reflexivity.
Qed.

Lemma strip_leading_zeros_idem (l : list N) :
  strip_leading_zeros (strip_leading_zeros l) = strip_leading_zeros l.
Proof. unfold strip_leading_zeros. eapply scan_idem_bounded. reflexivity. Qed.

(** **** What the scan takes out *)

Lemma stripped_refl (l : list N) : stripped l l.
Proof. induction l; constructor; assumption. Qed.

Lemma stripped_keep_app (cap us vs : list N) :
  stripped us vs -> stripped (cap ++ us) (cap ++ vs).
Proof. intros H. induction cap; simpl; [exact H | constructor; assumption]. Qed.

Lemma stripped_zeros (zs : list N) (d : N) (us vs : list N) :
  forallb is_zero zs = true -> is_digit d = true -> stripped (d :: us) vs ->
  stripped (zs ++ d :: us) vs.
Proof.
  intros Hzs Hd H. induction zs as [|z zs IH]; [exact H|].
  simpl in Hzs. apply andb_true_iff in Hzs as [Hz Hzs].
  apply N.eqb_eq in Hz. subst z. specialize (IH Hzs).
  destruct zs as [|z' zs]; simpl in *.
  - constructor; assumption.
  - apply andb_true_iff in Hzs as [Hz' _].
    constructor; [apply zero_is_digit, Hz' | exact IH].
Qed.

Lemma replace_from_stripped (n : nat) (pw : bool) (l : list N) :
  stripped l (replace_from n pw l).
Proof.
  revert pw l. induction n as [|n IH]; intros pw l; [destruct l; apply stripped_refl|].
  destruct l as [|x l]; [constructor|]. cbn [replace_from].
  destruct (match_here pw (x :: l)) as [[cap rest]|] eqn:Hmatch.
  - apply match_here_spec in Hmatch as ((zs & -> & _ & Hzs) & Hcap & Hdig & _).
    destruct cap as [|d cap]; [congruence|].
    simpl in Hdig. apply andb_true_iff in Hdig as [Hd _].
    change ((d :: cap) ++ rest) with (d :: (cap ++ rest)).
    apply stripped_zeros; [exact Hzs | exact Hd|].
    apply (stripped_keep_app (d :: cap)), IH.
  - constructor. apply IH.
Qed.

(** **** Trimming *)

Lemma dropWhile_idem (p : N -> bool) (l : list N) :
  dropWhile p (dropWhile p l) = dropWhile p l.
Proof.
  induction l as [|x l IH]; [reflexivity|]. simpl.
  destruct (p x) eqn:Hp; [exact IH|]. simpl. rewrite Hp. reflexivity.
Qed.

Lemma dropWhile_snoc (p : N -> bool) (l : list N) (x : N) :
  p x = false -> dropWhile p (l ++ [x]) = dropWhile p l ++ [x].
Proof.
  intros Hx. induction l as [|y l IH]; simpl; [rewrite Hx; reflexivity|].
  destruct (p y); [exact IH | reflexivity].
Qed.

Lemma trimEnd_idem (l : list N) : trimEnd (trimEnd l) = trimEnd l.
Proof. unfold trimEnd. rewrite rev_involutive, dropWhile_idem. reflexivity. Qed.

Lemma trimStart_no_leading_space (l : list N) : no_leading_space (trimStart l).
Proof.
  unfold trimStart. induction l as [|x l IH]; simpl; [trivial|].
  destruct (is_white_space x) eqn:Hx; [exact IH | exact Hx].
Qed.

Lemma trimStart_fixed (l : list N) : no_leading_space l -> trimStart l = l.
Proof.
  unfold trimStart. destruct l as [|x l]; simpl; [trivial|]. intros ->. reflexivity.
Qed.

Lemma trimEnd_no_leading_space (l : list N) :
  no_leading_space l -> no_leading_space (trimEnd l).
Proof.
  destruct l as [|x l]; [trivial|]. simpl. intros Hx.
  unfold trimEnd. simpl. rewrite (dropWhile_snoc _ _ _ Hx), rev_app_distr.
  exact Hx.
Qed.

Lemma trim_idem (l : list N) : trim (trim l) = trim l.
Proof.
  unfold trim. rewrite trimStart_fixed.
  - apply trimEnd_idem.
  - apply trimEnd_no_leading_space, trimStart_no_leading_space.
Qed.

(** A string in which nothing is replaced stays so when trimmed. *)
Lemma scan_trimStart (l : list N) :
  scan false l = l -> scan false (trimStart l) = trimStart l.
Proof.
  unfold trimStart. induction l as [|x l IH]; [trivial|]. simpl dropWhile.
  destruct (is_white_space x) eqn:Hx; [|trivial].
  apply space_not_word in Hx.
  rewrite scan_cons, match_here_not_word, Hx by exact Hx.
  intros [= H]. auto.
Qed.

Lemma scan_trimEnd (pw : bool) (l : list N) :
  scan pw l = l -> scan pw (trimEnd l) = trimEnd l.
Proof.
  induction l as [|x l IH] using rev_ind; [trivial|].
  rewrite trimEnd_snoc. destruct (is_white_space x) eqn:Hx; [|trivial].
  apply space_not_word in Hx. rewrite (scan_split pw l x [] Hx).
  change (scan false []) with (@nil N).
  intros H%app_inv_tail. auto.
Qed.

(** **** The three steps together *)

Lemma normalizeCity_plain (s : list N) : plain (normalizeCity s) = true.
Proof.
  unfold normalizeCity, trim. apply plain_trimEnd, plain_trimStart.
  apply (plain_stripped (toLowerCase s));
    [apply lower_from_is_plain | apply replace_from_stripped].
Qed.

Lemma normalizeCity_scanned (s : list N) :
  strip_leading_zeros (normalizeCity s) = normalizeCity s.
Proof.
  unfold normalizeCity, trim.
  apply scan_trimEnd, scan_trimStart, strip_leading_zeros_idem.
Qed.

End NormalizeCity.

(** C4: [normalizeCity] is idempotent on every string; it sends
    [Colombo 03] and [Colombo 3] to the same string, and [Colombo 03] and
    [Colombo 7] to different ones. *)
Theorem normalizeCity_idempotent :
  (forall s, normalizeCity (normalizeCity s) = normalizeCity s) /\
  normalizeCity (UTF16.units "Colombo 03") = normalizeCity (UTF16.units "Colombo 3") /\
  normalizeCity (UTF16.units "Colombo 03") <> normalizeCity (UTF16.units "Colombo 7").
Proof.
  split; [|split; [vm_compute; reflexivity | vm_compute; discriminate]].
  intros s. unfold normalizeCity at 1.
  unfold UTF16.toLowerCase.
  rewrite (lower_from_plain _ (normalizeCity_plain s)).
  rewrite normalizeCity_scanned. unfold normalizeCity. apply trim_idem.
Qed.

(** ** Further properties of the page *)

(** *** The feature cards *)

Lemma removeFirst_absent (pat l : list ascii) :
  test (fun l => match literal pat l with Some _ => true | None => false end) l = false ->
  removeFirst pat l = l.
Proof.
  induction l as [|c l IH]; simpl.
  - destruct (literal pat []); [discriminate | reflexivity].
  - destruct (literal pat (c :: l)); [discriminate|]. simpl.
    intros H. rewrite (IH H). reflexivity.
Qed.

Lemma str_chars (s : string) : str (chars s) = s.
Proof. apply string_of_list_ascii_of_string. Qed.

(** X1: a feature name that contains none of the three category tokens is
    shown as it is, and a name made of one token followed by such a text is
    shown as the text alone. *)
Theorem featureName_strips_category (f : TopFeature) (x : string) :
  includes "Location_" x = false ->
  includes "Property Type_" x = false ->
  includes "Status_" x = false ->
  (feature f = x -> featureName f = x) /\
  (feature f = ("Location_" ++ x)%string -> featureName f = x) /\
  (feature f = ("Property Type_" ++ x)%string -> featureName f = x) /\
  (feature f = ("Status_" ++ x)%string -> featureName f = x).
Proof.
  unfold includes. intros HL HP HS.
  apply removeFirst_absent in HL, HP, HS.
  unfold featureName.
  repeat split; intros ->.
  - rewrite HL, HP, HS. apply str_chars.
  - change (chars ("Location_" ++ x)%string) with (chars "Location_" ++ chars x).
    replace (removeFirst (chars "Location_") (chars "Location_" ++ chars x))
      with (chars x) by reflexivity.
    rewrite HP, HS. apply str_chars.
  - change (chars ("Property Type_" ++ x)%string) with (chars "Property Type_" ++ chars x).
    replace (removeFirst (chars "Location_") (chars "Property Type_" ++ chars x))
      with (chars "Property Type_" ++ removeFirst (chars "Location_") (chars x))
      by reflexivity.
    rewrite HL.
    replace (removeFirst (chars "Property Type_") (chars "Property Type_" ++ chars x))
      with (chars x) by reflexivity.
    rewrite HS. apply str_chars.
  - change (chars ("Status_" ++ x)%string) with (chars "Status_" ++ chars x).
    replace (removeFirst (chars "Location_") (chars "Status_" ++ chars x))
      with (chars "Status_" ++ removeFirst (chars "Location_") (chars x))
      by reflexivity.
    rewrite HL.
    replace (removeFirst (chars "Property Type_") (chars "Status_" ++ chars x))
      with (chars "Status_" ++ removeFirst (chars "Property Type_") (chars x))
      by reflexivity.
    rewrite HP.
    replace (removeFirst (chars "Status_") (chars "Status_" ++ chars x))
      with (chars x) by reflexivity.
    apply str_chars.
Qed.

Lemma featureName_strips_category_witness :
  featureName (mkTopFeature "Location_Colombo 03" (of_Z (-1500))) = "Colombo 03" /\
  featureName (mkTopFeature "Sqft" (of_Z 42000)) = "Sqft".
Proof.
  split.
  - destruct (featureName_strips_category
                (mkTopFeature "Location_Colombo 03" (of_Z (-1500))) "Colombo 03")
      as (_ & H & _); [vm_compute; reflexivity ..|].
    apply H. reflexivity.
  - destruct (featureName_strips_category (mkTopFeature "Sqft" (of_Z 42000)) "Sqft")
      as (H & _); [vm_compute; reflexivity ..|].
    apply H. reflexivity.
Defined.

(** *** The bars of the market chart *)

Lemma lookup_map {A B : Type} (f : A -> B) (l : list A) (i : nat) :
  map f l !! i = f <$> l !! i.
Proof.
  revert i. induction l as [|x l IH]; intros [|i]; simpl; auto.
Qed.

(** X2: the shading of the bars and the tooltip agree on which locations
    have little data: a bar is shaded as low on data exactly when its
    tooltip does not show the reliable mark.  A missing count, a zero and
    a NaN all count as little data. *)
Theorem low_data_matches_tooltip (data : MarketInsights.t) (i : nat) :
  lowData data i = negb (reliable (MarketInsights.counts data !! i)).
Proof.
  unfold lowData, reliable, or_zero.
  destruct (MarketInsights.counts data !! i) as [[|[]|q]|]; try reflexivity.
  unfold truthy_number. destruct (Qeq_bool q 0); [reflexivity|].
  unfold greater_eq, of_Z. simpl. rewrite negb_involutive. reflexivity.
Qed.

(** X3: the three style arrays of the chart have one entry per location
    and agree on the bar they single out: a bar has the strong fill
    exactly when it has the dark border and the thick border, which is
    exactly when a selected city is given and the location and the
    selected city normalise to the same text.  Every other bar has one of
    the two light fills, by its count. *)
Theorem bar_styles_agree (data : MarketInsights.t) :
  length (backgroundColor data) = length (MarketInsights.locations data) /\
  length (borderColor data) = length (MarketInsights.locations data) /\
  length (borderWidth data) = length (MarketInsights.locations data) /\
  forall i loc, MarketInsights.locations data !! i = Some loc ->
    let selected :=
      MarketInsights.selected_city data <> "" /\
      normalizeCity (UTF16.units loc)
      = normalizeCity (UTF16.units (MarketInsights.selected_city data)) in
    (backgroundColor data !! i = Some "rgba(0, 128, 0, 0.9)" <-> selected) /\
    (borderColor data !! i = Some "#004d00" <-> selected) /\
    (borderWidth data !! i = Some (Fin (5 # 2)) <-> selected) /\
    (~ selected ->
     backgroundColor data !! i
     = Some (if lowData data i then "rgba(0, 128, 0, 0.15)"
             else "rgba(0, 128, 0, 0.25)")).
Proof.
  unfold backgroundColor, borderColor, borderWidth.
  rewrite length_imap, !length_map.
  split; [reflexivity|]. split; [reflexivity|]. split; [reflexivity|].
  intros i loc Hloc.
  set (selected := MarketInsights.selected_city data <> "" /\
                   normalizeCity (UTF16.units loc)
                   = normalizeCity (UTF16.units (MarketInsights.selected_city data))).
  rewrite list_lookup_imap, !lookup_map, Hloc. simpl.
  assert (Hsel : isSelected data loc = true <-> selected).
  { subst selected. unfold isSelected.
    destruct (MarketInsights.selected_city data) as [|c city]; simpl.
    - split; [discriminate | intros [[] _]; reflexivity].
    - rewrite equal_eq. split; [intros ->; split; [discriminate | reflexivity]|].
      intros [_ ->]. reflexivity. }
  destruct (isSelected data loc).
  - assert (Hs : selected) by (apply Hsel; reflexivity).
    split; [split; [intros _; exact Hs | reflexivity]|].
    split; [split; [intros _; exact Hs | reflexivity]|].
    split; [split; [intros _; exact Hs | reflexivity]|].
    intros Hn. contradiction.
  - assert (Hn : ~ selected) by (intros Hs; apply Hsel in Hs; discriminate).
    split; [split; [destruct (lowData data i); discriminate | intros; contradiction]|].
    split; [split; [discriminate | intros; contradiction]|].
    split; [split; [unfold of_Z; simpl; discriminate | intros; contradiction]|].
    intros _. reflexivity.
Qed.

(** A snapshot whose selected city is spelled without padding and whose
    first location is the same city with padding: that bar is singled out. *)
Lemma bar_styles_agree_witness :
  backgroundColor snapshotPadded !! 0 = Some "rgba(0, 128, 0, 0.9)" /\
  borderColor snapshotPadded !! 0 = Some "#004d00" /\
  backgroundColor snapshotPadded !! 1 = Some "rgba(0, 128, 0, 0.15)".
Proof.
  destruct (bar_styles_agree snapshotPadded) as (_ & _ & _ & H).
  destruct (H 0 "Colombo 03" eq_refl) as (Hfill & Hborder & _).
  destruct (H 1 "Kandy" eq_refl) as (_ & _ & _ & Hlight).
  split; [apply Hfill; split; [discriminate | vm_compute; reflexivity]|].
  split; [apply Hborder; split; [discriminate | vm_compute; reflexivity]|].
  rewrite Hlight; [reflexivity|]. intros [_ Heq]. vm_compute in Heq. discriminate.
Defined.

(** *** More on normalizeCity *)

Section ZeroPadding.

Import UTF16.

Local Abbreviation scan pw l := (replace_from (length l) pw l).
Local Arguments word_boundary : simpl never.
Local Arguments match_here : simpl never.
Local Arguments is_digit : simpl never.
Local Arguments is_zero : simpl never.
Local Arguments is_word : simpl never.
Local Arguments is_ascii : simpl never.
Local Arguments lower_ascii : simpl never.

Lemma lower_ascii_word (c : N) : is_word (lower_ascii c) = is_word c.
Proof.
  unfold lower_ascii. destruct (between 65 90 c) eqn:E; [|reflexivity].
  assert (H1 : is_word c = true) by (to_prop; lia).
  assert (H2 : is_word (c + 32) = true) by (to_prop; lia).
  congruence.
Qed.

Lemma lower_ascii_digit (c : N) : is_digit c = true -> lower_ascii c = c.
Proof.
  intros H. unfold lower_ascii.
  destruct (between 65 90 c) eqn:E; [|reflexivity]. to_prop. lia.
Qed.

Lemma digit_is_ascii (c : N) : is_digit c = true -> is_ascii c = true.
Proof. intros H. to_prop. lia. Qed.

Lemma lower_ascii_digits (l : list N) :
  forallb is_digit l = true -> map lower_ascii l = l.
Proof.
  induction l as [|c l IH]; [reflexivity|]. simpl.
  intros [Hc Hl]%andb_true_iff. rewrite (lower_ascii_digit c Hc), (IH Hl). reflexivity.
Qed.

Lemma digits_are_ascii (l : list N) :
  forallb is_digit l = true -> forallb is_ascii l = true.
Proof.
  induction l as [|c l IH]; [reflexivity|]. simpl.
  intros [Hc Hl]%andb_true_iff. rewrite (digit_is_ascii c Hc). auto.
Qed.

Lemma digits_boundary_all (l : list N) :
  forallb is_digit l = true -> l <> [] -> digits_boundary l = Some (l, []).
Proof.
  induction l as [|c l IH]; [congruence|]. simpl.
  intros [Hc Hl]%andb_true_iff _. rewrite Hc.
  destruct l as [|c' l]; [reflexivity|].
  rewrite IH by (auto; discriminate). reflexivity.
Qed.

Lemma padded_digits (k : nat) (l : list N) :
  forallb is_digit l = true -> forallb is_digit (padded k l) = true.
Proof.
  intros H. unfold padded. rewrite forallb_app, H, andb_true_r.
  induction k as [|k IH]; [reflexivity | exact IH].
Qed.

Lemma padded_not_nil (k : nat) (l : list N) : l <> [] -> padded k l <> [].
Proof. unfold padded. destruct k; simpl; [trivial | discriminate]. Qed.

Lemma match_here_number (c : N) (l : list N) :
  is_digit c = true -> match_here false (c :: l) = zeros_digits_boundary (c :: l).
Proof.
  intros Hc. unfold match_here, word_boundary.
  rewrite (digit_is_word c Hc). reflexivity.
Qed.

(** One more zero in front of a number changes nothing. *)
Lemma scan_extra_zero (l : list N) :
  forallb is_digit l = true -> l <> [] -> scan false (48%N :: l) = scan false l.
Proof.
  intros Hd Hne. destruct l as [|c l]; [congruence|].
  pose proof Hd as Hd'. simpl in Hd'. apply andb_true_iff in Hd' as [Hc Hl].
  rewrite (scan_cons false 48%N (c :: l)), (scan_cons false c l).
  rewrite (match_here_number 48%N (c :: l) eq_refl), (match_here_number c l Hc).
  change (zeros_digits_boundary (48%N :: c :: l))
    with (match zeros_digits_boundary (c :: l) with
          | Some m => Some m
          | None => digits_boundary (c :: l)
          end).
  destruct (zeros_digits_boundary (c :: l)) as [[cap rest]|]; [reflexivity|].
  rewrite (digits_boundary_all (c :: l) Hd Hne).
  change (scan true []) with (@nil N). rewrite app_nil_r.
  rewrite (digit_is_word c Hc).
  rewrite scan_inside_word by (apply forallb_digit_word, Hl). reflexivity.
Qed.

Lemma scan_padded (k : nat) (l : list N) :
  forallb is_digit l = true -> l <> [] -> scan false (padded k l) = scan false l.
Proof.
  intros Hd Hne. induction k as [|k IH]; [reflexivity|].
  change (padded (S k) l) with (48%N :: padded k l).
  rewrite scan_extra_zero; [exact IH | apply padded_digits, Hd | apply padded_not_nil, Hne].
Qed.

Lemma scan_number_then (l after : list N) :
  match after with [] => True | y :: _ => is_word y = false end ->
  scan false (l ++ after)
  = scan false l ++ match after with [] => [] | y :: t => y :: scan false t end.
Proof.
  destruct after as [|y t]; intros Hy.
  - rewrite !app_nil_r. reflexivity.
  - apply scan_split, Hy.
Qed.

(** The lower-case form of an ASCII label around a number. *)
Lemma toLowerCase_around_number (before after digits : list N) (sep : N) :
  forallb is_ascii (before ++ sep :: after) = true ->
  forallb is_digit digits = true ->
  toLowerCase (before ++ sep :: digits ++ after)
  = map lower_ascii before ++ lower_ascii sep :: digits ++ map lower_ascii after.
Proof.
  intros Ha Hd. unfold toLowerCase. rewrite lower_from_ascii.
  - rewrite map_app. cbn [map]. rewrite map_app, (lower_ascii_digits _ Hd). reflexivity.
  - rewrite forallb_app in Ha. cbn [forallb] in Ha.
    apply andb_true_iff in Ha as [Hb [Hs Haf]%andb_true_iff].
    rewrite forallb_app. cbn [forallb]. rewrite forallb_app.
    rewrite Hb, Hs, Haf, (digits_are_ascii _ Hd). reflexivity.
Qed.

End ZeroPadding.

(** X4: in a label of ASCII characters, zero padding of a number does not
    matter, however many zeros there are: for a number that follows a
    character that is not a word character and is followed by nothing or
    by such a character, the label with [k] zeros in front of the number
    and the label without them normalise to the same text. *)
Theorem normalizeCity_zero_padding
    (before after digits : list N) (sep : N) (k : nat) :
  forallb UTF16.is_ascii (before ++ sep :: after) = true ->
  UTF16.is_word sep = false ->
  digits <> [] -> forallb UTF16.is_digit digits = true ->
  match after with [] => True | y :: _ => UTF16.is_word y = false end ->
  normalizeCity (before ++ sep :: padded k digits ++ after)
  = normalizeCity (before ++ sep :: digits ++ after).
Proof.
  intros Hascii Hsep Hne Hd Hafter. unfold normalizeCity. f_equal.
  rewrite (toLowerCase_around_number _ _ _ _ Hascii (padded_digits k _ Hd)).
  rewrite (toLowerCase_around_number _ _ _ _ Hascii Hd).
  unfold strip_leading_zeros.
  assert (Hsep' : UTF16.is_word (UTF16.lower_ascii sep) = false)
    by (rewrite lower_ascii_word; exact Hsep).
  assert (Hafter' : match map UTF16.lower_ascii after with
                    | [] => True
                    | y :: _ => UTF16.is_word y = false
                    end).
  { destruct after as [|y t]; simpl; [trivial|]. rewrite lower_ascii_word. exact Hafter. }
  rewrite !(scan_split false _ _ _ Hsep').
  rewrite !(scan_number_then _ _ Hafter').
  rewrite (scan_padded k digits Hd Hne). reflexivity.
Qed.

Lemma normalizeCity_zero_padding_witness :
  normalizeCity (UTF16.units "Colombo 003") = normalizeCity (UTF16.units "Colombo 3") /\
  normalizeCity (UTF16.units "Colombo 07, Western")
  = normalizeCity (UTF16.units "Colombo 7, Western").
Proof.
  split.
  - apply (normalizeCity_zero_padding (UTF16.units "Colombo") [] (UTF16.units "3")
             32%N 2);
      [reflexivity | reflexivity | discriminate | reflexivity | exact I].
  - apply (normalizeCity_zero_padding (UTF16.units "Colombo") (UTF16.units ", Western")
             (UTF16.units "7") 32%N 1);
      [reflexivity | reflexivity | discriminate | reflexivity | reflexivity].
Defined.

(** X5: a normalised label is in normal form.  Each of the three steps of
    [normalizeCity] leaves it as it is: it has no character with a
    lower-case form of its own (so none of the letters A to Z), no
    zero-padded number and no white space at either end. *)
Theorem normalizeCity_normal_form (s : list N) :
  let r := normalizeCity s in
  UTF16.toLowerCase r = r /\
  strip_leading_zeros r = r /\
  UTF16.trim r = r /\
  (forall u, In u r -> UTF16.between 65 90 u = false) /\
  no_leading_space r /\ no_leading_space (rev r).
Proof.
  cbv zeta. pose proof (normalizeCity_plain s) as Hplain.
  split; [|split; [|split; [|split; [|split]]]].
  - apply lower_from_plain, Hplain.
  - apply normalizeCity_scanned.
  - apply trim_idem.
  - intros u Hu. destruct (UTF16.between 65 90 u) eqn:E; [|reflexivity].
    destruct (plain_member _ u Hplain Hu) as [H|H].
    + to_prop. lia.
    + rewrite (capital_changes u E) in H. discriminate.
  - apply trimEnd_no_leading_space, trimStart_no_leading_space.
  - unfold normalizeCity, UTF16.trim, UTF16.trimEnd. rewrite rev_involutive.
    apply (trimStart_no_leading_space
             (rev (UTF16.trimStart (strip_leading_zeros (UTF16.toLowerCase s))))).
Qed.

(** *** The shape of a step *)

Lemma same_deps_eq (a b : FormData) : same_deps a b = true <-> a = b.
Proof.
  unfold same_deps. destruct a, b; simpl.
  rewrite !andb_true_iff, !String.eqb_eq. split.
  - intros [[[-> ->] ->] ->]. reflexivity.
  - intros [= -> -> -> ->]. auto.
Qed.

Lemma marketEffect_cases (before : FormData) (w : World) :
  (formData (page w) = before /\ marketEffect before w = w) \/
  (formData (page w) <> before /\
   marketEffect before w
   = fetch (snd (fetchMarketData (page w)))
       (onPage (fun s => s |> setMarketLoading true |> setMarketError None) w)).
Proof.
  unfold marketEffect. destruct (same_deps before (formData (page w))) eqn:E.
  - left. apply same_deps_eq in E. auto.
  - right. split; [|reflexivity]. intros H.
    assert (same_deps before (formData (page w)) = true) by (apply same_deps_eq; auto).
    congruence.
Qed.

Lemma handleSubmit_cases (s : State) :
  (exists reason, handleSubmit s = (submitRejected reason s, None)) \/
  handleSubmit s
  = (submitAccepted s,
     Some (PostPredict (Number (Sqft (formData s))) (Location (formData s))
             (PropertyType (formData s)) (Status (formData s)))).
Proof.
  destruct (rejects (Sqft (formData s))) eqn:E.
  - left. apply handleSubmit_invalid, spec_invalid_rejects, E.
  - right. apply handleSubmit_valid. rewrite spec_invalid_rejects. congruence.
Qed.

Lemma step_shape (w w' : World) (e : Event) :
  step w e = Some w' ->
  enabled (page w) e = true /\
  match e with
  | Change name value =>
      w' = marketEffect (formData (page w)) (onPage (handleChange name value) w)
  | Submit =>
      (exists reason, w' = onPage (submitRejected reason) w) \/
      w' = fetch (PostPredict (Number (Sqft (formData (page w))))
                    (Location (formData (page w))) (PropertyType (formData (page w)))
                    (Status (formData (page w))))
             (onPage submitAccepted w)
  | ImgError => w' = onPage (setShapImgError true) w
  | OptionsSettled id o =>
      pending w !! id = Some GetFormOptions /\
      w' = marketEffect (formData (page w))
             (onPage (fetchOptions_settled o) (settle id w))
  | MarketSettled id o =>
      (exists r, pending w !! id = Some r /\ is_market r = true) /\
      w' = onPage (fetchMarketData_settled o) (settle id w)
  | PredictSettled id o =>
      (exists r, pending w !! id = Some r /\ is_predict r = true) /\
      w' = onPage (handleSubmit_settled o) (settle id w)
  end.
Proof.
  unfold step. destruct (enabled (page w) e) eqn:Hen; [|discriminate].
  simpl. intros H. split; [reflexivity|].
  destruct e as [name value| | |id o|id o|id o].
  - injection H as <-. reflexivity.
  - destruct (handleSubmit_cases (page w)) as [[reason Hs]|Hs];
      rewrite Hs in H; injection H as <-; [left; exists reason|right]; reflexivity.
  - injection H as <-. reflexivity.
  - destruct (pending w !! id) as [[]|]; try discriminate.
    injection H as <-. auto.
  - destruct (pending w !! id) as [[]|] eqn:E; try discriminate.
    injection H as <-. eauto.
  - destruct (pending w !! id) as [[]|] eqn:E; try discriminate.
    injection H as <-. eauto.
Qed.

(** A step sends at most one request, never for the options, and takes
    out of flight only the request it settles. *)
Lemma step_requests (w w' : World) (e : Event) :
  step w e = Some w' ->
  (issued w' = issued w /\ pending w' = remaining e w /\
   formData (page w') = formData (page w) /\
   (flow e <> MarketFlow ->
    marketLoading (page w') = marketLoading (page w) /\
    marketError (page w') = marketError (page w)) /\
   (e = Submit ->
    loading (page w') = loading (page w) /\ result (page w') = result (page w) /\
    shapImgError (page w') = shapImgError (page w))) \/
  (exists r, is_options r = false /\
     issued w' = issued w ++ [r] /\
     pending w' = <[length (issued w) := r]> (remaining e w) /\
     (is_market r = true ->
      r = snd (fetchMarketData (page w')) /\
      marketLoading (page w') = true /\ marketError (page w') = None
      /\ formData (page w') <> formData (page w)) /\
     (is_predict r = true -> e = Submit /\ page w' = submitAccepted (page w))).
Proof.
  intros Hstep. apply step_shape in Hstep as [_ Hshape].
  destruct e as [name value| | |id o|id o|id o]; unfold remaining; simpl.
  - match type of Hshape with
    | _ = marketEffect ?fd ?w0 =>
        destruct (marketEffect_cases fd w0) as [[Hsame Heq]|[Hne Heq]];
          rewrite Heq in Hshape; subst w'
    end.
    + left. split; [reflexivity|]. split; [reflexivity|]. split; [exact Hsame|].
      split; [|discriminate]. intros _. destruct name; split; reflexivity.
    + right. match goal with |- context [fetch ?r _] => exists r end.
      split; [reflexivity|]. split; [reflexivity|].
      split; [reflexivity|]. split; [|discriminate].
      intros _. repeat split. exact Hne.
  - destruct Hshape as [[reason ->]| ->].
    + left. repeat split; reflexivity.
    + right. match goal with |- context [fetch ?r _] => exists r end.
      split; [reflexivity|]. split; [reflexivity|].
      split; [reflexivity|]. split; [discriminate|]. intros _. split; reflexivity.
  - subst w'. left. repeat split; try reflexivity; discriminate.
  - destruct Hshape as [_ Hshape].
    match type of Hshape with
    | _ = marketEffect ?fd ?w0 =>
        destruct (marketEffect_cases fd w0) as [[Hsame Heq]|[Hne Heq]];
          rewrite Heq in Hshape; subst w'
    end.
    + left. split; [reflexivity|]. split; [reflexivity|]. split; [exact Hsame|].
      split; [|discriminate]. intros _. destruct o; split; reflexivity.
    + right. match goal with |- context [fetch ?r _] => exists r end.
      split; [reflexivity|]. split; [reflexivity|].
      split; [reflexivity|]. split; [|discriminate].
      intros _. repeat split. exact Hne.
  - destruct Hshape as [_ ->]. left.
    split; [reflexivity|]. split; [reflexivity|].
    split; [|split; [intros H; destruct H; reflexivity | discriminate]].
    unfold fetchMarketData_settled. destruct o as [data| |m];
      try destruct (0 <? length (MarketInsights.locations data))%nat; reflexivity.
  - destruct Hshape as [_ ->]. left.
    split; [reflexivity|]. split; [reflexivity|].
    split; [destruct o; reflexivity|].
    split; [intros _; destruct o; split; reflexivity | discriminate].
Qed.

Lemma remaining_lookup (e : Event) (w : World) (i : nat) (r : Request) :
  remaining e w !! i = Some r <-> pending w !! i = Some r /\ settles e <> Some i.
Proof.
  unfold remaining. destruct (settles e) as [id|].
  - rewrite lookup_delete_Some. split.
    + intros [Hne H]. split; [exact H | congruence].
    + intros [H Hne]. split; [congruence | exact H].
  - split; [intros H; split; [exact H | discriminate] | tauto].
Qed.

(** Which cells of the state an event can write. *)
Lemma step_cells (w w' : World) (e : Event) :
  step w e = Some w' ->
  let s := page w in
  let s' := page w' in
  match e with
  | Change _ _ =>
      formOptions s' = formOptions s /\ formOptionsLoading s' = formOptionsLoading s /\
      loading s' = loading s /\ result s' = result s /\ error s' = error s /\
      marketData s' = marketData s /\ shapImgError s' = shapImgError s
  | Submit =>
      formData s' = formData s /\ formOptions s' = formOptions s /\
      formOptionsLoading s' = formOptionsLoading s /\
      marketData s' = marketData s /\ marketLoading s' = marketLoading s /\
      marketError s' = marketError s
  | ImgError =>
      s' = setShapImgError true s
  | OptionsSettled _ _ =>
      loading s' = loading s /\ result s' = result s /\ error s' = error s /\
      sqftError s' = sqftError s /\ marketData s' = marketData s /\
      shapImgError s' = shapImgError s
  | MarketSettled _ _ =>
      formData s' = formData s /\ formOptions s' = formOptions s /\
      formOptionsLoading s' = formOptionsLoading s /\
      loading s' = loading s /\ result s' = result s /\ error s' = error s /\
      sqftError s' = sqftError s /\ shapImgError s' = shapImgError s
  | PredictSettled _ _ =>
      formData s' = formData s /\ formOptions s' = formOptions s /\
      formOptionsLoading s' = formOptionsLoading s /\
      sqftError s' = sqftError s /\ marketData s' = marketData s /\
      marketLoading s' = marketLoading s /\ marketError s' = marketError s /\
      shapImgError s' = shapImgError s
  end.
Proof.
  intros Hstep. apply step_shape in Hstep as [_ Hshape]. cbv zeta.
  destruct e as [name value| | |id o|id o|id o].
  - subst w'.
    match goal with
    | |- context [marketEffect ?fd ?w0] =>
        destruct (marketEffect_frame fd w0)
          as (_ & -> & -> & -> & -> & -> & _ & -> & ->)
    end.
    destruct name; repeat split; reflexivity.
  - destruct Hshape as [[reason ->]| ->]; repeat split; reflexivity.
  - subst w'. reflexivity.
  - destruct Hshape as [_ ->].
    match goal with
    | |- context [marketEffect ?fd ?w0] =>
        destruct (marketEffect_frame fd w0)
          as (_ & _ & _ & -> & -> & -> & -> & -> & ->)
    end.
    destruct o; repeat split; reflexivity.
  - destruct Hshape as [_ ->]. unfold fetchMarketData_settled.
    destruct o as [data| |m];
      try destruct (0 <? length (MarketInsights.locations data))%nat;
      repeat split; reflexivity.
  - destruct Hshape as [_ ->]. destruct o; repeat split; reflexivity.
Qed.

(** *** The flows and the cells they write *)

Lemma step_flow_cells (w w' : World) (e : Event) :
  step w e = Some w' ->
  let s := page w in
  let s' := page w' in
  (flow e <> PredictionFlow ->
   loading s' = loading s /\ result s' = result s /\ error s' = error s /\
   shapImgError s' = shapImgError s) /\
  (flow e <> MarketFlow -> marketData s' = marketData s) /\
  (flow e <> OptionsFlow ->
   formOptions s' = formOptions s /\ formOptionsLoading s' = formOptionsLoading s) /\
  (flow e <> FormFlow -> flow e <> OptionsFlow -> formData s' = formData s) /\
  (flow e <> FormFlow -> flow e <> PredictionFlow -> sqftError s' = sqftError s).
Proof.
  intros Hstep. pose proof (step_cells w w' e Hstep) as Hc. cbv zeta in *.
  destruct e; simpl in *; repeat split; intros; try congruence; try tauto;
    try (rewrite Hc; reflexivity).
Qed.

Lemma without_cons (f : Flow) (e : Event) (es : list Event) :
  without f (e :: es) = true <-> flow e <> f /\ without f es = true.
Proof.
  unfold without. simpl. rewrite andb_true_iff, negb_true_iff.
  assert (Hf : flow_eqb (flow e) f = false <-> flow e <> f)
    by (destruct (flow e), f; simpl; split; congruence).
  rewrite Hf. reflexivity.
Qed.

(** The field-level error is written by an edit and by a submission, and
    by no other event. *)
Lemma step_field_error (w w' : World) (e : Event) :
  step w e = Some w' -> edits_or_submits e = false ->
  sqftError (page w') = sqftError (page w).
Proof.
  intros Hstep He. pose proof (step_cells w w' e Hstep) as Hc. cbv zeta in Hc.
  destruct e as [name value| | |id o|id o|id o]; try discriminate He.
  - rewrite Hc. reflexivity.
  - destruct Hc as (_ & _ & _ & Hs & _). exact Hs.
  - destruct Hc as (_ & _ & _ & _ & _ & _ & Hs & _). exact Hs.
  - destruct Hc as (_ & _ & _ & Hs & _). exact Hs.
Qed.

(** X6: each flow writes its own part of the state.  Over any run of
    events, the prediction cells (loading flag, result, top-level error,
    image-error flag) stay as they were unless the run has a submission,
    a settled prediction or an image error; the stored snapshot stays
    unless a market request settles; the catalog and its loading flag stay
    unless the option load settles; the form stays unless it is edited or
    the option load settles; the field-level error stays unless the form
    is edited or submitted. *)
Theorem flows_write_disjoint_cells (es : list Event) (w w' : World) :
  run w es = Some w' ->
  let s := page w in
  let s' := page w' in
  (without PredictionFlow es = true ->
   loading s' = loading s /\ result s' = result s /\ error s' = error s /\
   shapImgError s' = shapImgError s) /\
  (without MarketFlow es = true -> marketData s' = marketData s) /\
  (without OptionsFlow es = true ->
   formOptions s' = formOptions s /\ formOptionsLoading s' = formOptionsLoading s) /\
  (without FormFlow es = true -> without OptionsFlow es = true ->
   formData s' = formData s) /\
  (existsb edits_or_submits es = false -> sqftError s' = sqftError s).
Proof.
  cbv zeta. revert w. induction es as [|e es IH]; intros w; cbn [run].
  - intros [= <-]. repeat split; reflexivity.
  - destruct (step w e) as [w1|] eqn:Hstep; [|discriminate]. intros Hrun.
    destruct (IH w1 Hrun) as (IHp & IHm & IHo & IHf & IHs).
    destruct (step_flow_cells w w1 e Hstep) as (Hp & Hm & Ho & Hf & _).
    rewrite !without_cons.
    split; [|split; [|split; [|split]]].
    + intros [Hne Hw]. destruct (IHp Hw) as (-> & -> & -> & ->). auto.
    + intros [Hne Hw]. rewrite (IHm Hw). auto.
    + intros [Hne Hw]. destruct (IHo Hw) as (-> & ->). auto.
    + intros [Hne Hw] [Hne' Hw']. rewrite (IHf Hw Hw'). auto.
    + cbn [existsb]. intros [He Hes]%orb_false_iff.
      rewrite (IHs Hes). exact (step_field_error w w1 e Hstep He).
Qed.

(** A prediction is on the page; the form is edited and two market
    requests settle: the prediction is still there. *)
Lemma flows_write_disjoint_cells_witness :
  exists w',
    run firstSubmissionDone
      [MarketSettled 1 (Ok snapshotA); Change FSqft "1500"; MarketSettled 2 NotOk]
    = Some w' /\
    result (page w') = Some prediction350k /\ loading (page w') = false.
Proof.
  match goal with
  | |- exists w', run ?w ?es = _ /\ _ =>
      let r := eval vm_compute in (run w es) in
      match r with
      | Some ?x =>
          exists x;
          assert (Hrun : run w es = Some x) by (vm_compute; reflexivity);
          destruct (flows_write_disjoint_cells es w x Hrun) as (Hp & _);
          destruct (Hp eq_refl) as (Hl & Hr & _)
      end
  end.
  split; [exact Hrun|]. split.
  - rewrite Hr. vm_compute. reflexivity.
  - rewrite Hl. vm_compute. reflexivity.
Defined.

(** *** The market cells and the market panel *)

Lemma step_market_cells (w w' : World) (e : Event) :
  step w e = Some w' ->
  match e with
  | MarketSettled _ o => page w' = fetchMarketData_settled o (page w)
  | _ =>
      marketData (page w') = marketData (page w) /\
      (marketError (page w') = marketError (page w) \/ marketError (page w') = None)
  end.
Proof.
  intros Hstep.
  assert (Hd : flow e <> MarketFlow -> marketData (page w') = marketData (page w))
    by (destruct (step_flow_cells w w' e Hstep) as (_ & Hd & _); exact Hd).
  assert (He : flow e <> MarketFlow ->
               marketError (page w') = marketError (page w)
               \/ marketError (page w') = None).
  { intros Hf. destruct (step_requests w w' e Hstep)
      as [(_ & _ & _ & Hflags & _)|(r & Hopt & _ & _ & Hm & Hp)].
    - left. apply Hflags, Hf.
    - destruct r; try discriminate.
      + right. apply Hm. reflexivity.
      + left. destruct Hp as [_ ->]; reflexivity. }
  destruct e as [name value| | |id o|id o|id o];
    try (split; [apply Hd | apply He]; discriminate).
  apply step_shape in Hstep as [_ [_ ->]]. reflexivity.
Qed.

Lemma market_cells_reachable (w : World) :
  reachable w ->
  (forall data, marketData (page w) = Some data ->
     MarketInsights.locations data <> []) /\
  (forall e, marketError (page w) = Some e -> In e marketErrors).
Proof.
  induction 1 as [b|w e w' Hw [IHd IHe] Hstep].
  - destruct b; split; intros ?; discriminate.
  - pose proof (step_market_cells w w' e Hstep) as Hc.
    destruct e as [name value| | |id o|id o|id o].
    1-4, 6: destruct Hc as [-> [-> | ->]]; (split; [exact IHd|]);
      [exact IHe | discriminate].
    rewrite Hc. unfold fetchMarketData_settled. destruct o as [data| |m].
    + destruct (0 <? length (MarketInsights.locations data))%nat eqn:E; simpl.
      * split; [|exact IHe]. intros d [= <-] Hnil. rewrite Hnil in E. discriminate.
      * split; [discriminate|]. intros e [= <-]. simpl. auto.
    + simpl. split; [exact IHd|]. intros e [= <-]. simpl. auto.
    + simpl. split; [exact IHd|]. intros e [= <-]. simpl. auto.
Qed.

(** X7: in every world the page can reach, a stored snapshot has at least
    one location and a stored market error is one of the three texts of
    [fetchMarketData]; so the market card shows the spinner while the
    loading flag is up, the chart of the stored snapshot whenever there is
    one, and otherwise the stored error with the backend tip, or the
    default text without the tip when no error is stored.  In particular a
    stored error is not shown while a snapshot is stored. *)
Theorem market_panel_cases (w : World) :
  reachable w ->
  match marketPanel (page w) with
  | MarketSpinner => marketLoading (page w) = true
  | MarketChart data =>
      marketLoading (page w) = false /\ marketData (page w) = Some data /\
      MarketInsights.locations data <> []
  | MarketMessage text tip =>
      marketLoading (page w) = false /\ marketData (page w) = None /\
      match marketError (page w) with
      | Some e => text = e /\ tip = true /\ In e marketErrors
      | None => text = "No market data available" /\ tip = false
      end
  end.
Proof.
  intros Hr. destruct (market_cells_reachable w Hr) as [Hd He].
  unfold marketPanel. destruct (marketLoading (page w)); [reflexivity|].
  destruct (marketData (page w)) as [data|].
  - specialize (Hd data eq_refl).
    destruct (MarketInsights.locations data) as [|l ls] eqn:E; [congruence|].
    simpl. rewrite E. repeat split. discriminate.
  - unfold marketMessage. split; [reflexivity|]. split; [reflexivity|].
    destruct (marketError (page w)) as [e|]; [|split; reflexivity].
    specialize (He e eq_refl). simpl in He.
    destruct He as [<-|[<-|[<-|[]]]]; simpl; auto 10.
Qed.

(** The failing market request of the scenario of C6: the snapshot is
    still stored, so the card shows its chart and not the stored error. *)
Lemma market_panel_cases_witness :
  marketPanel
    (page (after [MarketSettled 1 (Ok snapshotA); Change FSqft "1200";
                  MarketSettled 2 NotOk]))
  = MarketChart snapshotA /\
  marketError
    (page (after [MarketSettled 1 (Ok snapshotA); Change FSqft "1200";
                  MarketSettled 2 NotOk]))
  = Some "Backend returned an error. Make sure the backend server is running.".
Proof.
  pose proof (market_panel_cases _
                (reachable_after [MarketSettled 1 (Ok snapshotA); Change FSqft "1200";
                                  MarketSettled 2 NotOk])) as H.
  split; [|vm_compute; reflexivity].
  destruct (marketPanel _) as [|data|text tip] eqn:E.
  - vm_compute in H. discriminate.
  - destruct H as (_ & Hd & _). vm_compute in Hd. injection Hd as <-. reflexivity.
  - destruct H as (_ & Hd & _). vm_compute in Hd. discriminate.
Defined.

(** *** Requests in flight *)

Lemma kinds_exclusive (r : Request) :
  (is_options r = true /\ is_market r = false /\ is_predict r = false) \/
  (is_options r = false /\ is_market r = true /\ is_predict r = false) \/
  (is_options r = false /\ is_market r = false /\ is_predict r = true).
Proof. destruct r; simpl; auto 10. Qed.

(** The request an event settles is of the kind of its flow. *)
Lemma settled_kind (w w' : World) (e : Event) (i : nat) (r : Request) :
  step w e = Some w' -> settles e = Some i -> pending w !! i = Some r ->
  match flow e with
  | FormFlow => False
  | OptionsFlow => is_options r = true
  | MarketFlow => is_market r = true
  | PredictionFlow => is_predict r = true
  end.
Proof.
  intros Hstep Hs Hp. apply step_shape in Hstep as [_ Hshape].
  destruct e as [name value| | |id o|id o|id o]; try discriminate;
    injection Hs as ->; simpl.
  - destruct Hshape as [H _]. rewrite Hp in H. injection H as ->. reflexivity.
  - destruct Hshape as [(r' & H & Hk) _]. rewrite Hp in H. injection H as ->. exact Hk.
  - destruct Hshape as [(r' & H & Hk) _]. rewrite Hp in H. injection H as ->. exact Hk.
Qed.

Lemma step_pending_keep (w w' : World) (e : Event) (i : nat) (r : Request) :
  Inv w -> step w e = Some w' ->
  pending w !! i = Some r -> settles e <> Some i -> pending w' !! i = Some r.
Proof.
  intros (I1 & _) Hstep Hp Hs.
  assert (Hrem : remaining e w !! i = Some r) by (apply remaining_lookup; auto).
  destruct (step_requests w w' e Hstep) as [(_ & -> & _)|(r' & _ & _ & -> & _)];
    [exact Hrem|].
  rewrite lookup_insert_ne; [exact Hrem|]. apply I1 in Hp. lia.
Qed.

Lemma step_pending_origin (w w' : World) (e : Event) (i : nat) (r : Request) :
  step w e = Some w' -> pending w' !! i = Some r ->
  (pending w !! i = Some r /\ settles e <> Some i) \/
  (i = length (issued w) /\ issued w' = issued w ++ [r] /\ is_options r = false).
Proof.
  intros Hstep Hp.
  destruct (step_requests w w' e Hstep) as [(_ & Heq & _)|(r' & Ho & Hi & Heq & _)];
    rewrite Heq in Hp.
  - left. apply remaining_lookup, Hp.
  - apply lookup_insert_Some in Hp as [[<- <-]|[_ Hp]]; [right; auto|].
    left. apply remaining_lookup, Hp.
Qed.

Lemma in_flight_step (kind : Request -> bool) (w w' : World) (e : Event) :
  Inv w -> step w e = Some w' -> in_flight kind w ->
  (forall i r, settles e = Some i -> pending w !! i = Some r -> kind r = false) ->
  in_flight kind w'.
Proof.
  intros HI Hstep (i & r & Hp & Hk) Hother. exists i, r. split; [|exact Hk].
  eapply step_pending_keep; eauto. intros Hs.
  specialize (Hother i r Hs Hp). congruence.
Qed.

Lemma market_loading_in_flight (w : World) :
  reachable w -> marketLoading (page w) = true -> in_flight is_market w.
Proof.
  induction 1 as [b|w e w' Hw IH Hstep].
  - intros _. exists 1, (GetMarketInsights "" "" "0" "").
    split; [destruct b; vm_compute; reflexivity | reflexivity].
  - intros Hl. pose proof (reachable_Inv w Hw) as HI.
    assert (Hf : flow e <> MarketFlow).
    { intros Hf. pose proof (step_market_cells w w' e Hstep) as Hc.
      destruct e; try discriminate. rewrite Hc in Hl.
      unfold fetchMarketData_settled in Hl. destruct o as [data| |m];
        try destruct (0 <? length (MarketInsights.locations data))%nat;
        discriminate. }
    assert (Hother : forall i r, settles e = Some i -> pending w !! i = Some r ->
                                 is_market r = false).
    { intros i r Hs Hp. pose proof (settled_kind w w' e i r Hstep Hs Hp) as Hk.
      destruct (flow e); try contradiction; try congruence;
        destruct (kinds_exclusive r) as [H|[H|H]]; destruct H as (? & ? & ?);
        congruence. }
    destruct (step_requests w w' e Hstep)
      as [(_ & _ & _ & Hflags & _)|(r & Ho & _ & Hp & Hm & Hpr)].
    + destruct (Hflags Hf) as [Hsame _]. rewrite Hsame in Hl.
      eapply in_flight_step; eauto.
    + destruct (kinds_exclusive r) as [H|[H|H]]; destruct H as (? & Hmk & Hpk);
        [congruence| |].
      * exists (length (issued w)), r. rewrite Hp, lookup_insert_eq. auto.
      * destruct (Hpr Hpk) as [-> Hpage]. rewrite Hpage in Hl.
        eapply in_flight_step; eauto.
Qed.

Lemma loading_in_flight (w : World) :
  reachable w -> loading (page w) = true -> in_flight is_predict w.
Proof.
  induction 1 as [b|w e w' Hw IH Hstep]; [destruct b; discriminate|].
  intros Hl. pose proof (reachable_Inv w Hw) as HI.
  assert (Hns : forall id o, e <> PredictSettled id o).
  { intros id o ->. apply step_shape in Hstep as [_ [_ ->]].
    destruct o; discriminate. }
  assert (Hother : forall i r, settles e = Some i -> pending w !! i = Some r ->
                               is_predict r = false).
  { intros i r Hs Hp. pose proof (settled_kind w w' e i r Hstep Hs Hp) as Hk.
    destruct e as [name value| | |id o|id o|id o]; try discriminate; simpl in Hk.
    - destruct r; try discriminate; reflexivity.
    - destruct r; try discriminate; reflexivity.
    - destruct (Hns id o eq_refl). }
  destruct (step_requests w w' e Hstep)
    as [(_ & _ & _ & _ & Hsub)|(r & Ho & _ & Hp & Hm & Hpr)].
  - assert (Hsame : loading (page w') = loading (page w)).
    { destruct e as [name value| | |id o|id o|id o].
      - destruct (step_flow_cells w w' _ Hstep) as (H & _). apply H. discriminate.
      - apply Hsub. reflexivity.
      - rewrite (step_cells w w' _ Hstep). reflexivity.
      - destruct (step_flow_cells w w' _ Hstep) as (H & _). apply H. discriminate.
      - destruct (step_flow_cells w w' _ Hstep) as (H & _). apply H. discriminate.
      - destruct (Hns id o eq_refl). }
    rewrite Hsame in Hl. eapply in_flight_step; eauto.
  - destruct (kinds_exclusive r) as [H|[H|H]]; destruct H as (? & Hmk & Hpk);
      [congruence| |].
    + destruct (Hm Hmk) as (_ & _ & _ & Hfd).
      assert (Hsame : loading (page w') = loading (page w)).
      { destruct (step_flow_cells w w' e Hstep) as (Hpc & _ & _ & Hfc & _).
        destruct e as [name value| | |id o|id o|id o];
          try (apply Hpc; discriminate);
          exfalso; apply Hfd, Hfc; discriminate. }
      rewrite Hsame in Hl. eapply in_flight_step; eauto.
    + exists (length (issued w)), r. rewrite Hp, lookup_insert_eq. auto.
Qed.

(** X8: the busy flags are backed by requests.  In every world the page
    can reach, the market spinner is up only while a market request is in
    flight, and the submission is loading (the submit button disabled)
    exactly while a prediction request is in flight. *)
Theorem busy_flags_have_requests (w : World) :
  reachable w ->
  (marketLoading (page w) = true -> in_flight is_market w) /\
  (loading (page w) = true <-> in_flight is_predict w).
Proof.
  intros Hr. split; [apply market_loading_in_flight, Hr|]. split.
  - apply loading_in_flight, Hr.
  - intros (i & r & Hp & Hk).
    destruct (reachable_Inv w Hr) as (_ & I2 & _).
    destruct (I2 i r Hp Hk) as [Hl _]. exact Hl.
Qed.

Lemma busy_flags_have_requests_witness :
  in_flight is_market (after [Change FSqft "1200"; Submit]) /\
  in_flight is_predict (after [Change FSqft "1200"; Submit]).
Proof.
  destruct (busy_flags_have_requests (after [Change FSqft "1200"; Submit]))
    as [Hm [Hp _]]; [apply reachable_after|].
  split; [apply Hm | apply Hp]; vm_compute; reflexivity.
Defined.

(** *** The option load *)

(** X9: the options are requested by the effect of the first render and
    by nothing else.  Whatever events follow the first render, the
    requests for the options that have been sent are those of that effect
    (one in a production build, two in a development build under
    [StrictMode]); a request for the options that is in flight was in
    flight after the first render; and no event sends one, so a load that
    failed is not tried again. *)
Theorem options_requested_by_mount_only (b : Build) (es : list Event) (w : World) :
  run (mountIn b) es = Some w ->
  List.filter is_options (issued w) = repeat GetFormOptions (effect_runs b) /\
  (forall id, pending w !! id = Some GetFormOptions ->
              pending (mountIn b) !! id = Some GetFormOptions) /\
  (forall e w', step w e = Some w' ->
     List.filter is_options (issued w') = List.filter is_options (issued w)).
Proof.
  assert (Hstep : forall w0 e w1, step w0 e = Some w1 ->
            List.filter is_options (issued w1) = List.filter is_options (issued w0)).
  { intros w0 e w1 H.
    destruct (step_requests w0 w1 e H) as [(-> & _)|(r & Ho & -> & _)];
      [reflexivity|].
    rewrite List.filter_app. simpl. rewrite Ho. apply app_nil_r. }
  assert (Hrun : forall es0 w0 w1, run w0 es0 = Some w1 ->
            List.filter is_options (issued w1) = List.filter is_options (issued w0) /\
            (forall id, pending w1 !! id = Some GetFormOptions ->
                        pending w0 !! id = Some GetFormOptions)).
  { induction es0 as [|e es0 IH]; intros w0 w1; cbn [run].
    - intros [= <-]. auto.
    - destruct (step w0 e) as [w2|] eqn:H2; [|discriminate]. intros H.
      destruct (IH w2 w1 H) as [Hf Hp]. split.
      + rewrite Hf. eapply Hstep, H2.
      + intros id Hid. apply Hp in Hid.
        apply (step_pending_origin w0 w2 e id _ H2) in Hid as [[Hid _]|(_ & _ & Ho)];
          [exact Hid | discriminate]. }
  intros H. destruct (Hrun es (mountIn b) w H) as [Hf Hp].
  split; [|split; [exact Hp | exact (Hstep w)]].
  rewrite Hf. destruct b; vm_compute; reflexivity.
Qed.

(** Under [StrictMode] two requests for the options are sent.  The first
    fails and the second brings the catalog: nothing more is sent. *)
Lemma options_requested_by_mount_only_witness :
  exists w,
    run (mountIn Development) secondLoadArrives = Some w /\
    List.filter is_options (issued w) = [GetFormOptions; GetFormOptions] /\
    formOptions (page w) = sampleOptions.
Proof.
  match goal with
  | |- exists w, run ?w0 ?es = _ /\ _ =>
      let r := eval vm_compute in (run w0 es) in
      match r with
      | Some ?x =>
          exists x;
          assert (Hrun : run w0 es = Some x) by (vm_compute; reflexivity);
          destruct (options_requested_by_mount_only Development es x Hrun)
            as (Hsent & _)
      end
  end.
  split; [exact Hrun|]. split; [exact Hsent|]. vm_compute. reflexivity.
Defined.

(** *** The market request and the form *)

Lemma lastMarket_snoc (l : list Request) (r : Request) :
  lastMarket (l ++ [r]) = if is_market r then Some r else lastMarket l.
Proof. unfold lastMarket. rewrite rev_app_distr. reflexivity. Qed.

(** X10: the market request follows the form.  In every world the page
    can reach, the most recent market request sent is the one for the form
    as it is now: it carries the status, the location and the property
    type of the form, and the square footage as typed, valid or not, or
    [0] when the field is empty. *)
Theorem market_request_follows_form (w : World) :
  reachable w ->
  lastMarket (issued w)
  = Some (GetMarketInsights (Status (formData (page w))) (Location (formData (page w)))
            (or_str (Sqft (formData (page w))) "0") (PropertyType (formData (page w)))).
Proof.
  induction 1 as [b|w e w' Hw IH Hstep]; [destruct b; reflexivity|].
  destruct (step_requests w w' e Hstep)
    as [(-> & _ & -> & _)|(r & Ho & -> & _ & Hm & Hp)]; [exact IH|].
  rewrite lastMarket_snoc.
  destruct (kinds_exclusive r) as [H|[H|H]]; destruct H as (? & Hmk & Hpk);
    [congruence| |]; rewrite Hmk.
  - destruct (Hm Hmk) as (-> & _). reflexivity.
  - destruct (Hp Hpk) as [_ ->]. exact IH.
Qed.

Lemma market_request_follows_form_witness :
  lastMarket (issued (after [OptionsSettled 0 (Threw "Failed to fetch");
                             Change FSqft "abc"; Submit]))
  = Some (GetMarketInsights "Rent" "Colombo 03" "abc" "Office Space").
Proof.
  rewrite market_request_follows_form by apply reachable_after.
  vm_compute. reflexivity.
Defined.

(** *** The explanation image *)

Lemma image_flag_reachable (w : World) :
  reachable w -> shapImgError (page w) = true ->
  exists r, result (page w) = Some r /\ truthy (shap_image_base64 r) = true.
Proof.
  induction 1 as [b|w e w' Hw IH Hstep]; [destruct b; discriminate|].
  intros Hflag. pose proof (step_shape w w' e Hstep) as [Hen Hshape].
  destruct e as [name value| | |id o|id o|id o].
  - destruct (step_cells w w' _ Hstep) as (_ & _ & _ & Hres & _ & _ & Himg).
    rewrite Hres. apply IH. congruence.
  - destruct Hshape as [[reason ->]| ->]; [apply IH, Hflag | discriminate].
  - subst w'. simpl in Hen. simpl.
    destruct (result (page w)) as [r|]; [|discriminate].
    apply andb_true_iff in Hen as [_ Ht]. eauto.
  - destruct (step_cells w w' _ Hstep) as (_ & Hres & _ & _ & _ & Himg).
    rewrite Hres. apply IH. congruence.
  - destruct (step_cells w w' _ Hstep) as (_ & _ & _ & _ & Hres & _ & _ & Himg).
    rewrite Hres. apply IH. congruence.
  - exfalso.
    destruct (step_cells w w' _ Hstep) as (_ & _ & _ & _ & _ & _ & _ & Himg).
    rewrite Himg in Hflag. destruct (IH Hflag) as (r & Hres & _).
    destruct Hshape as [(r' & Hp & Hk) _].
    destruct (reachable_Inv w Hw) as (_ & I2 & _).
    destruct (I2 id r' Hp Hk) as [_ Hnone]. congruence.
Qed.

(** X11: the notice that the explanation image could not be rendered is
    tied to the result on the page.  In every world the page can reach,
    the image-error flag is up only over a result that carries an image;
    and when a prediction arrives, the flag is down: the box shows the
    image of the new result, or that none is available, never the notice
    left from an earlier result. *)
Theorem explanation_panel_fresh (w : World) :
  reachable w ->
  (shapImgError (page w) = true ->
   exists r, result (page w) = Some r /\ truthy (shap_image_base64 r) = true /\
             shapPanel (page w) r = ShapNotRendered) /\
  (forall id data w', step w (PredictSettled id (Ok data)) = Some w' ->
     result (page w') = Some data /\
     shapPanel (page w') data
     = if truthy (shap_image_base64 data)
       then ShapImage ("data:image/png;base64," ++ shap_image_base64 data)
       else ShapNotAvailable).
Proof.
  intros Hr. split.
  - intros Hflag. destruct (image_flag_reachable w Hr Hflag) as (r & Hres & Ht).
    exists r. unfold shapPanel. rewrite Hflag. auto.
  - intros id data w' Hstep.
    pose proof (step_shape w w' _ Hstep) as [_ [(r & Hp & Hk) Hw']].
    destruct (reachable_Inv w Hr) as (_ & I2 & _).
    destruct (I2 id r Hp Hk) as [_ Hnone].
    assert (Hflag : shapImgError (page w) = false).
    { destruct (shapImgError (page w)) eqn:E; [|reflexivity].
      destruct (image_flag_reachable w Hr E) as (r0 & Hres & _). congruence. }
    subst w'. split; [reflexivity|].
    unfold shapPanel. simpl. rewrite Hflag. reflexivity.
Qed.

(** The image of a first result fails to render; the next result, which
    has no image, shows that none is available. *)
Lemma explanation_panel_fresh_witness :
  exists w w',
    run firstSubmissionDone [ImgError; Submit] = Some w /\
    shapImgError (page (after [Change FSqft "1200"; Submit;
                               PredictSettled 3 (Ok prediction350k); ImgError])) = true /\
    step w (PredictSettled 4 (Ok (mkPredictionResponse (of_Z 1) "" [] (of_Z 0))))
    = Some w' /\
    shapPanel (page w') (mkPredictionResponse (of_Z 1) "" [] (of_Z 0))
    = ShapNotAvailable.
Proof.
  match goal with
  | |- exists w w', run ?w0 ?es = _ /\ _ =>
      let r := eval vm_compute in (run w0 es) in
      match r with
      | Some ?x =>
          exists x;
          assert (Hrun : run w0 es = Some x) by (vm_compute; reflexivity);
          assert (Hr : reachable x)
            by (eapply reachable_run; [apply reachable_after | exact Hrun])
      end
  end.
  match goal with
  | |- exists w', _ /\ _ /\ step ?w ?e = _ /\ _ =>
      let r := eval vm_compute in (step w e) in
      match r with
      | Some ?x =>
          exists x;
          assert (Hstep : step w e = Some x) by (vm_compute; reflexivity);
          destruct (explanation_panel_fresh w Hr) as [_ Hfresh];
          destruct (Hfresh _ _ _ Hstep) as [_ Hpanel]
      end
  end.
  split; [exact Hrun|]. split; [vm_compute; reflexivity|].
  split; [exact Hstep | exact Hpanel].
Defined.

(** *** The selects *)





(** *** Edits *)

(** X13: what an edit of the form does.  The field takes the new value;
    an edit of the square footage clears the field-level error, an edit of
    a select keeps it.  When the value is the one the field already had,
    nothing is sent and the market cells stay as they were.  Otherwise
    exactly one market request is sent, for the form as edited (with [0]
    for an empty square footage); the market loading flag goes up and the
    market error is cleared, while the stored snapshot is kept until a
    response arrives. *)
Theorem edit_resyncs_market (w w' : World) (name : Field) (value : string) :
  step w (Change name value) = Some w' ->
  let fd' := setField name value (formData (page w)) in
  formData (page w') = fd' /\
  sqftError (page w')
  = match name with FSqft => None | _ => sqftError (page w) end /\
  marketData (page w') = marketData (page w) /\
  (fd' = formData (page w) ->
   issued w' = issued w /\ pending w' = pending w /\
   marketLoading (page w') = marketLoading (page w) /\
   marketError (page w') = marketError (page w)) /\
  (fd' <> formData (page w) ->
   issued w'
   = issued w ++ [GetMarketInsights (Status fd') (Location fd')
                    (or_str (Sqft fd') "0") (PropertyType fd')] /\
   pending w' !! length (issued w)
   = Some (GetMarketInsights (Status fd') (Location fd') (or_str (Sqft fd') "0")
             (PropertyType fd')) /\
   marketLoading (page w') = true /\ marketError (page w') = None).
Proof.
  intros Hstep. cbv zeta. apply step_shape in Hstep as [_ ->].
  assert (Hfd : formData (page (onPage (handleChange name value) w))
                = setField name value (formData (page w)))
    by (destruct name; reflexivity).
  match goal with
  | |- context [marketEffect ?fd ?w0] =>
      destruct (marketEffect_cases fd w0) as [[Hsame ->]|[Hne ->]]
  end.
  - rewrite Hfd in Hsame.
    split; [exact Hfd|]. split; [destruct name; reflexivity|].
    split; [destruct name; reflexivity|]. split.
    + intros _. destruct name; repeat split; reflexivity.
    + intros Hdiff. contradiction.
  - rewrite Hfd in Hne.
    split; [exact Hfd|]. split; [destruct name; reflexivity|].
    split; [destruct name; reflexivity|]. split.
    + intros Heq. contradiction.
    + intros _. split; [|split; [|split; reflexivity]].
      * change (issued w
                ++ [marketRequestFor (formData (page (onPage (handleChange name value) w)))]
                = issued w ++ [marketRequestFor (setField name value (formData (page w)))]).
        rewrite Hfd. reflexivity.
      * change (<[length (issued w)
                  := marketRequestFor
                       (formData (page (onPage (handleChange name value) w)))]>
                  (pending w) !! length (issued w)
                = Some (marketRequestFor (setField name value (formData (page w))))).
        rewrite lookup_insert_eq, Hfd. reflexivity.
Qed.

(** The square footage is emptied, then typed again with the same text. *)
Lemma edit_resyncs_market_witness :
  exists w1 w2,
    step (after [Change FSqft "1200"]) (Change FSqft "") = Some w1 /\
    step w1 (Change FSqft "") = Some w2 /\
    issued w1 = issued (after [Change FSqft "1200"])
                  ++ [GetMarketInsights "" "" "0" ""] /\
    issued w2 = issued w1.
Proof.
  match goal with
  | |- exists w1 w2, step ?w ?e = _ /\ _ =>
      let r := eval vm_compute in (step w e) in
      match r with
      | Some ?x =>
          exists x;
          assert (H1 : step w e = Some x) by (vm_compute; reflexivity);
          destruct (edit_resyncs_market w x FSqft "" H1) as (_ & _ & _ & _ & Hsent)
      end
  end.
  match goal with
  | |- exists w2, _ /\ step ?w ?e = _ /\ _ =>
      let r := eval vm_compute in (step w e) in
      match r with
      | Some ?x =>
          exists x;
          assert (H2 : step w e = Some x) by (vm_compute; reflexivity);
          destruct (edit_resyncs_market w x FSqft "" H2) as (_ & _ & _ & Hnone & _)
      end
  end.
  split; [exact H1|]. split; [exact H2|]. split.
  - destruct Hsent as (Hi & _); [vm_compute; discriminate|].
    rewrite Hi. vm_compute. reflexivity.
  - destruct Hnone as (Hi & _); [vm_compute; reflexivity | exact Hi].
Defined.

(** *** What is never shown together *)

(** X14: in every world the page can reach, while a submission is loading
    there is no result, no top-level error, no field-level error and no
    image error on the page; a result and a top-level error are never on
    the page together; and while the market spinner is up no market error
    is stored. *)
Theorem busy_page_is_clean (w : World) :
  reachable w ->
  (loading (page w) = true ->
   result (page w) = None /\ error (page w) = None /\ sqftError (page w) = None /\
   shapImgError (page w) = false) /\
  (result (page w) <> None -> error (page w) = None) /\
  (marketLoading (page w) = true -> marketError (page w) = None).
Proof.
  induction 1 as [b|w e w' Hw (IHl & IHr & IHm) Hstep].
  - destruct b; (split; [discriminate|]); split; intros; reflexivity.
  - pose proof (step_shape w w' e Hstep) as [Hen Hshape].
    assert (Hmarket : marketLoading (page w') = true -> marketError (page w') = None).
    { destruct (step_requests w w' e Hstep)
        as [(_ & _ & _ & Hflags & _)|(r & Ho & _ & _ & Hmk & Hpr)].
      - destruct (flow e) eqn:Hf.
        1, 2, 4: destruct Hflags as [-> ->]; [discriminate | exact IHm].
        destruct e; try discriminate. destruct Hshape as [_ ->].
        unfold fetchMarketData_settled. destruct o as [data| |m];
          try destruct (0 <? length (MarketInsights.locations data))%nat;
          discriminate.
      - destruct (kinds_exclusive r) as [H|[H|H]]; destruct H as (? & Hm & Hp);
          [congruence| |].
        + intros _. apply Hmk, Hm.
        + destruct (Hpr Hp) as [_ ->]. exact IHm. }
    destruct e as [name value| | |id o|id o|id o].
    + destruct (step_cells w w' _ Hstep) as (_ & _ & Hl & Hres & Herr & _ & Himg).
      rewrite Hl, Hres, Herr, Himg. split; [|split; assumption].
      intros Hload. destruct (IHl Hload) as (? & ? & Hs & ?).
      repeat split; try assumption. subst w'.
      match goal with
      | |- context [marketEffect ?fd ?w0] =>
          destruct (marketEffect_frame fd w0) as (_ & _ & _ & _ & _ & _ & -> & _)
      end.
      destruct name; simpl; auto.
    + simpl in Hen. apply negb_true_iff in Hen.
      destruct Hshape as [[reason ->]| ->]; simpl.
      * split; [congruence|]. split; [reflexivity | exact Hmarket].
      * split; [auto|]. split; [reflexivity | exact Hmarket].
    + subst w'. simpl in *. destruct (result (page w)) as [r|] eqn:Hres; [|discriminate].
      split; [|split; assumption].
      intros Hload. destruct (IHl Hload) as (? & _). discriminate.
    + destruct (step_cells w w' _ Hstep) as (-> & -> & -> & -> & _ & ->).
      split; [|split]; assumption.
    + destruct (step_cells w w' _ Hstep)
        as (_ & _ & _ & -> & -> & -> & -> & ->).
      split; [|split]; assumption.
    + destruct Hshape as [(r & Hp & Hk) Hw'].
      destruct (reachable_Inv w Hw) as (_ & I2 & _).
      destruct (I2 id r Hp Hk) as [Hload Hnone].
      destruct (IHl Hload) as (_ & Herr & _).
      split; [|split; [|exact Hmarket]]; subst w'.
      * destruct o; discriminate.
      * destruct o as [data| |m]; simpl; [auto | congruence..].
Qed.

(** A submission fails, then a second one succeeds: the message of the
    first is gone when the result of the second is shown. *)
Lemma busy_page_is_clean_witness :
  error (page (after [Change FSqft "1200"; Submit; PredictSettled 3 NotOk]))
  = Some "Failed to get prediction from the backend." /\
  result (page (after [Change FSqft "1200"; Submit; PredictSettled 3 NotOk;
                       Submit; PredictSettled 4 (Ok prediction350k)]))
  = Some prediction350k /\
  error (page (after [Change FSqft "1200"; Submit; PredictSettled 3 NotOk;
                      Submit; PredictSettled 4 (Ok prediction350k)]))
  = None.
Proof.
  split; [vm_compute; reflexivity|]. split; [vm_compute; reflexivity|].
  destruct (busy_page_is_clean
              (after [Change FSqft "1200"; Submit; PredictSettled 3 NotOk;
                      Submit; PredictSettled 4 (Ok prediction350k)]))
    as (_ & Hr & _); [apply reachable_after|].
  apply Hr. vm_compute. discriminate.
Defined.

End Page.
